(** * Productive-Simple-MCP: gateway client retries and response sanitizer

    A shallow embedding of
    - [src/productive_client.py]: [_parse_error_response], [_should_retry],
      [_request];
    - [src/utils.py]: [get_webapp_url], [_filter_attributes],
      [_filter_task_list_attributes], [remove_null_and_empty],
      [_clean_meta_object], [filter_response], [_add_webapp_url],
      [_extract_workflow_status_name], [filter_task_list_response],
      [filter_page_list_response];
    - [src/tools_read.py]: the post-processing of [get_task] and [get_tasks].

    Python values that reach the sanitizer come from [response.json()], so
    they are JSON values.  Mappings are kept as association lists in
    insertion order, as a Python [dict] keeps them; a Python [dict] never
    holds a key twice, which is the well-formedness predicate [json_wf].
    Numbers are the integers ([int]); floating-point numbers are outside
    the model.  Python exceptions are values of an error monad. *)

From Stdlib Require Import List String Ascii Bool ZArith QArith Lia.
From Stdlib Require Import DecimalString.
Import ListNotations.
Local Close Scope Q_scope.
Local Open Scope string_scope.

(** ** JSON values *)

Unset Elimination Schemes.
Inductive json : Type :=
| JNull
| JBool (b : bool)
| JNum (n : Z)
| JStr (s : string)
| JArr (items : list json)
| JObj (fields : list (string * json)).
Set Elimination Schemes.

Abbreviation dict := (list (string * json)).


(** ** Python exceptions as an error monad *)

Inductive exn : Type :=
| AttributeError        (* [.get] / [.items] on a value that has none *)
| TypeError             (* unhashable key, bad subscript, bad [dict()] call *)
| ValueError            (* [dict()] over entries that are not pairs *)
| KeyError              (* [d[k]] on a missing key *)
| NonStringKey.         (* [dict()] built a key that is not a string: the
                           mapping is not a JSON value and the model stops *)

Inductive result (A : Type) : Type :=
| Ok (a : A)
| Raise (e : exn).
Arguments Ok {A} a.
Arguments Raise {A} e.

Definition bind {A B} (m : result A) (k : A -> result B) : result B :=
  match m with
  | Ok a => k a
  | Raise e => Raise e
  end.

Notation "x <- m ;; k" := (bind m (fun x => k))
  (at level 61, m at next level, right associativity).

(** [for x in xs: ...] collecting one result per element; the first
    exception ends the loop. *)
Fixpoint mapM {A B} (f : A -> result B) (xs : list A) : result (list B) :=
  match xs with
  | [] => Ok []
  | x :: r => y <- f x ;; ys <- mapM f r ;; Ok (y :: ys)
  end.

(** ** Python [dict] operations on association lists *)

(** [d.get(k)]: [None] when the key is missing. *)
Fixpoint dict_get (k : string) (d : dict) : option json :=
  match d with
  | [] => None
  | (k', v) :: r => if String.eqb k k' then Some v else dict_get k r
  end.

(** [k in d] *)
Definition dict_mem (k : string) (d : dict) : bool :=
  match dict_get k d with Some _ => true | None => false end.

(** [d[k] = v]: an existing key keeps its place, a new one goes last. *)
Fixpoint dict_set (k : string) (v : json) (d : dict) : dict :=
  match d with
  | [] => [(k, v)]
  | (k', v') :: r =>
      if String.eqb k k' then (k', v) :: r else (k', v') :: dict_set k v r
  end.

(** [d.pop(k, None)] *)
Fixpoint dict_pop (k : string) (d : dict) : dict :=
  match d with
  | [] => []
  | (k', v) :: r =>
      if String.eqb k k' then dict_pop k r else (k', v) :: dict_pop k r
  end.

Definition keys (d : dict) : list string := map fst d.

Fixpoint mem_string (k : string) (l : list string) : bool :=
  match l with
  | [] => false
  | x :: r => String.eqb k x || mem_string k r
  end.

Fixpoint nodup_keys (l : list string) : bool :=
  match l with
  | [] => true
  | x :: r => negb (mem_string x r) && nodup_keys r
  end.

(** A JSON value as Python holds it: no mapping has a key twice. *)
Fixpoint json_wf (j : json) : bool :=
  match j with
  | JArr l => forallb json_wf l
  | JObj d => nodup_keys (map fst d) && forallb (fun kv => json_wf (snd kv)) d
  | _ => true
  end.

(** ** Python truth, equality and formatting on JSON values *)

(** [bool(v)] *)
Definition truthy (v : json) : bool :=
  match v with
  | JNull => false
  | JBool b => b
  | JNum n => negb (Z.eqb n 0)
  | JStr s => negb (String.eqb s "")
  | JArr l => match l with [] => false | _ => true end
  | JObj d => match d with [] => false | _ => true end
  end.

(** [v in (None, "", {}, [])]: the test of [remove_null_and_empty]. *)
Definition is_empty (v : json) : bool :=
  match v with
  | JNull => true
  | JStr s => String.eqb s ""
  | JArr [] => true
  | JObj [] => true
  | _ => false
  end.

Definition Z_of_bool (b : bool) : Z := if b then 1%Z else 0%Z.

(** [a == b]: [True == 1] and [False == 0] hold in Python, sequences compare
    element by element, mappings compare as sets of entries. *)
Fixpoint py_eq (a b : json) {struct a} : bool :=
  match a, b with
  | JNull, JNull => true
  | JBool x, JBool y => Bool.eqb x y
  | JBool x, JNum n => Z.eqb (Z_of_bool x) n
  | JNum n, JBool y => Z.eqb n (Z_of_bool y)
  | JNum n, JNum m => Z.eqb n m
  | JStr s, JStr t => String.eqb s t
  | JArr l, JArr m =>
      (fix go (l m : list json) {struct l} : bool :=
         match l, m with
         | [], [] => true
         | x :: l', y :: m' => py_eq x y && go l' m'
         | _, _ => false
         end) l m
  | JObj d, JObj e =>
      Nat.eqb (List.length d) (List.length e) &&
      (fix go (d : dict) {struct d} : bool :=
         match d with
         | [] => true
         | (k, v) :: d' =>
             match dict_get k e with
             | Some w => py_eq v w && go d'
             | None => false
             end
         end) d
  | _, _ => false
  end.

(** [v == "text"] *)
Definition eq_str (v : option json) (s : string) : bool :=
  match v with
  | Some (JStr t) => String.eqb t s
  | _ => false
  end.

Definition string_of_Z (n : Z) : string :=
  NilZero.string_of_int (Z.to_int n).

(** [needle in hay] on strings *)
Fixpoint contains (needle hay : string) : bool :=
  String.prefix needle hay ||
  match hay with
  | EmptyString => false
  | String _ t => contains needle t
  end.

(** [k in c] for a string [k]: key of a mapping, element of a sequence,
    substring of a string; other values are not containers. *)
Definition py_in (k : string) (c : json) : result bool :=
  match c with
  | JObj d => Ok (dict_mem k d)
  | JArr l => Ok (existsb (fun x => py_eq x (JStr k)) l)
  | JStr s => Ok (contains k s)
  | _ => Raise TypeError
  end.

(** [c.get(k, default)]: only mappings have [get]. *)
Definition py_get (c : json) (k : string) (default : json) : result json :=
  match c with
  | JObj d =>
      Ok (match dict_get k d with Some v => v | None => default end)
  | _ => Raise AttributeError
  end.

(** [c[k]] for a string [k] *)
Definition py_getitem (c : json) (k : string) : result json :=
  match c with
  | JObj d =>
      match dict_get k d with Some v => Ok v | None => Raise KeyError end
  | _ => Raise TypeError
  end.

(** [c[k] = v] for a string [k] *)
Definition py_setitem (c : json) (k : string) (v : json) : result json :=
  match c with
  | JObj d => Ok (JObj (dict_set k v d))
  | _ => Raise TypeError
  end.

(** One entry of the sequence given to [dict()]: a list of two items, a
    string of two characters, or a mapping of two keys. *)
Definition py_dict_entry (e : json) : result (string * json) :=
  match e with
  | JArr [k; v] =>
      match k with
      | JStr s => Ok (s, v)
      | JArr _ | JObj _ => Raise TypeError
      | _ => Raise NonStringKey
      end
  | JArr _ => Raise ValueError
  | JStr (String a (String b EmptyString)) =>
      Ok (String a EmptyString, JStr (String b EmptyString))
  | JStr _ => Raise ValueError
  | JObj [(k1, _); (k2, _)] => Ok (k1, JStr k2)
  | JObj _ => Raise ValueError
  | _ => Raise TypeError
  end.

Fixpoint py_dict_update (entries : list json) (acc : dict) : result dict :=
  match entries with
  | [] => Ok acc
  | e :: r =>
      kv <- py_dict_entry e ;;
      py_dict_update r (dict_set (fst kv) (snd kv) acc)
  end.

(** [dict(v)]: a copy of a mapping; otherwise [v] is iterated for entries. *)
Definition py_dict (v : json) : result dict :=
  match v with
  | JObj d => Ok d
  | JArr l => py_dict_update l []
  | JStr EmptyString => Ok []
  | JStr _ => Raise ValueError
  | _ => Raise TypeError
  end.

(** ** Loops over mappings and sequences *)

Section Loops.
Variable entry : string -> json -> result (option json).

(** [for key, value in obj.items()] where the body either skips the key
    ([continue], or nothing stored) or stores [result[key] = v]. *)
Fixpoint dict_loop (items : dict) (acc : dict) : result dict :=
  match items with
  | [] => Ok acc
  | (key, value) :: rest =>
      match entry key value with
      | Raise e => Raise e
      | Ok None => dict_loop rest acc
      | Ok (Some v) => dict_loop rest (dict_set key v acc)
      end
  end.

Variable clean : json -> result json.

(** [for item in obj] appending the cleaned items that are not empty. *)
Fixpoint list_loop (items : list json) : result (list json) :=
  match items with
  | [] => Ok []
  | item :: rest =>
      cleaned_item <- clean item ;;
      rest' <- list_loop rest ;;
      Ok (if is_empty cleaned_item then rest' else cleaned_item :: rest')
  end.
End Loops.

(** ** [src/utils.py]: the response sanitizer *)

Module Utils.

(** Per-type tables of [_filter_attributes]. *)
Definition remove_fields : list (string * list string) :=
  [ ("tasks", ["creation_method_id"; "email_key"; "placement"]);
    ("comments", []);
    ("todos", []);
    ("pages", ["preferences"; "cover_image_meta"; "custom_fields";
               "version_number"; "position"]);
    ("page", ["preferences"; "cover_image_meta"; "custom_fields";
              "version_number"; "position"]);
    ("attachments", ["attachable_type"; "attachable_id"]);
    ("projects", ["sample_data"; "template"; "time_on_tasks";
                  "project_color_id"; "duplication_status";
                  "project_type_id"; "preferences"; "number"]) ].

Definition html_fields : list (string * list string) :=
  [ ("tasks", ["description"]);
    ("comments", ["body"]);
    ("todos", ["description"]);
    ("pages", []);
    ("page", []) ].

Fixpoint assoc_fields (t : string) (table : list (string * list string))
  : list string :=
  match table with
  | [] => []
  | (t', fs) :: r => if String.eqb t t' then fs else assoc_fields t r
  end.

(** [table.get(obj_type, [])]: the key is hashed first, and a list or a
    mapping is unhashable; no other non-string key equals a string key. *)
Definition table_get (table : list (string * list string)) (obj_type : json)
  : result (list string) :=
  match obj_type with
  | JStr t => Ok (assoc_fields t table)
  | JArr _ | JObj _ => Raise TypeError
  | _ => Ok []
  end.

Definition essential_fields : list string :=
  [ "title"; "task_number"; "closed"; "created_at"; "updated_at";
    "initial_estimate"; "remaining_time"; "worked_time"; "billable_time";
    "closed_at"; "type_id"; "private"; "workflow_status_name" ].

(** [{k: v for k, v in attributes.items() if k in essential_fields}] *)
Definition _filter_task_list_attributes (attributes : json) : result dict :=
  match attributes with
  | JObj a => Ok (filter (fun kv => mem_string (fst kv) essential_fields) a)
  | _ => Raise AttributeError
  end.

(** [_clean_meta_object]: [is False] is the identity test with the boolean
    [False], so the number 0 does not pass it. *)
Definition _clean_meta_object (meta : json) : result dict :=
  cleaned <- py_dict meta ;;
  let cleaned :=
    match dict_get "included" cleaned with
    | Some (JBool false) => dict_pop "included" cleaned
    | _ => cleaned
    end in
  Ok (dict_pop "settings" cleaned).

(** [{k: v for k, v in value.items() if k != "organization"}] *)
Definition drop_organization (value : dict) : dict :=
  filter (fun kv => negb (String.eqb (fst kv) "organization")) value.

Section Sanitizer.
(** [config.organization] as it prints in an f-string. *)
Variable organization : string.
(** [bleach.clean(text, tags=[], strip=True)] of the bleach library. *)
Variable bleach_clean : string -> string.
(** Python's [str()] of a list or a mapping. *)
Variable py_repr : json -> string.

(** [f"{v}"] *)
Definition py_str (v : json) : string :=
  match v with
  | JNull => "None"
  | JBool true => "True"
  | JBool false => "False"
  | JNum n => string_of_Z n
  | JStr s => s
  | _ => py_repr v
  end.

Definition get_webapp_url (resource_type resource_id : json) : string :=
  "https://app.productive.io/" ++ organization ++ "/" ++
  py_str resource_type ++ "/" ++ py_str resource_id.

(** The second loop of [_filter_attributes]. *)
Definition strip_field (filtered : dict) (field : string) : dict :=
  match dict_get field filtered with
  | Some (JStr s) => dict_set field (JStr (bleach_clean s)) filtered
  | _ => filtered
  end.

Definition _filter_attributes (attributes : dict) (obj_type : json)
  : result dict :=
  let filtered := attributes in
  to_remove <- table_get remove_fields obj_type ;;
  let filtered :=
    fold_left (fun d field => dict_pop field d) to_remove filtered in
  to_strip <- table_get html_fields obj_type ;;
  Ok (fold_left strip_field to_strip filtered).

(** The body of the loop over [obj.items()] in [remove_null_and_empty],
    for the recursive call [clean] and the [obj.get('type')] of the
    enclosing mapping.  [clean true] is the call on a mapping found under
    [relationships], [clean false] the call on any other value.
    [store_entry] is the part of the body after the test for empty
    values: the attribute filter, then the special case of [meta]. *)
Definition store_entry (obj_type : json) (key : string)
    (cleaned_value : json) : result (option json) :=
  cleaned_value <-
    (match String.eqb key "attributes", cleaned_value with
     | true, JObj a => a' <- _filter_attributes a obj_type ;; Ok (JObj a')
     | _, _ => Ok cleaned_value
     end) ;;
  match String.eqb key "meta", cleaned_value with
  | true, JObj _ =>
      cleaned_meta <- _clean_meta_object cleaned_value ;;
      Ok (if truthy (JObj cleaned_meta) then Some (JObj cleaned_meta)
          else None)
  | _, _ => Ok (Some cleaned_value)
  end.

Section Entry.
Variable clean : bool -> json -> result json.
Variable obj_type : json.

Definition clean_entry (key : string) (value : json)
  : result (option json) :=
  if String.eqb key "links" then Ok None else
  cleaned_value <- clean (String.eqb key "relationships") value ;;
  if is_empty cleaned_value then Ok None
  else store_entry obj_type key cleaned_value.
End Entry.

(** [prune false obj] is [remove_null_and_empty(obj)].  The source rebuilds
    a mapping found under [relationships] without its [organization] key
    and recurses on the rebuilt mapping; [prune true obj] is that call:
    it walks [obj] and skips the key, so that the recursion stays on
    parts of the argument (lemma [prune_relationships] states that the
    two agree). *)
Fixpoint prune (in_relationships : bool) (obj : json) {struct obj}
  : result json :=
  match obj with
  | JObj d =>
      let obj_type :=
        match dict_get "type"
                (if in_relationships then drop_organization d else d) with
        | Some t => t
        | None => JNull
        end in
      result <-
        dict_loop
          (fun key value =>
             if in_relationships && String.eqb key "organization"
             then Ok None
             else clean_entry prune obj_type key value)
          d [] ;;
      Ok (JObj result)
  | JArr l =>
      result <- list_loop (prune false) l ;;
      Ok (JArr result)
  | _ => Ok obj
  end.

Definition remove_null_and_empty (obj : json) : result json :=
  prune false obj.

Definition _add_webapp_url (item : json) : json :=
  match item with
  | JObj d =>
      let resource_type :=
        match dict_get "type" d with Some v => v | None => JNull end in
      let resource_id :=
        match dict_get "id" d with Some v => v | None => JNull end in
      if truthy resource_type && truthy resource_id
      then JObj (dict_set "webapp_url"
                   (JStr (get_webapp_url resource_type resource_id)) d)
      else item
  | _ => item
  end.

Definition is_dict (v : json) : bool :=
  match v with JObj _ => true | _ => false end.

(** The search loop of [_extract_workflow_status_name]; Python's [None]
    is [JNull]. *)
Fixpoint find_workflow_status (workflow_status_id : json)
    (included : list json) : result json :=
  match included with
  | [] => Ok JNull
  | included_item :: rest =>
      match included_item with
      | JObj i =>
          if eq_str (dict_get "type" i) "workflow_statuses" &&
             py_eq (match dict_get "id" i with Some v => v | None => JNull end)
                   workflow_status_id
          then
            attributes <- py_get included_item "attributes" (JObj []) ;;
            py_get attributes "name" JNull
          else find_workflow_status workflow_status_id rest
      | _ => find_workflow_status workflow_status_id rest
      end
  end.

Definition _extract_workflow_status_name (item included : json)
  : result json :=
  match item, included with
  | JObj _, JArr incl =>
      relationships <- py_get item "relationships" (JObj []) ;;
      workflow_status_rel <- py_get relationships "workflow_status" (JObj []) ;;
      workflow_status_data <- py_get workflow_status_rel "data" JNull ;;
      if negb (truthy workflow_status_data) ||
         negb (is_dict workflow_status_data)
      then Ok JNull
      else
        workflow_status_id <- py_get workflow_status_data "id" JNull ;;
        if negb (truthy workflow_status_id) then Ok JNull
        else find_workflow_status workflow_status_id incl
  | _, _ => Ok JNull
  end.

(** The statements that [filter_response] runs on one resource of
    [filtered["data"]]; the item is updated in place, the updated item is
    the result. *)
Definition enrich_item (included : json) (item : json) : result json :=
  let item := _add_webapp_url item in
  item_type <- py_get item "type" JNull ;;
  if py_eq item_type (JStr "tasks") then
    workflow_status_name <- _extract_workflow_status_name item included ;;
    in_item <- py_in "attributes" item ;;
    if truthy workflow_status_name && in_item then
      attributes <- py_getitem item "attributes" ;;
      attributes <- py_setitem attributes "workflow_status_name"
                      workflow_status_name ;;
      py_setitem item "attributes" attributes
    else Ok item
  else Ok item.

Definition filter_response (response : json) : result json :=
  filtered <- remove_null_and_empty response ;;
  match filtered with
  | JObj f =>
      match dict_get "data" f with
      | Some data =>
          included <- py_get response "included" (JArr []) ;;
          match data with
          | JObj _ =>
              item <- enrich_item included data ;;
              Ok (JObj (dict_set "data" item f))
          | JArr items =>
              items <- mapM (enrich_item included) items ;;
              Ok (JObj (dict_set "data" (JArr items) f))
          | _ => Ok filtered
          end
      | None => Ok filtered
      end
  | _ => Ok filtered
  end.

(** The loop body of [filter_task_list_response]. *)
Definition task_list_item (included : json) (item : json) : result json :=
  match item with
  | JObj d =>
      if eq_str (dict_get "type" d) "tasks" then
        let filtered_item :=
          [ ("id",
             match dict_get "id" d with Some v => v | None => JNull end);
            ("type",
             match dict_get "type" d with Some v => v | None => JNull end) ]
        in
        filtered_item <-
          (match dict_get "attributes" d with
           | Some attributes =>
               attrs <- _filter_task_list_attributes attributes ;;
               workflow_status_name <-
                 _extract_workflow_status_name item included ;;
               let attrs :=
                 if truthy workflow_status_name
                 then dict_set "workflow_status_name" workflow_status_name attrs
                 else attrs in
               Ok (dict_set "attributes" (JObj attrs) filtered_item)
           | None => Ok filtered_item
           end) ;;
        Ok (_add_webapp_url (JObj filtered_item))
      else Ok item
  | _ => Ok item
  end.

(** The lines shared by the two list views: keep [meta], cleaned. *)
Definition keep_meta (response filtered : dict) : result dict :=
  match dict_get "meta" response with
  | Some meta =>
      cleaned <- _clean_meta_object meta ;;
      Ok (dict_set "meta" (JObj cleaned) filtered)
  | None => Ok filtered
  end.

Definition filter_task_list_response (response : json) : result json :=
  match response with
  | JObj r =>
      let filtered : dict := [] in
      let included :=
        match dict_get "included" r with Some v => v | None => JArr [] end in
      filtered <-
        (match dict_get "data" r with
         | Some (JArr items) =>
             filtered_data <- mapM (task_list_item included) items ;;
             Ok (dict_set "data" (JArr filtered_data) filtered)
         | _ => Ok filtered
         end) ;;
      filtered <- keep_meta r filtered ;;
      remove_null_and_empty (JObj filtered)
  | _ => Ok response
  end.

(** The loop body of [filter_page_list_response]. *)
Definition page_list_item (item : json) : json :=
  match item with
  | JObj d =>
      if eq_str (dict_get "type" d) "pages" then
        let new_item :=
          [ ("id",
             match dict_get "id" d with Some v => v | None => JNull end);
            ("type",
             match dict_get "type" d with Some v => v | None => JNull end) ]
        in
        let attrs :=
          match dict_get "attributes" d with
          | Some v => v
          | None => JObj []
          end in
        let new_item :=
          match attrs with
          | JObj a => dict_set "attributes" (JObj (dict_pop "body" a)) new_item
          | _ => new_item
          end in
        _add_webapp_url (JObj new_item)
      else item
  | _ => item
  end.

Definition filter_page_list_response (response : json) : result json :=
  match response with
  | JObj r =>
      let filtered : dict := [] in
      let filtered :=
        match dict_get "data" r with
        | Some (JArr items) =>
            dict_set "data" (JArr (map page_list_item items)) filtered
        | _ => filtered
        end in
      filtered <- keep_meta r filtered ;;
      remove_null_and_empty (JObj filtered)
  | _ => Ok response
  end.
End Sanitizer.

End Utils.

(** ** [src/tools_read.py]: what the tools do with a fetched document *)

Module ToolsRead.
Import Utils.

Section Tools.
Variable organization : string.
Variable bleach_clean : string -> string.
Variable py_repr : json -> string.

Definition time_fields : list (string * json) :=
  [ ("initial_estimate", JNum 0); ("worked_time", JNum 0);
    ("billable_time", JNum 0); ("remaining_time", JNum 0) ].

(** One round of the loop over [time_fields.items()]. *)
Definition fill_field (attributes : json) (field : string * json)
  : result json :=
  present <- py_in (fst field) attributes ;;
  missing <-
    (if negb present then Ok true
     else v <- py_getitem attributes (fst field) ;;
          Ok (match v with JNull => true | _ => false end)) ;;
  if missing then py_setitem attributes (fst field) (snd field)
  else Ok attributes.

Fixpoint fill_fields (attributes : json) (fields : list (string * json))
  : result json :=
  match fields with
  | [] => Ok attributes
  | field :: rest =>
      attributes <- fill_field attributes field ;;
      fill_fields attributes rest
  end.

(** [get_task] from the document that [client.get_task] returned.  The
    loop updates [filtered["data"]["attributes"]] in place; here the
    updated mapping is stored back. *)
Definition get_task (fetched : json) : result json :=
  filtered <- filter_response organization bleach_clean py_repr fetched ;;
  has_data <- py_in "data" filtered ;;
  has_attributes <-
    (if has_data then data <- py_getitem filtered "data" ;;
                      py_in "attributes" data
     else Ok false) ;;
  if has_attributes then
    data <- py_getitem filtered "data" ;;
    attributes <- py_getitem data "attributes" ;;
    attributes <- fill_fields attributes time_fields ;;
    data <- py_setitem data "attributes" attributes ;;
    py_setitem filtered "data" data
  else Ok filtered.

(** [get_tasks] from the document that [client.get_tasks] returned. *)
Definition get_tasks (fetched : json) : result json :=
  filter_task_list_response organization bleach_clean py_repr fetched.
End Tools.

End ToolsRead.

(** ** [src/productive_client.py]: the gateway client *)

Module Client.

(** What [_request] reads of an [httpx.Response]: [json_body] is [None]
    when [response.json()] raises. *)
Record Response : Type := {
  status_code : Z;
  json_body : option json;
  text : string
}.

(** [ProductiveAPIError(message, status_code, error_code)]; the message and
    the code read from an error body are whatever JSON the body holds. *)
Record ProductiveAPIError : Type := {
  message : json;
  error_status : option Z;
  error_code : json
}.

(** The fields that [__init__] sets. *)
Record ProductiveClient : Type := {
  max_retries : nat;
  retry_delay : Q
}.

Definition init : ProductiveClient :=
  {| max_retries := 3; retry_delay := 1%Q |}.

Definition _parse_error_response (response : Response)
    (default_message : string) : json * json :=
  match json_body response with
  | Some (JObj error_data) =>
      (match dict_get "message" error_data with
       | Some m => m
       | None => JStr default_message
       end,
       match dict_get "errorCode" error_data with
       | Some c => c
       | None => JStr "UNKNOWN"
       end)
  | _ =>
      (JStr ("HTTP " ++ string_of_Z (status_code response) ++ ": " ++
             text response),
       JStr "UNKNOWN")
  end.

Definition _should_retry (self : ProductiveClient) (status : Z)
    (attempt : nat) : bool :=
  Nat.ltb attempt (max_retries self) &&
  (Z.eqb status 429 || Z.geb status 500).

(** One call of [self.client.request]: a response, or an
    [httpx.RequestError] with its text. *)
Inductive outcome : Type :=
| Responded (response : Response)
| RequestError (e : string).

(** How a call of [_request] ends. *)
Inductive finished : Type :=
| Return (body : json)
| RaiseAPIError (e : ProductiveAPIError)
| RaiseJSONDecodeError          (* [response.json()] failed on a 200 *)
| ReturnNone.                   (* the [for] loop ran out *)

(** One round of the loop: it ends the call, or sleeps and continues. *)
Inductive round : Type :=
| Done (f : finished)
| SleepThenContinue (seconds : Q).

Definition backoff (self : ProductiveClient) (attempt : nat) : Q :=
  (retry_delay self * inject_Z (2 ^ Z.of_nat attempt))%Q.

Definition attempt_round (self : ProductiveClient) (o : outcome)
    (attempt : nat) : round :=
  match o with
  | Responded response =>
      let status := status_code response in
      if Z.eqb status 200 then
        match json_body response with
        | Some body => Done (Return body)
        | None => Done RaiseJSONDecodeError
        end
      else if Z.eqb status 401 then
        Done (RaiseAPIError
                {| message := JStr "Unauthorized: Invalid API token";
                   error_status := Some 401%Z;
                   error_code := JStr "UNAUTHORIZED" |})
      else if Z.eqb status 404 then
        Done (RaiseAPIError
                {| message := JStr "Resource not found";
                   error_status := Some 404%Z;
                   error_code := JStr "NOT_FOUND" |})
      else if _should_retry self status attempt then
        SleepThenContinue (backoff self attempt)
      else
        let parsed :=
          _parse_error_response response
            (if Z.eqb status 429 then "Rate limit exceeded"
             else "Server error") in
        Done (RaiseAPIError
                {| message := fst parsed;
                   error_status := Some status;
                   error_code := snd parsed |})
  | RequestError e =>
      if Nat.ltb attempt (max_retries self) then
        SleepThenContinue (backoff self attempt)
      else
        Done (RaiseAPIError
                {| message := JStr ("Request failed: " ++ e);
                   error_status := None;
                   error_code := JNull |})
  end.

(** A run of [_request]: the way it ends, the sleeps in order, and the
    number of calls of [self.client.request]. *)
Record run : Type := {
  ending : finished;
  sleeps : list Q;
  attempts_made : nat
}.

(** [for attempt in attempts]; [server n] is what the call made in round
    [n] gives. *)
Fixpoint request_loop (self : ProductiveClient) (server : nat -> outcome)
    (attempts : list nat) : run :=
  match attempts with
  | [] => {| ending := ReturnNone; sleeps := []; attempts_made := 0 |}
  | attempt :: rest =>
      match attempt_round self (server attempt) attempt with
      | Done f => {| ending := f; sleeps := []; attempts_made := 1 |}
      | SleepThenContinue seconds =>
          let r := request_loop self server rest in
          {| ending := ending r;
             sleeps := seconds :: sleeps r;
             attempts_made := S (attempts_made r) |}
      end
  end.

Definition _request (self : ProductiveClient) (server : nat -> outcome)
  : run :=
  request_loop self server (seq 0 (max_retries self + 1)).

End Client.

(** * Vocabulary of the statements *)

Import Utils ToolsRead Client.

(** ** Gateway client *)

(** A server that answers every call with the same response. *)
Definition always (r : Response) : nat -> outcome := fun _ => Responded r.

(** A response whose body is not JSON. *)
Definition bare (status : Z) (raw : string) : Response :=
  {| status_code := status; json_body := None; text := raw |}.

(** The error raised from the parsed body of [r]. *)
Definition api_error (r : Response) (default_message : string) : finished :=
  RaiseAPIError
    {| message := fst (_parse_error_response r default_message);
       error_status := Some (status_code r);
       error_code := snd (_parse_error_response r default_message) |}.

Definition retryable (status : Z) : Prop :=
  status = 429%Z \/ (500 <= status)%Z.

Definition other_4xx (status : Z) : Prop :=
  (400 <= status < 500)%Z /\ status <> 401%Z /\ status <> 404%Z /\
  status <> 429%Z.

Definition unauthorized : finished :=
  RaiseAPIError {| message := JStr "Unauthorized: Invalid API token";
                   error_status := Some 401%Z;
                   error_code := JStr "UNAUTHORIZED" |}.

Definition not_found : finished :=
  RaiseAPIError {| message := JStr "Resource not found";
                   error_status := Some 404%Z;
                   error_code := JStr "NOT_FOUND" |}.

Definition or_default (v : option json) (default : string) : json :=
  match v with Some x => x | None => JStr default end.

(** ** Sanitizer *)

(** [obj.get('type')] *)
Definition type_of (d : dict) : json :=
  match dict_get "type" d with Some t => t | None => JNull end.

(** A place in a document: under a key of a mapping, or among the elements
    of a sequence (elements move when their neighbours are dropped, so no
    index is kept). *)
Inductive step : Type :=
| Key (k : string)
| Elem.

Inductive occurs_at (v : json) : list step -> json -> Prop :=
| occurs_here : occurs_at v [] v
| occurs_key (k : string) (p : list step) (d : dict) (x : json) :
    dict_get k d = Some x -> occurs_at v p x ->
    occurs_at v (Key k :: p) (JObj d)
| occurs_elem (p : list step) (l : list json) (x : json) :
    In x l -> occurs_at v p x -> occurs_at v (Elem :: p) (JArr l).

(** The deny-list that [_filter_attributes] applies for a type. *)
Definition denied_fields (obj_type : json) : list string :=
  match table_get remove_fields obj_type with
  | Ok fs => fs
  | Raise _ => []
  end.

(** The removals that go by key: [links] anywhere, [organization] under
    [relationships], a deny-listed field under [attributes], and under
    [meta] the key [settings] and [included] when it is [False]. *)
Definition key_rule (parent : string) (parent_type : json) (key : string)
    (x : json) : bool :=
  String.eqb key "links" ||
  (String.eqb parent "relationships" && String.eqb key "organization") ||
  (String.eqb parent "attributes" &&
   mem_string key (denied_fields parent_type)) ||
  (String.eqb parent "meta" &&
   (String.eqb key "settings" ||
    (String.eqb key "included" &&
     match x with JBool false => true | _ => false end))).

(** [untouched v parent parent_type path j]: [v] occurs in [j] at [path]
    and no removal by key applies on the way, [j] being the value under
    the key [parent] of a mapping whose type is [parent_type]. *)
Inductive untouched (v : json) : string -> json -> list step -> json -> Prop :=
| untouched_here (parent : string) (pt : json) : untouched v parent pt [] v
| untouched_key (parent : string) (pt : json) (k : string) (p : list step)
    (d : dict) (x : json) :
    dict_get k d = Some x -> key_rule parent pt k x = false ->
    untouched v k (type_of d) p x ->
    untouched v parent pt (Key k :: p) (JObj d)
| untouched_elem (parent : string) (pt : json) (p : list step)
    (l : list json) (x : json) :
    In x l -> untouched v "" JNull p x ->
    untouched v parent pt (Elem :: p) (JArr l).

Definition number_or_bool (v : json) : Prop :=
  (exists n, v = JNum n) \/ (exists b, v = JBool b).

(** A value that the HTML stripping leaves alone. *)
Definition not_text (c : json) : Prop := forall s, c <> JStr s.

(** The loop body of [remove_null_and_empty] as the source writes it, with
    the mapping under [relationships] rebuilt before the recursive call. *)
Definition source_entry (bleach_clean : string -> string) (obj_type : json)
    (key : string) (value : json) : result (option json) :=
  if String.eqb key "links" then Ok None else
  let value :=
    match String.eqb key "relationships", value with
    | true, JObj r => JObj (drop_organization r)
    | _, _ => value
    end in
  cleaned_value <- remove_null_and_empty bleach_clean value ;;
  if is_empty cleaned_value then Ok None
  else store_entry bleach_clean obj_type key cleaned_value.

(** [obj.get('id')] *)
Definition id_of (d : dict) : json :=
  match dict_get "id" d with Some t => t | None => JNull end.

(** What [filter_response] does to the [type], [id] and [webapp_url] of a
    resource [item] of the pruned document, [item'] being the resource in
    the output. *)
Definition webapp_url_rule (organization : string) (py_repr : json -> string)
    (item item' : dict) : Prop :=
  dict_get "type" item' = dict_get "type" item /\
  dict_get "id" item' = dict_get "id" item /\
  dict_get "webapp_url" item' =
  if truthy (type_of item) && truthy (id_of item)
  then Some (JStr ("https://app.productive.io/" ++ organization ++ "/" ++
                   py_str py_repr (type_of item) ++ "/" ++
                   py_str py_repr (id_of item)))
  else dict_get "webapp_url" item.

Definition same_resource (organization : string) (py_repr : json -> string)
    (i i' : json) : Prop :=
  exists d d', i = JObj d /\ i' = JObj d' /\
               webapp_url_rule organization py_repr d d'.

(** ** Parameters and documents for the examples *)

(** A stand-in for bleach: it drops what stands between [<] and [>]. *)
Fixpoint strip_tags_from (in_tag : bool) (s : string) : string :=
  match s with
  | EmptyString => EmptyString
  | String c r =>
      if in_tag then strip_tags_from (negb (Ascii.eqb c ">")) r
      else if Ascii.eqb c "<" then strip_tags_from true r
      else String c (strip_tags_from false r)
  end.

Definition strip_tags : string -> string := strip_tags_from false.

(** A stand-in for Python's [str()] of lists and mappings. *)
Definition no_repr (v : json) : string := "".

(** [{"data": {"type": "tasks", "id": "1", "attributes": {"email_key": "k"}}}] *)
Definition task_with_denied_attribute : json :=
  JObj [("data", JObj [("type", JStr "tasks"); ("id", JStr "1");
                       ("attributes", JObj [("email_key", JStr "k")])])].

(** [{"type": "tasks", "attributes": {"email_key": "k"}}] *)
Definition resource_with_denied_attribute : json :=
  JObj [("type", JStr "tasks");
        ("attributes", JObj [("email_key", JStr "k")])].

(** [{"data": [1]}] *)
Definition data_of_numbers : json := JObj [("data", JArr [JNum 1])].

(** A task whose workflow status is side-loaded with null attributes. *)
Definition task_with_bare_status : json :=
  JObj [("data",
         JObj [("type", JStr "tasks"); ("id", JStr "7");
               ("relationships",
                JObj [("workflow_status",
                       JObj [("data",
                              JObj [("type", JStr "workflow_statuses");
                                    ("id", JStr "9")])])])]);
        ("included",
         JArr [JObj [("type", JStr "workflow_statuses"); ("id", JStr "9");
                     ("attributes", JNull)]])].

(** A task list whose task has null attributes. *)
Definition task_list_with_null_attributes : json :=
  JObj [("data", JArr [JObj [("type", JStr "tasks"); ("id", JStr "7");
                             ("attributes", JNull)]])].

(** [{"meta": 5}] *)
Definition meta_number : json := JObj [("meta", JNum 5)].

(** [{"type": [1], "attributes": {"a": 1}}] *)
Definition list_typed_resource : json :=
  JObj [("type", JArr [JNum 1]); ("attributes", JObj [("a", JNum 1)])].

(** [{"meta": {"included": false, "total": 0}}] *)
Definition meta_not_included : json :=
  JObj [("meta", JObj [("included", JBool false); ("total", JNum 0)])].

(** [{"data": {"type": "tasks", "id": "1", "attributes": {"worked_time": null}}}] *)
Definition task_without_times : json :=
  JObj [("data", JObj [("type", JStr "tasks"); ("id", JStr "1");
                       ("attributes", JObj [("worked_time", JNull)])])].

(** [{"data": {"type": "tasks", "id": "1",
               "attributes": {"title": "T", "worked_time": 45}}}] *)
Definition task_with_worked_time : json :=
  JObj [("data", JObj [("type", JStr "tasks"); ("id", JStr "1");
                       ("attributes", JObj [("title", JStr "T");
                                            ("worked_time", JNum 45)])])].

(** A task list of one task with a description and a workflow status, and
    one resource of another type. *)
Definition task_list_document : json :=
  JObj [("data",
         JArr [JObj [("type", JStr "tasks"); ("id", JStr "7");
                     ("attributes",
                      JObj [("description", JStr "long text");
                            ("title", JStr "T"); ("task_number", JNum 3);
                            ("worked_time", JNum 0);
                            ("closed", JBool false)]);
                     ("relationships",
                      JObj [("workflow_status",
                             JObj [("data",
                                    JObj [("type", JStr "workflow_statuses");
                                          ("id", JStr "9")])])])];
               JObj [("type", JStr "people"); ("id", JStr "3");
                     ("links", JObj [("self", JStr "u")])]]);
        ("included",
         JArr [JObj [("type", JStr "workflow_statuses"); ("id", JStr "9");
                     ("attributes", JObj [("name", JStr "Open")])]]);
        ("meta", JObj [("total_count", JNum 0); ("settings", JObj [])])].

Definition error_400 : Response := bare 400 "oops".
Definition error_503 : Response := bare 503 "busy".

(** ** The fill-in of [get_task] *)

(** The value that the loop of [get_task] leaves for a time field. *)
Definition filled (v : option json) : json :=
  match v with
  | None | Some JNull => JNum 0
  | Some x => x
  end.

(** One round of that loop on a mapping. *)
Definition fill_default (attributes : dict) (field : string * json) : dict :=
  match dict_get (fst field) attributes with
  | None | Some JNull => dict_set (fst field) (snd field) attributes
  | Some _ => attributes
  end.

(** What [get_tasks] returns for [task_list_document]. *)
Definition task_list_view (organization : string) : json :=
  JObj [("data",
         JArr [JObj [("id", JStr "7"); ("type", JStr "tasks");
                     ("attributes",
                      JObj [("title", JStr "T"); ("task_number", JNum 3);
                            ("worked_time", JNum 0); ("closed", JBool false);
                            ("workflow_status_name", JStr "Open")]);
                     ("webapp_url",
                      JStr ("https://app.productive.io/" ++ organization ++
                            "/tasks/7"))];
               JObj [("type", JStr "people"); ("id", JStr "3")]]);
        ("meta", JObj [("total_count", JNum 0)])].

(** ** The task-list view *)

(** [isinstance(item, dict) and item.get("type") == "tasks"] *)
Definition is_task (item : json) : bool :=
  match item with
  | JObj d => eq_str (dict_get "type" d) "tasks"
  | _ => false
  end.

(** The allow-list of the task-list view. *)
Definition allow_list : list string :=
  [ "title"; "task_number"; "closed"; "created_at"; "updated_at";
    "initial_estimate"; "remaining_time"; "worked_time"; "billable_time";
    "closed_at"; "type_id"; "private" ].

(** A task of the task-list view: nothing but [id], [type], [attributes]
    and [webapp_url], and under [attributes] a mapping with nothing but
    the allow-list and [workflow_status_name]. *)
Definition task_view_shape (v : dict) : Prop :=
  (forall k, In k (keys v) ->
             In k ["id"; "type"; "attributes"; "webapp_url"]) /\
  (forall a, dict_get "attributes" v = Some a ->
             exists attrs, a = JObj attrs /\
               forall k, In k (keys attrs) ->
                         In k (allow_list ++ ["workflow_status_name"])%list).

(** An allow-listed attribute whose cleaned value is not empty is kept with
    its cleaned value. *)
Definition keeps_allowed (bleach_clean : string -> string) (item : json)
    (v : dict) : Prop :=
  forall d a k x c,
    item = JObj d -> dict_get "attributes" d = Some (JObj a) ->
    In k allow_list -> dict_get k a = Some x ->
    remove_null_and_empty bleach_clean x = Ok c -> is_empty c = false ->
    exists attrs, dict_get "attributes" v = Some (JObj attrs) /\
                  dict_get k attrs = Some c.

(** An item of [data] and what the task-list view holds for it, before the
    empty views are dropped from the sequence. *)
Definition task_list_item_view (bleach_clean : string -> string)
    (item view : json) : Prop :=
  (is_task item = true ->
   exists v, view = JObj v /\ dict_get "type" v = Some (JStr "tasks") /\
             task_view_shape v /\ keeps_allowed bleach_clean item v) /\
  (is_task item = false ->
   remove_null_and_empty bleach_clean item = Ok view).

(** The attributes that [filter_task_list_response] builds for a task. *)
Definition built_attrs (a : dict) (workflow_status_name : json) : dict :=
  let attrs := filter (fun kv => mem_string (fst kv) essential_fields) a in
  if truthy workflow_status_name
  then dict_set "workflow_status_name" workflow_status_name attrs
  else attrs.

(** What [filter_response] returns for [task_with_denied_attribute], and
    what it returns for that result. *)
Definition filtered_once (organization : string) : json :=
  JObj [("data", JObj [("type", JStr "tasks"); ("id", JStr "1");
                       ("attributes", JObj []);
                       ("webapp_url",
                        JStr ("https://app.productive.io/" ++ organization ++
                              "/tasks/1"))])].

Definition filtered_twice (organization : string) : json :=
  JObj [("data", JObj [("type", JStr "tasks"); ("id", JStr "1");
                       ("webapp_url",
                        JStr ("https://app.productive.io/" ++ organization ++
                              "/tasks/1"))])].

(** The resource that [filter_response] returns for
    [task_with_worked_time], organization [acme]. *)
Definition worked_time_attributes : dict :=
  [("title", JStr "T"); ("worked_time", JNum 45)].

Definition worked_time_resource : dict :=
  [("type", JStr "tasks"); ("id", JStr "1");
   ("attributes", JObj worked_time_attributes);
   ("webapp_url", JStr "https://app.productive.io/acme/tasks/1")].

(** Where the worked time of the task of [task_list_document] stands. *)
Definition worked_time_path : list step :=
  [Key "data"; Elem; Key "attributes"; Key "worked_time"].

Definition task_list_fields : dict :=
  match task_list_document with JObj d => d | _ => [] end.

Definition task_list_items : list json :=
  match dict_get "data" task_list_fields with
  | Some (JArr l) => l
  | _ => []
  end.

Definition worked_time_fields : dict :=
  match task_with_worked_time with JObj d => d | _ => [] end.

Definition worked_time_input : dict :=
  match dict_get "data" worked_time_fields with
  | Some (JObj d) => d
  | _ => []
  end.

(** * Further definitions *)

(** ** Gateway client: transient outcomes *)

(** An outcome that [_request] retries while attempts remain: a transport
    failure, or a response with status 429 or 500 and more. *)
Definition transient (o : outcome) : Prop :=
  match o with
  | RequestError _ => True
  | Responded r => retryable (status_code r)
  end.

(** The error that [_request] raises for a transient outcome of the last
    attempt. *)
Definition exhausted (o : outcome) : finished :=
  match o with
  | RequestError e =>
      RaiseAPIError {| message := JStr ("Request failed: " ++ e);
                       error_status := None;
                       error_code := JNull |}
  | Responded r =>
      api_error r (if Z.eqb (status_code r) 429 then "Rate limit exceeded"
                   else "Server error")
  end.

(** A server that fails [k] times with a 503 and then answers [r]. *)
Definition after_failures (k : nat) (r : Response) : nat -> outcome :=
  fun n => if Nat.ltb n k then Responded error_503 else Responded r.

Definition ok_200 (body : json) : Response :=
  {| status_code := 200; json_body := Some body; text := "" |}.

(** ** Sanitizer: what the pruned document never holds *)




(** The fields that [_filter_attributes] strips of markup for a type. *)
Definition stripped_fields (obj_type : json) : list string :=
  match table_get html_fields obj_type with
  | Ok fs => fs
  | Raise _ => []
  end.

(** [{"type": "comments", "attributes": {"body": "<p>Hello <b>world</b></p>",
                                          "draft": false}}] *)
Definition comment_resource : json :=
  JObj [("type", JStr "comments");
        ("attributes", JObj [("body", JStr "<p>Hello <b>world</b></p>");
                             ("draft", JBool false)])].

Definition comment_fields : dict :=
  match comment_resource with JObj d => d | _ => [] end.

Definition comment_attributes : dict :=
  match dict_get "attributes" comment_fields with
  | Some (JObj a) => a
  | _ => []
  end.

(** ** The page-list view *)










(** ** [src/tools_read.py]: [get_project_task] *)

Module TaskLookup.

(** The exceptions that leave [get_project_task] through its
    [except Exception] clause, which re-raises them: those of the lookups
    that the function makes itself, that of the client on a 200 whose body
    is not JSON, and those of [filter_response]. *)
Inductive failure : Type :=
| NoGet                         (* [result.get]: [AttributeError] *)
| NoLen                         (* [len(data)]: [TypeError] *)
| NoKeyZero                     (* [data[0]] on a mapping: [KeyError] *)
| OutOfRange                    (* [data[0]] on an empty value: [IndexError] *)
| BadJSON                       (* [response.json()] failed in the client *)
| FromSanitizer (e : exn).

(** What the caller of [get_project_task] receives: the document that the
    [try] block returns; [None], when [_handle_productive_api_error]
    returned and the function ran off its end; what that handler raised;
    or an exception re-raised by the [except Exception] clause. *)
Inductive outcome (raised : Type) : Type :=
| TaskDocument (doc : json)
| NoResult
| HandlerRaised (x : raised)
| TaskError (e : failure).
Arguments TaskDocument {raised} doc.
Arguments NoResult {raised}.
Arguments HandlerRaised {raised} x.
Arguments TaskError {raised} e.

(** [len(v)] is defined for sequences, mappings and texts. *)
Definition has_len (v : json) : bool :=
  match v with
  | JArr _ | JObj _ | JStr _ => true
  | _ => false
  end.

(** [v[0]] for a value that has a length: the first element of a sequence,
    the first character of a text; a mapping of a JSON document has no
    key [0]. *)
Definition first_of (v : json) : failure + json :=
  match v with
  | JArr (x :: _) => inr x
  | JStr (String c _) => inr (JStr (String c EmptyString))
  | JObj _ => inl NoKeyZero
  | JArr [] | JStr EmptyString => inl OutOfRange
  | _ => inl NoLen
  end.

(** The error that [get_project_task] raises itself:
    [ProductiveAPIError(message=..., status_code=404)]. *)
Definition not_found (task_number : string) (project_id : Z)
  : ProductiveAPIError :=
  {| message := JStr ("Task #" ++ task_number ++ " not found in project " ++
                      string_of_Z project_id);
     error_status := Some 404%Z;
     error_code := JNull |}.

Section Lookup.
Variable organization : string.
Variable bleach_clean : string -> string.
Variable py_repr : json -> string.

(** [_handle_productive_api_error(ctx, e, resource)] is called by every
    tool of [tools_read.py], but its code is not under [src/]: what it
    does is a parameter.  [Some x] stands for a call that raises [x],
    [None] for a call that returns; what it returns is not used. *)
Variable raised : Type.
Variable _handle_productive_api_error :
  ProductiveAPIError -> string -> option raised.

(** The clause [except ProductiveAPIError as e]: the handler is called,
    and when it returns the function ends without a [return]. *)
Definition handed_over (e : ProductiveAPIError) (resource : string)
  : outcome raised :=
  match _handle_productive_api_error e resource with
  | Some x => HandlerRaised x
  | None => NoResult
  end.

(** [get_project_task] from the way [client.get_tasks] ended. *)
Definition get_project_task (task_number : string) (project_id : Z)
    (answer : finished) : outcome raised :=
  let resource := "task #" ++ task_number in
  match answer with
  | RaiseAPIError e => handed_over e resource
  | RaiseJSONDecodeError => TaskError BadJSON
  | ReturnNone => TaskError NoGet
  | Return (JObj r) =>
      let data :=
        match dict_get "data" r with Some v => v | None => JNull end in
      if negb (truthy data) then
        handed_over (not_found task_number project_id) resource
      else if negb (has_len data) then TaskError NoLen
      else
        match first_of data with
        | inl failed => TaskError failed
        | inr task_data =>
            match Utils.filter_response organization bleach_clean py_repr
                    (JObj [("data", task_data)]) with
            | Ok filtered => TaskDocument filtered
            | Raise e => TaskError (FromSanitizer e)
            end
        end
  | Return _ => TaskError NoGet
  end.
End Lookup.

End TaskLookup.

(** ** Enrichment of the default view *)

(** The pruned document with a [webapp_url] on each resource at [data] and
    nothing else added. *)
Definition with_webapp_urls (organization : string)
    (py_repr : json -> string) (f : dict) : json :=
  match dict_get "data" f with
  | Some (JObj item) =>
      JObj (dict_set "data"
              (_add_webapp_url organization py_repr (JObj item)) f)
  | Some (JArr items) =>
      JObj (dict_set "data"
              (JArr (map (_add_webapp_url organization py_repr) items)) f)
  | _ => JObj f
  end.

(** The test of the search loop of [_extract_workflow_status_name]. *)
Definition status_matches (workflow_status_id : json) (included_item : json)
  : bool :=
  match included_item with
  | JObj i =>
      eq_str (dict_get "type" i) "workflow_statuses" &&
      py_eq (match dict_get "id" i with Some v => v | None => JNull end)
            workflow_status_id
  | _ => false
  end.

(** A pruned task that refers to the workflow status [wid]. *)
Definition refers_to_status (item : dict) (wid : json) : Prop :=
  exists rel ws sd,
    dict_get "relationships" item = Some (JObj rel) /\
    dict_get "workflow_status" rel = Some (JObj ws) /\
    dict_get "data" ws = Some (JObj sd) /\
    dict_get "id" sd = Some wid /\ truthy wid = true.

(** A fetched task with its workflow status side-loaded twice. *)
Definition task_with_status : json :=
  JObj [("data",
         JObj [("type", JStr "tasks"); ("id", JStr "7");
               ("attributes", JObj [("title", JStr "T")]);
               ("relationships",
                JObj [("workflow_status",
                       JObj [("data",
                              JObj [("type", JStr "workflow_statuses");
                                    ("id", JStr "9")])])])]);
        ("included",
         JArr [JObj [("type", JStr "people"); ("id", JStr "9")];
               JObj [("type", JStr "workflow_statuses"); ("id", JStr "9");
                     ("attributes", JObj [("name", JStr "Open")])];
               JObj [("type", JStr "workflow_statuses"); ("id", JStr "9");
                     ("attributes", JObj [("name", JStr "Late")])]])].

(** ** [src/tools_read.py] and [src/productive_client.py]: request parameters *)

Module Requests.

(** [params[key] = value] when [value is not None]. *)
Definition set_if_given (key : string) (value : option Z) (params : dict)
  : dict :=
  match value with
  | Some n => dict_set key (JNum n) params
  | None => params
  end.

(** [params[key] = value] when [value] is true: neither [None] nor 0. *)
Definition set_if_true (key : string) (value : option Z) (params : dict)
  : dict :=
  match value with
  | Some n => if Z.eqb n 0 then params else dict_set key (JNum n) params
  | None => params
  end.

(** The same for a text: neither [None] nor empty. *)
Definition set_if_text (key : string) (value : option string) (params : dict)
  : dict :=
  match value with
  | Some s => if String.eqb s "" then params else dict_set key (JStr s) params
  | None => params
  end.

(** [params.update(extra)] *)
Definition update (params extra : dict) : dict :=
  fold_left (fun p kv => dict_set (fst kv) (snd kv) p) extra params.

(** The parameters that [tools_read.get_tasks] builds. *)
Definition get_tasks_params (page_number : option Z) (page_size : Z)
    (sort : string) (project_id user_id : option Z)
    (extra_filters : option dict) : dict :=
  let params := [] in
  let params := set_if_given "page[number]" page_number params in
  let params := dict_set "page[size]" (JNum page_size) params in
  let params :=
    if negb (String.eqb sort "") then dict_set "sort" (JStr sort) params
    else params in
  let params := set_if_given "filter[project_id][eq]" project_id params in
  let params := set_if_given "filter[assignee_id][eq]" user_id params in
  match extra_filters with
  | Some (e :: es) => update params (e :: es)
  | _ => params
  end.

(** The parameters that [ProductiveClient.get_tasks] hands to [_request]:
    [None] becomes an empty mapping, and [include] is set. *)
Definition client_get_tasks (params : option dict) : dict :=
  dict_set "include" (JStr "workflow_status")
    (match params with Some p => p | None => [] end).

(** The parameters of the request that [tools_read.get_tasks] makes:
    [client.get_tasks(params=params if params else None)]. *)
Definition get_tasks_request (page_number : option Z) (page_size : Z)
    (sort : string) (project_id user_id : option Z)
    (extra_filters : option dict) : dict :=
  let params :=
    get_tasks_params page_number page_size sort project_id user_id
      extra_filters in
  client_get_tasks (if truthy (JObj params) then Some params else None).

(** The page size that [get_recent_activity] asks for. *)
Definition activity_page_size (items_per_page : Z) (max_results : option Z)
  : Z :=
  let max_results :=
    match max_results with Some m => m | None => items_per_page end in
  if Z.gtb max_results 200 then 200%Z else max_results.

(** The parameters that [get_recent_activity] builds; [after_date] is the
    text of the cutoff time, [items_per_page] is
    [config.items_per_page]. *)
Definition recent_activity_params (items_per_page : Z) (after_date : string)
    (max_results user_id project_id activity_type : option Z)
    (item_type event_type : option string) (task_id : option Z) : dict :=
  let params :=
    [ ("filter[after]", JStr after_date);
      ("page[size]", JNum (activity_page_size items_per_page max_results)) ] in
  let params := set_if_true "filter[person_id]" user_id params in
  let params := set_if_true "filter[project_id]" project_id params in
  let params := set_if_true "filter[type]" activity_type params in
  let params := set_if_text "filter[item_type]" item_type params in
  let params := set_if_text "filter[event]" event_type params in
  set_if_true "filter[task_id]" task_id params.

(** [s.replace(old, new)] for a non-empty [old]: the occurrences of [old]
    are replaced from left to right, without overlap; [skip] counts the
    characters of an occurrence still to pass. *)
Fixpoint replace_from (old new : string) (skip : nat) (s : string) : string :=
  match s with
  | EmptyString => EmptyString
  | String c r =>
      match skip with
      | S k => replace_from old new k r
      | O =>
          if String.prefix old s
          then new ++ replace_from old new (String.length old - 1) r
          else String c (replace_from old new 0 r)
      end
  end.

Definition replace (old new s : string) : string := replace_from old new 0 s.

(** [key.replace("filter[", "").replace("]", "")] *)
Definition filter_name (key : string) : string :=
  replace "]" "" (replace "filter[" "" key).

Definition _get_applied_filters (params : dict) : dict :=
  let filter_params :=
    filter (fun kv => String.prefix "filter[" (fst kv)) params in
  fold_left (fun applied kv => dict_set (filter_name (fst kv)) (snd kv) applied)
    filter_params [].

End Requests.

(** The character [c] occurs in [s]. *)
Fixpoint has_char (c : ascii) (s : string) : bool :=
  match s with
  | EmptyString => false
  | String a r => Ascii.eqb a c || has_char c r
  end.

(** The filters of [get_recent_activity] under their bare names. *)
Definition recent_activity_filters (after_date : string)
    (user_id project_id activity_type : option Z)
    (item_type event_type : option string) (task_id : option Z) : dict :=
  let applied := [ ("after", JStr after_date) ] in
  let applied := Requests.set_if_true "person_id" user_id applied in
  let applied := Requests.set_if_true "project_id" project_id applied in
  let applied := Requests.set_if_true "type" activity_type applied in
  let applied := Requests.set_if_text "item_type" item_type applied in
  let applied := Requests.set_if_text "event" event_type applied in
  Requests.set_if_true "task_id" task_id applied.


(** ** [src/tools_read.py]: [get_comments] and [_summarize_activities] *)

Module Activities.

(** The parameters that [tools_read.get_comments] builds and hands to
    [client.get_comments], which passes them on as they are. *)
Definition get_comments_params (project_id task_id page_number : option Z)
    (page_size : Z) (extra_filters : option dict) : dict :=
  let params := [] in
  let params := Requests.set_if_given "page[number]" page_number params in
  let params := dict_set "page[size]" (JNum page_size) params in
  let params :=
    Requests.set_if_given "filter[project_id][eq]" project_id params in
  let params := Requests.set_if_given "filter[task_id][eq]" task_id params in
  let params :=
    match extra_filters with
    | Some (e :: es) => Requests.update params (e :: es)
    | _ => params
    end in
  dict_set "sort" (JStr "-created_at") params.

(** A mapping from the values counted to their counts.  Its keys are the
    values found in the activities: any hashable value, not only texts. *)
Abbreviation counter := (list (json * Z)).

(** Sequences and mappings cannot be keys. *)
Definition hashable (v : json) : bool :=
  match v with
  | JArr _ | JObj _ => false
  | _ => true
  end.

(** [c.get(k, 0)] *)
Fixpoint counter_get (k : json) (c : counter) : Z :=
  match c with
  | [] => 0%Z
  | (k', n) :: r => if py_eq k' k then n else counter_get k r
  end.

(** [c[k] = n]: an equal key keeps its place and its first spelling. *)
Fixpoint counter_set (k : json) (n : Z) (c : counter) : counter :=
  match c with
  | [] => [(k, n)]
  | (k', m) :: r =>
      if py_eq k' k then (k', n) :: r else (k', m) :: counter_set k n r
  end.

(** [if value: c[value] = c.get(value, 0) + 1] *)
Definition count (value : json) (c : counter) : result counter :=
  if truthy value then
    if hashable value
    then Ok (counter_set value (counter_get value c + 1)%Z c)
    else Raise TypeError
  else Ok c.

Record summary : Type := {
  by_type : counter;
  by_event : counter;
  by_item_type : counter;
  total : Z
}.

(** The body of the loop of [_summarize_activities]. *)
Definition summarize_one (activity : json) (s : summary) : result summary :=
  match activity with
  | JObj _ =>
      attributes <- py_get activity "attributes" (JObj []) ;;
      activity_type <- py_get attributes "type" JNull ;;
      event_type <- py_get attributes "event" JNull ;;
      item_type <- py_get attributes "item_type" JNull ;;
      types <- count activity_type (by_type s) ;;
      events <- count event_type (by_event s) ;;
      item_types <- count item_type (by_item_type s) ;;
      Ok {| by_type := types; by_event := events;
            by_item_type := item_types; total := total s |}
  | _ => Ok s
  end.

Fixpoint summarize_loop (activities : list json) (s : summary)
  : result summary :=
  match activities with
  | [] => Ok s
  | activity :: rest =>
      s' <- summarize_one activity s ;; summarize_loop rest s'
  end.

Definition _summarize_activities (activities : list json) : result summary :=
  summarize_loop activities
    {| by_type := []; by_event := []; by_item_type := [];
       total := Z.of_nat (List.length activities) |}.

End Activities.

(** The value that [_summarize_activities] counts for [field] in an
    activity: the attribute of that name of a mapping, [None] otherwise. *)
Definition counted_value (field : string) (activity : json) : json :=
  match activity with
  | JObj a =>
      match dict_get "attributes" a with
      | Some (JObj attributes) =>
          match dict_get field attributes with Some v => v | None => JNull end
      | _ => JNull
      end
  | _ => JNull
  end.

(** The number of activities whose [field] is true and equal to [k]. *)
Definition occurrences (field : string) (k : json) (activities : list json)
  : Z :=
  Z.of_nat (List.length
              (filter (fun a => truthy (counted_value field a) &&
                                py_eq (counted_value field a) k)
                 activities)).

(** The number of activities whose [field] is true. *)
Definition carrying (field : string) (activities : list json) : Z :=
  Z.of_nat (List.length
              (filter (fun a => truthy (counted_value field a)) activities)).

(** The sum of the counts of a counter. *)
Definition counts_total (c : Activities.counter) : Z :=
  fold_right (fun kn acc => (snd kn + acc)%Z) 0%Z c.

(** An activity that [_summarize_activities] can count: not a mapping, or
    a mapping whose attributes, if any, are a mapping whose [type],
    [event] and [item_type] are no sequences and no mappings. *)
Definition countable (activity : json) : bool :=
  match activity with
  | JObj a =>
      match dict_get "attributes" a with
      | Some (JObj _) =>
          Activities.hashable (counted_value "type" activity) &&
          Activities.hashable (counted_value "event" activity) &&
          Activities.hashable (counted_value "item_type" activity)
      | Some _ => false
      | None => true
      end
  | _ => true
  end.

(** Activities as [get_recent_activity] passes them on. *)
Definition sample_activities : list json :=
  [ JObj [("type", JStr "activities"); ("id", JStr "1");
          ("attributes",
           JObj [("event", JStr "create"); ("item_type", JStr "Task");
                 ("type", JNum 1)])];
    JObj [("type", JStr "activities"); ("id", JStr "2");
          ("attributes",
           JObj [("event", JStr "update"); ("item_type", JStr "Task")])];
    JStr "note";
    JObj [("type", JStr "activities"); ("id", JStr "3");
          ("attributes",
           JObj [("event", JStr "create"); ("item_type", JStr "Comment");
                 ("type", JBool true)])] ].

(** What holds of a counter of [_summarize_activities] for [field] after
    the activities [seen]. *)
Definition counter_inv (field : string) (seen : list json)
    (c : Activities.counter) : Prop :=
  Forall (fun kn => Activities.hashable (fst kn) = true) c /\
  Forall (fun kn => (1 <= snd kn)%Z) c /\
  counts_total c = carrying field seen /\
  forall k, Activities.hashable k = true ->
            Activities.counter_get k c = occurrences field k seen.

(** The invariant of the loop of [_summarize_activities]. *)
Definition summary_inv (seen : list json) (s : Activities.summary) : Prop :=
  counter_inv "type" seen (Activities.by_type s) /\
  counter_inv "event" seen (Activities.by_event s) /\
  counter_inv "item_type" seen (Activities.by_item_type s).

(** ** Sample inputs *)

(** A transport that fails on every even attempt and is answered with a
    503 on every odd one. *)
Definition flaky_server : nat -> outcome :=
  fun n => if Nat.even n then RequestError "timeout"
           else Responded error_503.

(** [{"data": []}] *)
Definition empty_list_document : json := JObj [("data", JArr [])].

(** A project with deny-listed attributes. *)
Definition project_resource : json :=
  JObj [("type", JStr "projects"); ("id", JStr "4");
        ("attributes",
         JObj [("name", JStr "P"); ("number", JNum 4);
               ("template", JBool false);
               ("preferences", JObj [("color", JStr "red")])])].

Definition project_fields : dict :=
  match project_resource with JObj d => d | _ => [] end.


(** The reference to the workflow status in [task_with_status]. *)
Definition status_reference : dict :=
  [("type", JStr "workflow_statuses"); ("id", JStr "9")].

Definition status_task_fields : dict :=
  match task_with_status with JObj d => d | _ => [] end.

(** The task of [task_with_status]; pruning drops nothing of that
    document. *)
Definition status_task : dict :=
  match dict_get "data" status_task_fields with
  | Some (JObj d) => d
  | _ => []
  end.

(** A fetched task list for [get_project_task]. *)
Definition fetched_tasks : dict :=
  [("data",
    JArr [JObj [("type", JStr "tasks"); ("id", JStr "7");
                ("attributes", JObj [("title", JStr "T")])];
          JObj [("type", JStr "tasks"); ("id", JStr "8")]]);
   ("included",
    JArr [JObj [("type", JStr "workflow_statuses"); ("id", JStr "9")]]);
   ("meta", JObj [("total_count", JNum 2)])].

(** What [get_project_task] returns for [fetched_tasks]. *)
Definition first_task_view : json :=
  JObj [("data",
         JObj [("type", JStr "tasks"); ("id", JStr "7");
               ("attributes", JObj [("title", JStr "T")]);
               ("webapp_url",
                JStr "https://app.productive.io/acme/tasks/7")])].

(** A stand-in for [_handle_productive_api_error] that raises the error
    it is given. *)
Definition reraise (e : ProductiveAPIError) (resource : string)
  : option ProductiveAPIError := Some e.

(** Filters given to [get_tasks] and [get_comments] by a caller. *)
Definition caller_filters : dict :=
  [("include", JStr "none"); ("sort", JStr "title");
   ("page[size]", JNum 5); ("filter[status][eq]", JNum 1)].
(** * Facts about mappings *)

Lemma dict_get_set_same (k : string) (v : json) (d : dict) :
  dict_get k (dict_set k v d) = Some v.
Proof.
  induction d as [|[k' v'] r IH]; cbn.
  - now rewrite String.eqb_refl.
  - destruct (String.eqb k k') eqn:E; cbn; rewrite E; auto.
Qed.

Lemma dict_get_set_other (k k' : string) (v : json) (d : dict) :
  k <> k' -> dict_get k (dict_set k' v d) = dict_get k d.
Proof.
  intros N. induction d as [|[k2 v2] r IH]; cbn.
  - apply String.eqb_neq in N. now rewrite N.
  - destruct (String.eqb k' k2) eqn:E; cbn.
    + apply String.eqb_eq in E. subst k2.
      apply String.eqb_neq in N. now rewrite N.
    + destruct (String.eqb k k2); auto.
Qed.

Lemma dict_get_pop_same (k : string) (d : dict) :
  dict_get k (dict_pop k d) = None.
Proof.
  induction d as [|[k' v'] r IH]; cbn; auto.
  destruct (String.eqb k k') eqn:E; cbn; auto. now rewrite E.
Qed.

Lemma dict_get_pop_other (k k' : string) (d : dict) :
  k <> k' -> dict_get k (dict_pop k' d) = dict_get k d.
Proof.
  intros N. induction d as [|[k2 v2] r IH]; cbn; auto.
  destruct (String.eqb k' k2) eqn:E; cbn.
  - apply String.eqb_eq in E. subst k2.
    apply String.eqb_neq in N. now rewrite N.
  - destruct (String.eqb k k2); auto.
Qed.

Lemma dict_get_filter (p : string -> bool) (k : string) (d : dict) :
  dict_get k (filter (fun kv => p (fst kv)) d) =
  if p k then dict_get k d else None.
Proof.
  induction d as [|[k' v'] r IH]; cbn.
  - now destruct (p k).
  - destruct (String.eqb k k') eqn:E.
    + apply String.eqb_eq in E. subst k'.
      destruct (p k) eqn:Ep; cbn.
      * now rewrite String.eqb_refl.
      * first [exact IH | now rewrite IH, Ep].
    + destruct (p k') eqn:Ep'; cbn; [rewrite E|]; exact IH.
Qed.

Lemma mem_string_In (k : string) (l : list string) :
  mem_string k l = true <-> In k l.
Proof.
  induction l as [|x r IH]; cbn; [intuition discriminate|].
  rewrite orb_true_iff, IH, String.eqb_eq. intuition.
Qed.

Lemma dict_get_In (k : string) (v : json) (d : dict) :
  dict_get k d = Some v -> In (k, v) d.
Proof.
  induction d as [|[k' v'] r IH]; cbn; [discriminate|].
  destruct (String.eqb_spec k k') as [-> | N].
  - intros H. injection H as ->. now left.
  - intros H. right. auto.
Qed.

Lemma dict_get_None (k : string) (d : dict) :
  dict_get k d = None <-> ~ In k (keys d).
Proof.
  induction d as [|[k' v'] r IH]; cbn; [intuition|].
  destruct (String.eqb_spec k k') as [-> | N].
  - split; [discriminate | intros H; destruct H; now left].
  - rewrite IH. intuition.
Qed.

Lemma dict_get_nodup (k : string) (v : json) (d : dict) :
  nodup_keys (keys d) = true -> In (k, v) d -> dict_get k d = Some v.
Proof.
  induction d as [|[k' v'] r IH]; cbn; [intros _ []|].
  rewrite andb_true_iff, negb_true_iff. intros [Hk Hr] [E | Hin].
  - injection E as -> ->. now rewrite String.eqb_refl.
  - destruct (String.eqb_spec k k') as [-> | N]; auto.
    assert (In k' (keys r)) by (apply in_map_iff; exists (k', v); auto).
    apply mem_string_In in H. unfold keys in *. congruence.
Qed.

Lemma In_dict_set (k k' : string) (v v' : json) (d : dict) :
  In (k, v) (dict_set k' v' d) -> (k, v) = (k', v') \/ In (k, v) d.
Proof.
  induction d as [|[k2 v2] r IH]; cbn.
  - intros [E | []]. left. now symmetry.
  - destruct (String.eqb_spec k' k2) as [-> | N]; cbn.
    + intros [E | H]; [left; now symmetry | right; now right].
    + intros [E | H]; [right; now left|].
      destruct (IH H); [now left | right; now right].
Qed.

Lemma In_dict_pop (k k' : string) (v : json) (d : dict) :
  In (k, v) (dict_pop k' d) -> In (k, v) d.
Proof.
  induction d as [|[k2 v2] r IH]; cbn; auto.
  destruct (String.eqb k' k2); cbn; intuition.
Qed.

Lemma nonempty_of_get (k : string) (v : json) (d : dict) :
  dict_get k d = Some v -> is_empty (JObj d) = false /\ truthy (JObj d) = true.
Proof. destruct d; [discriminate | now split]. Qed.

(** * Facts about the loops *)

Section LoopFacts.
Variable entry : string -> json -> result (option json).

Lemma dict_loop_entries (items acc r : dict) :
  dict_loop entry items acc = Ok r ->
  forall k x, In (k, x) items -> exists o, entry k x = Ok o.
Proof.
  revert acc. induction items as [|[key value] rest IH]; cbn [dict_loop].
  - intros acc _ k x [].
  - intros acc H k x [E | Hin].
    + injection E as -> ->. destruct (entry k x); [eauto | discriminate].
    + destruct (entry key value) as [[v|]|]; [ | |discriminate];
        eapply IH; eauto.
Qed.

(** What the result holds under each key, for a mapping as Python has it. *)
Lemma dict_loop_get (items acc r : dict) (k : string) :
  nodup_keys (keys items) = true ->
  dict_loop entry items acc = Ok r ->
  dict_get k r =
  match dict_get k items with
  | None => dict_get k acc
  | Some x =>
      match entry k x with
      | Ok (Some v) => Some v
      | _ => dict_get k acc
      end
  end.
Proof.
  revert acc. induction items as [|[key value] rest IH];
    cbn [dict_loop keys map fst nodup_keys dict_get].
  - intros acc _ H. now injection H as ->.
  - intros acc Hnd H. apply andb_true_iff in Hnd as [Hk Hnd].
    apply negb_true_iff in Hk.
    assert (Hrest : k = key -> dict_get k rest = None).
    { intros ->. apply dict_get_None. intros Hin.
      apply mem_string_In in Hin. fold (keys rest) in Hk. congruence. }
    destruct (String.eqb_spec k key) as [-> | N].
    + destruct (entry key value) as [[v|]|]; [ | |discriminate];
        rewrite (IH _ Hnd H), (Hrest eq_refl); auto.
      apply dict_get_set_same.
    + destruct (entry key value) as [[v|]|]; [ | |discriminate];
        rewrite (IH _ Hnd H); auto.
      destruct (dict_get k rest) as [x|];
        [destruct (entry k x) as [[w|]|]|]; auto;
        now apply dict_get_set_other.
Qed.

(** Every entry of the result was stored by the loop, or was there. *)
Lemma dict_loop_In (items acc r : dict) (k : string) (v : json) :
  dict_loop entry items acc = Ok r -> In (k, v) r ->
  In (k, v) acc \/ exists x, In (k, x) items /\ entry k x = Ok (Some v).
Proof.
  revert acc. induction items as [|[key value] rest IH]; cbn [dict_loop].
  - intros acc H. injection H as ->. now left.
  - intros acc H Hin.
    destruct (entry key value) as [[w|]|] eqn:E; [ | |discriminate].
    + destruct (IH _ H Hin) as [Hacc | (x & Hx & Ex)].
      * apply In_dict_set in Hacc as [Eq | Hacc]; [|now left].
        injection Eq as -> ->. right. exists value. split; [now left | auto].
      * right. exists x. split; [now right | auto].
    + destruct (IH _ H Hin) as [Hacc | (x & Hx & Ex)]; [now left|].
      right. exists x. split; [now right | auto].
Qed.
End LoopFacts.

Section ListLoopFacts.
Variable clean : json -> result json.

Lemma list_loop_cleaned (items r : list json) :
  list_loop clean items = Ok r ->
  exists cleaned, mapM clean items = Ok cleaned /\
                  r = filter (fun c => negb (is_empty c)) cleaned.
Proof.
  revert r. induction items as [|x rest IH]; cbn [list_loop mapM].
  - intros r H. injection H as <-. now exists [].
  - intros r. destruct (clean x) as [c|]; [cbn [bind]|discriminate].
    destruct (list_loop clean rest) as [r'|]; [cbn [bind]|discriminate].
    intros H. injection H as <-.
    destruct (IH r' eq_refl) as (cl & -> & ->). cbn [bind].
    exists (c :: cl). split; auto. cbn [filter].
    now destruct (is_empty c).
Qed.

Lemma mapM_Forall2 {A B} (f : A -> result B) (xs : list A) (ys : list B) :
  mapM f xs = Ok ys -> Forall2 (fun x y => f x = Ok y) xs ys.
Proof.
  revert ys. induction xs as [|x r IH]; cbn [mapM].
  - intros ys H. injection H as <-. constructor.
  - intros ys. destruct (f x) as [y|] eqn:E; [cbn [bind]|discriminate].
    destruct (mapM f r) as [ys'|]; [cbn [bind]|discriminate].
    intros H. injection H as <-. constructor; auto.
Qed.

Lemma list_loop_kept (items r : list json) (x c : json) :
  list_loop clean items = Ok r -> In x items -> clean x = Ok c ->
  is_empty c = false -> In c r.
Proof.
  intros H Hin Hc Hne.
  destruct (list_loop_cleaned _ _ H) as (cl & Hm & ->).
  apply filter_In. split; [|now rewrite Hne].
  apply mapM_Forall2 in Hm. clear H.
  induction Hm as [|y c' xs cs Hy _ IH]; [destruct Hin|].
  destruct Hin as [-> | Hin]; [left; congruence | right; auto].
Qed.

Lemma list_loop_each (items r : list json) (x : json) :
  list_loop clean items = Ok r -> In x items -> exists c, clean x = Ok c.
Proof.
  intros H Hin. destruct (list_loop_cleaned _ _ H) as (cl & Hm & _).
  apply mapM_Forall2 in Hm. clear H.
  induction Hm as [|y c' xs cs Hy _ IH]; [destruct Hin|].
  destruct Hin as [-> | Hin]; eauto.
Qed.
End ListLoopFacts.

(** * Facts about the pruner *)

Section PruneFacts.
Variable bleach_clean : string -> string.

Lemma dict_loop_ext (f g : string -> json -> result (option json))
    (items acc : dict) :
  (forall k x, In (k, x) items -> f k x = g k x) ->
  dict_loop f items acc = dict_loop g items acc.
Proof.
  revert acc. induction items as [|[k x] rest IH]; cbn [dict_loop]; auto.
  intros acc H. rewrite (H k x) by now left.
  destruct (g k x) as [[v|]|]; auto; apply IH; intros; apply H; now right.
Qed.

Lemma type_of_drop (d : dict) :
  dict_get "type" (drop_organization d) = dict_get "type" d.
Proof.
  unfold drop_organization.
  now rewrite (dict_get_filter (fun k => negb (String.eqb k "organization"))).
Qed.

Lemma prune_mapping (b : bool) (d : dict) :
  prune bleach_clean b (JObj d) =
  (result <-
     dict_loop
       (fun key value =>
          if b && String.eqb key "organization" then Ok None
          else clean_entry bleach_clean (prune bleach_clean) (type_of d)
                 key value)
       d [] ;;
   Ok (JObj result)).
Proof.
  cbn [prune]. unfold type_of.
  destruct b; [rewrite type_of_drop|]; reflexivity.
Qed.

(** The call on a mapping under [relationships] is the call on the
    rebuilt mapping. *)
Lemma prune_relationships (d : dict) :
  prune bleach_clean true (JObj d) =
  prune bleach_clean false (JObj (drop_organization d)).
Proof.
  cbn [prune andb]. f_equal.
  generalize (@nil (string * json)) as acc.
  generalize (match dict_get "type" (drop_organization d) with
              | Some t => t | None => JNull end) as ty.
  intros ty. induction d as [|[k x] rest IH]; intros acc; auto.
  cbn [drop_organization filter fst dict_loop].
  destruct (String.eqb k "organization") eqn:E; cbn [negb dict_loop].
  - apply IH.
  - destruct (clean_entry _ _ _ k x) as [[v|]|]; auto; apply IH.
Qed.

(** [remove_null_and_empty] on a mapping, with the loop body of the
    source. *)
Lemma remove_null_and_empty_mapping (d : dict) :
  remove_null_and_empty bleach_clean (JObj d) =
  (result <- dict_loop (source_entry bleach_clean (type_of d)) d [] ;;
   Ok (JObj result)).
Proof.
  unfold remove_null_and_empty. cbn [prune andb]. f_equal.
  apply dict_loop_ext. intros k x _.
  unfold clean_entry, source_entry, type_of, remove_null_and_empty.
  destruct (String.eqb k "links"); auto.
  destruct (String.eqb k "relationships"); auto.
  destruct x; auto. now rewrite prune_relationships.
Qed.

Lemma remove_null_and_empty_sequence (l : list json) :
  remove_null_and_empty bleach_clean (JArr l) =
  (result <- list_loop (remove_null_and_empty bleach_clean) l ;;
   Ok (JArr result)).
Proof. reflexivity. Qed.

Lemma remove_null_and_empty_scalar (v : json) :
  (forall d, v <> JObj d) -> (forall l, v <> JArr l) ->
  remove_null_and_empty bleach_clean v = Ok v.
Proof.
  intros Hd Hl. destruct v; try reflexivity.
  - now destruct (Hl items).
  - now destruct (Hd fields).
Qed.
End PruneFacts.

(** * What pruning keeps *)

Section Survival.
Variable bleach_clean : string -> string.

Lemma wf_value (d : dict) (k : string) (x : json) :
  json_wf (JObj d) = true -> In (k, x) d -> json_wf x = true.
Proof.
  cbn [json_wf]. rewrite andb_true_iff. intros [_ H] Hin.
  rewrite forallb_forall in H. exact (H (k, x) Hin).
Qed.

Lemma wf_keys (d : dict) :
  json_wf (JObj d) = true -> nodup_keys (keys d) = true.
Proof. cbn [json_wf]. rewrite andb_true_iff. now intros [H _]. Qed.

Lemma wf_elem (l : list json) (x : json) :
  json_wf (JArr l) = true -> In x l -> json_wf x = true.
Proof. cbn [json_wf]. rewrite forallb_forall. auto. Qed.

Lemma pop_fields_get (fs : list string) (k : string) (d : dict) :
  ~ In k fs ->
  dict_get k (fold_left (fun d field => dict_pop field d) fs d) =
  dict_get k d.
Proof.
  revert d. induction fs as [|f r IH]; cbn [fold_left]; auto.
  intros d N. rewrite IH by (intros H; apply N; now right).
  apply dict_get_pop_other. intros ->. apply N. now left.
Qed.

Lemma strip_field_get (f k : string) (d : dict) (c : json) :
  not_text c -> dict_get k d = Some c ->
  dict_get k (strip_field bleach_clean d f) = Some c.
Proof.
  intros Hc Hk. unfold strip_field.
  destruct (dict_get f d) as [[ | | |s| | ]|] eqn:E; auto.
  destruct (String.eqb_spec k f) as [-> | N].
  - rewrite Hk in E. injection E as ->. now destruct (Hc s).
  - now rewrite dict_get_set_other.
Qed.

Lemma strip_fields_get (fs : list string) (k : string) (d : dict) (c : json) :
  not_text c -> dict_get k d = Some c ->
  dict_get k (fold_left (strip_field bleach_clean) fs d) = Some c.
Proof.
  intros Hc. revert d. induction fs as [|f r IH]; cbn [fold_left]; auto.
  intros d Hk. apply IH. now apply strip_field_get.
Qed.

Lemma filter_attributes_get (a a' : dict) (ty : json) (k : string) (c : json) :
  _filter_attributes bleach_clean a ty = Ok a' ->
  mem_string k (denied_fields ty) = false -> not_text c ->
  dict_get k a = Some c -> dict_get k a' = Some c.
Proof.
  unfold _filter_attributes, denied_fields.
  destruct (table_get remove_fields ty) as [fs|]; [cbn [bind]|discriminate].
  destruct (table_get html_fields ty) as [hs|]; [cbn [bind]|discriminate].
  intros H Hk Hc Hg. injection H as <-.
  apply strip_fields_get; auto. rewrite pop_fields_get; auto.
  intros Hin. apply mem_string_In in Hin. congruence.
Qed.

Lemma clean_meta_get (m m' : dict) (k : string) (c : json) :
  _clean_meta_object (JObj m) = Ok m' ->
  k <> "settings" -> (k = "included" -> c <> JBool false) ->
  dict_get k m = Some c -> dict_get k m' = Some c.
Proof.
  unfold _clean_meta_object. cbn [py_dict bind].
  intros H Hs Hi Hg. injection H as <-.
  rewrite dict_get_pop_other by exact Hs.
  destruct (dict_get "included" m) as [[ |[|]| | | | ]|] eqn:E; auto.
  rewrite dict_get_pop_other; auto.
  intros ->. rewrite Hg in E. injection E as ->. now apply Hi.
Qed.

Lemma occurs_not_text (v : json) (p : list step) (c : json) :
  number_or_bool v -> occurs_at v p c -> not_text c.
Proof.
  intros Hv H s. destruct H; try discriminate.
  destruct Hv as [[n ->] | [b ->]]; discriminate.
Qed.

Lemma untouched_end (v : json) (parent : string) (pt x : json) :
  untouched v parent pt [] x -> x = v.
Proof. intros H. now inversion H. Qed.

(** The value that the loop stores for a mapping that holds an untouched
    occurrence still holds it. *)
Lemma untouched_survives (v : json) (parent : string) (pt : json)
    (path : list step) (j : json) :
  number_or_bool v -> untouched v parent pt path j -> json_wf j = true ->
  forall c,
    prune bleach_clean (String.eqb parent "relationships") j = Ok c ->
    is_empty c = false /\
    forall o, store_entry bleach_clean pt parent c = Ok o ->
              exists c', o = Some c' /\ occurs_at v path c'.
Proof.
  intros Hv H.
  induction H as [parent pt | parent pt k p d x Hget Hrule Hx IH
                 | parent pt p l x Hin Hx IH]; intros Hwf c Hc.
  - assert (c = v) as ->.
    { destruct Hv as [[n ->] | [b ->]]; cbn in Hc; now injection Hc. }
    split; [destruct Hv as [[n ->] | [b ->]]; reflexivity|].
    intros o Ho. exists v. split; [|constructor].
    unfold store_entry in Ho.
    destruct Hv as [[n ->] | [b ->]];
      destruct (String.eqb parent "attributes"),
               (String.eqb parent "meta"); cbn in Ho; congruence.
  - rewrite prune_mapping in Hc.
    match type of Hc with
    | (bind (dict_loop ?E d []) _ = _) =>
        set (entry := E) in *;
        destruct (dict_loop entry d []) as [r|] eqn:Hloop;
        [cbn [bind] in Hc | discriminate]
    end.
    injection Hc as <-.
    unfold key_rule in Hrule.
    apply orb_false_iff in Hrule as [Hrule Hmeta].
    apply orb_false_iff in Hrule as [Hrule Hattr].
    apply orb_false_iff in Hrule as [Hlinks Horg].
    pose proof (dict_get_In _ _ _ Hget) as Hind.
    destruct (dict_loop_entries _ _ _ _ Hloop k x Hind) as (ok & Hok).
    assert (Hstored : exists c', ok = Some c' /\ occurs_at v p c').
    { unfold entry in Hok. rewrite Horg in Hok.
      unfold clean_entry in Hok. rewrite Hlinks in Hok.
      specialize (IH (wf_value _ _ _ Hwf Hind)).
      destruct (prune bleach_clean (String.eqb k "relationships") x)
        as [cx|]; [cbn [bind] in Hok | discriminate].
      destruct (IH cx eq_refl) as (Hne & Hst).
      rewrite Hne in Hok. exact (Hst ok Hok). }
    destruct Hstored as (cx' & -> & Hocc).
    assert (Hr : dict_get k r = Some cx').
    { rewrite (dict_loop_get entry d [] r k (wf_keys _ Hwf) Hloop).
      now rewrite Hget, Hok. }
    split; [now destruct (nonempty_of_get _ _ _ Hr)|].
    intros o Ho. unfold store_entry in Ho.
    pose proof (occurs_not_text _ _ _ Hv Hocc) as Hnt.
    destruct (String.eqb_spec parent "attributes") as [-> | Na].
    + cbn [String.eqb Ascii.eqb Bool.eqb andb] in Hattr.
      destruct (_filter_attributes bleach_clean r pt) as [a'|] eqn:Ha;
        [cbn in Ho | discriminate].
      injection Ho as <-. eexists. split; [reflexivity|].
      econstructor; [|exact Hocc].
      eapply filter_attributes_get; eauto.
    + cbn [bind] in Ho.
      destruct (String.eqb_spec parent "meta") as [-> | Nm].
      * cbn [String.eqb Ascii.eqb Bool.eqb andb] in Hmeta.
        apply orb_false_iff in Hmeta as [Hset Hinc].
        destruct (_clean_meta_object (JObj r)) as [m'|] eqn:Hm;
          [cbn [bind] in Ho | discriminate].
        assert (Hm' : dict_get k m' = Some cx').
        { eapply clean_meta_get; eauto.
          - now apply String.eqb_neq.
          - intros -> ->. inversion Hocc; subst.
            apply untouched_end in Hx. subst x. discriminate. }
        destruct (nonempty_of_get _ _ _ Hm') as (_ & Ht). rewrite Ht in Ho.
        injection Ho as <-. eexists. split; [reflexivity|].
        econstructor; eauto.
      * injection Ho as <-. eexists. split; [reflexivity|].
        econstructor; eauto.
  - cbn [prune] in Hc.
    destruct (list_loop (prune bleach_clean false) l) as [r|] eqn:Hloop;
      [cbn [bind] in Hc | discriminate].
    injection Hc as <-.
    destruct (list_loop_each _ _ _ _ Hloop Hin) as (cx & Hcx).
    destruct (IH (wf_elem _ _ Hwf Hin) cx Hcx) as (Hne & Hst).
    destruct (Hst (Some cx) eq_refl) as (c' & Ec & Hocc).
    injection Ec as <-.
    pose proof (list_loop_kept _ _ _ _ _ Hloop Hin Hcx Hne) as Hr.
    split; [destruct r; [destruct Hr | reflexivity]|].
    intros o Ho. unfold store_entry in Ho.
    destruct (String.eqb parent "attributes"), (String.eqb parent "meta");
      cbn in Ho; injection Ho as <-; eexists; (split; [reflexivity|]);
      econstructor; eauto.
Qed.
End Survival.

Lemma store_entry_none (bleach_clean : string -> string) (ty : json)
    (k : string) (c : json) :
  store_entry bleach_clean ty k c = Ok None ->
  k = "meta" /\ _clean_meta_object c = Ok [].
Proof.
  unfold store_entry.
  destruct (String.eqb_spec k "attributes") as [-> | Na].
  - destruct c; cbn; try discriminate.
    destruct (_filter_attributes bleach_clean fields ty); cbn; discriminate.
  - cbn [bind]. destruct (String.eqb_spec k "meta") as [-> | Nm];
      [|discriminate].
    destruct c; try discriminate.
    destruct (_clean_meta_object (JObj fields)) as [m|]; [|discriminate].
    cbn [bind]. destruct m; [auto | discriminate].
Qed.

(** C9 (as amended): the test for empty values never drops a number or a
    boolean.  A number or a boolean that occurs in a document, with no
    removal by key on its way ([links]; [organization] under
    [relationships]; a deny-listed field under [attributes]; [settings]
    and a false [included] under [meta]), occurs at the same place after
    [remove_null_and_empty], at every depth; in a sequence the elements
    kept are exactly the cleaned elements that are not null, the empty
    string, an empty mapping or an empty sequence; and a key of a mapping
    is dropped only when it is [links], when its cleaned value is one of
    these four, or when it is [meta] and its cleaned mapping is empty. *)
Theorem pruning_keeps_numbers_and_booleans (bleach_clean : string -> string) :
  (forall v path j j',
     number_or_bool v -> json_wf j = true ->
     untouched v "" JNull path j ->
     remove_null_and_empty bleach_clean j = Ok j' ->
     occurs_at v path j') /\
  (forall l r,
     remove_null_and_empty bleach_clean (JArr l) = Ok (JArr r) ->
     exists cleaned,
       mapM (remove_null_and_empty bleach_clean) l = Ok cleaned /\
       r = filter (fun c => negb (is_empty c)) cleaned) /\
  (forall d r k x,
     json_wf (JObj d) = true ->
     remove_null_and_empty bleach_clean (JObj d) = Ok (JObj r) ->
     dict_get k d = Some x -> dict_get k r = None ->
     k = "links" \/
     exists c,
       remove_null_and_empty bleach_clean
         (match String.eqb k "relationships", x with
          | true, JObj rel => JObj (drop_organization rel)
          | _, _ => x
          end) = Ok c /\
       (is_empty c = true \/ (k = "meta" /\ _clean_meta_object c = Ok []))).
Proof.
  split; [|split].
  - intros v path j j' Hv Hwf Hu Hj.
    destruct (untouched_survives bleach_clean v "" JNull path j Hv Hu Hwf j' Hj)
      as (_ & Hst).
    destruct (Hst (Some j')) as (c' & E & Hocc).
    + unfold store_entry. cbn. now destruct j'.
    + now injection E as <-.
  - intros l r H. rewrite remove_null_and_empty_sequence in H.
    destruct (list_loop _ l) as [r'|] eqn:E; [cbn [bind] in H|discriminate].
    injection H as <-. now apply list_loop_cleaned.
  - intros d r k x Hwf H Hget Hnone.
    rewrite remove_null_and_empty_mapping in H.
    destruct (dict_loop _ d []) as [r'|] eqn:E; [cbn [bind] in H|discriminate].
    injection H as <-.
    rewrite (dict_loop_get _ d [] r' k (wf_keys _ Hwf) E), Hget in Hnone.
    destruct (dict_loop_entries _ _ _ _ E k x (dict_get_In _ _ _ Hget))
      as (o & Ho).
    rewrite Ho in Hnone. destruct o as [w|]; [discriminate|].
    unfold source_entry in Ho.
    destruct (String.eqb_spec k "links") as [-> | Nl]; [now left | right].
    destruct (remove_null_and_empty bleach_clean _) as [c|];
      [cbn [bind] in Ho | discriminate].
    exists c. split; [reflexivity|].
    destruct (is_empty c); [now left | right].
    now apply store_entry_none in Ho.
Qed.

(** * Enrichment *)

Section Enrichment.
Variable organization : string.
Variable bleach_clean : string -> string.
Variable py_repr : json -> string.

Lemma add_webapp_url_rule (d : dict) :
  exists d1, _add_webapp_url organization py_repr (JObj d) = JObj d1 /\
             webapp_url_rule organization py_repr d d1.
Proof.
  unfold _add_webapp_url, webapp_url_rule.
  fold (type_of d) (id_of d).
  destruct (truthy (type_of d) && truthy (id_of d)).
  - eexists. split; [reflexivity|].
    rewrite !dict_get_set_other by discriminate.
    now rewrite dict_get_set_same.
  - exists d. auto.
Qed.

Lemma enrich_item_rule (included i i' : json) :
  enrich_item organization py_repr included i = Ok i' ->
  same_resource organization py_repr i i'.
Proof.
  unfold enrich_item, same_resource. destruct i as [ | | | | |d];
    try discriminate.
  destruct (add_webapp_url_rule d) as (d1 & -> & Hr).
  cbn [py_get bind].
  assert (Hsame : exists d0 d', JObj d = JObj d0 /\ JObj d1 = JObj d' /\
                    webapp_url_rule organization py_repr d0 d')
    by (exists d, d1; auto).
  destruct (py_eq _ (JStr "tasks")); [|intros H; now injection H as <-].
  destruct (_extract_workflow_status_name (JObj d1) included) as [w|];
    [cbn [bind py_in]|discriminate].
  destruct (truthy w && dict_mem "attributes" d1);
    [|intros H; now injection H as <-].
  cbn [py_getitem].
  destruct (dict_get "attributes" d1) as [a|]; [cbn [bind]|discriminate].
  destruct (py_setitem a "workflow_status_name" w) as [a'|];
    [cbn [bind py_setitem]|discriminate].
  intros H. injection H as <-. exists d, (dict_set "attributes" a' d1).
  split; [reflexivity|]. split; [reflexivity|].
  destruct Hr as (Ht & Hi & Hu). unfold webapp_url_rule.
  now rewrite !dict_get_set_other by discriminate.
Qed.

(** The rule, for the resources of the pruned document. *)
Lemma filter_response_rule (response : json) (f : dict) (out : json) :
  remove_null_and_empty bleach_clean response = Ok (JObj f) ->
  filter_response organization bleach_clean py_repr response = Ok out ->
  exists o, out = JObj o /\
    (forall item, dict_get "data" f = Some (JObj item) ->
       exists item', dict_get "data" o = Some (JObj item') /\
                     webapp_url_rule organization py_repr item item') /\
    (forall items, dict_get "data" f = Some (JArr items) ->
       exists items', dict_get "data" o = Some (JArr items') /\
                      Forall2 (same_resource organization py_repr)
                              items items').
Proof.
  intros Hf. unfold filter_response. rewrite Hf. cbn [bind].
  destruct (dict_get "data" f) as [data|] eqn:Hd.
  - destruct (py_get response "included" (JArr [])) as [incl|];
      [cbn [bind]|discriminate].
    destruct data as [ | | | |items|item].
    1-4: intros H; injection H as <-; exists f;
         split; [reflexivity | split; intros ? ?; congruence].
    + destruct (mapM _ items) as [items'|] eqn:Hm;
        [cbn [bind]|discriminate].
      intros H. injection H as <-. eexists. split; [reflexivity|].
      split; [intros ? ?; congruence|].
      intros its E. injection E as <-. exists items'.
      rewrite dict_get_set_same. split; [reflexivity|].
      apply mapM_Forall2 in Hm.
      eapply Forall2_impl; [|exact Hm].
      intros a b Hab. exact (enrich_item_rule _ _ _ Hab).
    + destruct (enrich_item _ _ incl (JObj item)) as [i'|] eqn:He;
        [cbn [bind]|discriminate].
      intros H. injection H as <-. eexists. split; [reflexivity|].
      split; [|intros ? ?; congruence].
      intros it E. injection E as <-.
      destruct (enrich_item_rule _ _ _ He) as (d & d' & E1 & -> & Hr).
      injection E1 as <-. exists d'.
      now rewrite dict_get_set_same.
  - intros H. injection H as <-. exists f.
    split; [reflexivity | split; intros ? ?; congruence].
Qed.
End Enrichment.

Section EnrichmentOfDocuments.
Variable organization : string.
Variable bleach_clean : string -> string.
Variable py_repr : json -> string.

(** What [remove_null_and_empty] leaves under a key of a mapping. *)
Lemma remove_null_and_empty_get_nodup (d p : dict) (k : string) :
  nodup_keys (keys d) = true ->
  remove_null_and_empty bleach_clean (JObj d) = Ok (JObj p) ->
  dict_get k p =
  match dict_get k d with
  | None => None
  | Some x =>
      match source_entry bleach_clean (type_of d) k x with
      | Ok (Some v) => Some v
      | _ => None
      end
  end.
Proof.
  intros Hwf H. rewrite remove_null_and_empty_mapping in H.
  destruct (dict_loop _ d []) as [r|] eqn:E; [cbn [bind] in H|discriminate].
  injection H as <-.
  exact (dict_loop_get _ d [] r k Hwf E).
Qed.

Lemma remove_null_and_empty_get (d p : dict) (k : string) :
  json_wf (JObj d) = true ->
  remove_null_and_empty bleach_clean (JObj d) = Ok (JObj p) ->
  dict_get k p =
  match dict_get k d with
  | None => None
  | Some x =>
      match source_entry bleach_clean (type_of d) k x with
      | Ok (Some v) => Some v
      | _ => None
      end
  end.
Proof.
  intros Hwf. apply remove_null_and_empty_get_nodup. now apply wf_keys.
Qed.

(** Every entry of the pruned mapping was stored for an entry of the
    mapping. *)
Lemma remove_null_and_empty_In (d p : dict) (k : string) (w : json) :
  remove_null_and_empty bleach_clean (JObj d) = Ok (JObj p) ->
  In (k, w) p ->
  exists x, In (k, x) d /\
            source_entry bleach_clean (type_of d) k x = Ok (Some w).
Proof.
  intros H Hin. rewrite remove_null_and_empty_mapping in H.
  destruct (dict_loop _ d []) as [r|] eqn:E; [cbn [bind] in H|discriminate].
  injection H as <-.
  destruct (dict_loop_In _ _ _ _ _ _ E Hin) as [[] | Hx]. exact Hx.
Qed.

Lemma remove_null_and_empty_entry (d p : dict) (k : string) (x : json) :
  remove_null_and_empty bleach_clean (JObj d) = Ok (JObj p) ->
  dict_get k d = Some x ->
  exists o, source_entry bleach_clean (type_of d) k x = Ok o.
Proof.
  intros H Hg. rewrite remove_null_and_empty_mapping in H.
  destruct (dict_loop _ d []) as [r|] eqn:E; [|discriminate].
  exact (dict_loop_entries _ _ _ _ E k x (dict_get_In _ _ _ Hg)).
Qed.

Lemma remove_null_and_empty_is_mapping (d : dict) (c : json) :
  remove_null_and_empty bleach_clean (JObj d) = Ok c -> exists p, c = JObj p.
Proof.
  rewrite remove_null_and_empty_mapping.
  destruct (dict_loop _ d []) as [r|]; [cbn [bind]|discriminate].
  intros H. injection H as <-. eauto.
Qed.

(** A text under [type] or [id] stays, unless it is empty. *)
Lemma pruned_text_field (d p : dict) (k s : string) :
  json_wf (JObj d) = true ->
  remove_null_and_empty bleach_clean (JObj d) = Ok (JObj p) ->
  k = "type" \/ k = "id" ->
  dict_get k d = Some (JStr s) -> s <> "" ->
  dict_get k p = Some (JStr s).
Proof.
  intros Hwf H Hk Hg Hs. rewrite (remove_null_and_empty_get d p k Hwf H), Hg.
  apply String.eqb_neq in Hs.
  destruct Hk as [-> | ->]; unfold source_entry, store_entry; cbn;
    now rewrite Hs.
Qed.

Lemma pruned_missing_field (d p : dict) (k : string) :
  json_wf (JObj d) = true ->
  remove_null_and_empty bleach_clean (JObj d) = Ok (JObj p) ->
  dict_get k d = None -> dict_get k p = None.
Proof.
  intros Hwf H Hg. now rewrite (remove_null_and_empty_get d p k Hwf H), Hg.
Qed.

(** The pruned document holds under [data] the pruned resource. *)
Lemma pruned_data_resource (r f item0 : dict) :
  json_wf (JObj r) = true ->
  remove_null_and_empty bleach_clean (JObj r) = Ok (JObj f) ->
  dict_get "data" r = Some (JObj item0) ->
  exists item,
    remove_null_and_empty bleach_clean (JObj item0) = Ok (JObj item) /\
    dict_get "data" f = if is_empty (JObj item) then None
                        else Some (JObj item).
Proof.
  intros Hwf H Hg.
  destruct (remove_null_and_empty_entry r f "data" _ H Hg) as (o & Ho).
  rewrite (remove_null_and_empty_get r f "data" Hwf H), Hg, Ho.
  unfold source_entry in Ho. cbn [String.eqb Ascii.eqb Bool.eqb] in Ho.
  destruct (remove_null_and_empty bleach_clean (JObj item0)) as [c|] eqn:E;
    [cbn [bind] in Ho|discriminate].
  destruct (remove_null_and_empty_is_mapping _ _ E) as (item & ->).
  exists item. split; [reflexivity|].
  destruct (is_empty (JObj item)); [now injection Ho as <-|].
  unfold store_entry in Ho. cbn in Ho. now injection Ho as <-.
Qed.

Lemma pruned_data_sequence (r f : dict) (items0 : list json) :
  json_wf (JObj r) = true ->
  remove_null_and_empty bleach_clean (JObj r) = Ok (JObj f) ->
  dict_get "data" r = Some (JArr items0) ->
  exists items,
    list_loop (remove_null_and_empty bleach_clean) items0 = Ok items /\
    dict_get "data" f = if is_empty (JArr items) then None
                        else Some (JArr items).
Proof.
  intros Hwf H Hg.
  destruct (remove_null_and_empty_entry r f "data" _ H Hg) as (o & Ho).
  rewrite (remove_null_and_empty_get r f "data" Hwf H), Hg, Ho.
  unfold source_entry in Ho. cbn [String.eqb Ascii.eqb Bool.eqb] in Ho.
  rewrite remove_null_and_empty_sequence in Ho.
  destruct (list_loop _ items0) as [items|]; [cbn [bind] in Ho|discriminate].
  exists items. split; [reflexivity|].
  destruct (is_empty (JArr items)); [now injection Ho as <-|].
  unfold store_entry in Ho. cbn in Ho. now injection Ho as <-.
Qed.

Lemma filter_response_pruned (response out : json) :
  filter_response organization bleach_clean py_repr response = Ok out ->
  exists filtered, remove_null_and_empty bleach_clean response = Ok filtered.
Proof.
  unfold filter_response.
  destruct (remove_null_and_empty bleach_clean response); [eauto|discriminate].
Qed.

Lemma Forall2_In_l {A B} (R : A -> B -> Prop) (xs : list A) (ys : list B)
    (x : A) :
  Forall2 R xs ys -> In x xs -> exists y, In y ys /\ R x y.
Proof.
  induction 1 as [|a b xs ys Hab _ IH]; [intros []|].
  intros [-> | Hin]; [exists b; split; [now left | auto]|].
  destruct (IH Hin) as (y & Hy & Hr). exists y. split; [now right | auto].
Qed.
End EnrichmentOfDocuments.

(** C5: [filter_response] gives a resource at [data] the field
    [webapp_url = https://app.productive.io/{organization}/{type}/{id}]
    when the resource has both a [type] and an [id], and attaches nothing
    otherwise; the [type] and [id] of the output are those of the resource.
    First for the resources of the pruned document, single or in a
    sequence; then from the input document: a single resource with a
    non-empty [type] and [id]; a resource of a sequence; and a single
    resource that lacks one of the two. *)
Theorem webapp_url_enrichment (organization : string)
    (bleach_clean : string -> string) (py_repr : json -> string) :
  (forall response f out,
     remove_null_and_empty bleach_clean response = Ok (JObj f) ->
     filter_response organization bleach_clean py_repr response = Ok out ->
     exists o, out = JObj o /\
       (forall item, dict_get "data" f = Some (JObj item) ->
          exists item', dict_get "data" o = Some (JObj item') /\
                        webapp_url_rule organization py_repr item item') /\
       (forall items, dict_get "data" f = Some (JArr items) ->
          exists items', dict_get "data" o = Some (JArr items') /\
                         Forall2 (same_resource organization py_repr)
                                 items items')) /\
  (forall r item0 t i out,
     json_wf (JObj r) = true ->
     dict_get "data" r = Some (JObj item0) ->
     dict_get "type" item0 = Some (JStr t) -> t <> "" ->
     dict_get "id" item0 = Some (JStr i) -> i <> "" ->
     filter_response organization bleach_clean py_repr (JObj r) = Ok out ->
     exists o item',
       out = JObj o /\ dict_get "data" o = Some (JObj item') /\
       dict_get "type" item' = Some (JStr t) /\
       dict_get "id" item' = Some (JStr i) /\
       dict_get "webapp_url" item' =
       Some (JStr ("https://app.productive.io/" ++ organization ++ "/" ++
                   t ++ "/" ++ i))) /\
  (forall r items0 item0 t i out,
     json_wf (JObj r) = true ->
     dict_get "data" r = Some (JArr items0) -> In (JObj item0) items0 ->
     dict_get "type" item0 = Some (JStr t) -> t <> "" ->
     dict_get "id" item0 = Some (JStr i) -> i <> "" ->
     filter_response organization bleach_clean py_repr (JObj r) = Ok out ->
     exists o items' item',
       out = JObj o /\ dict_get "data" o = Some (JArr items') /\
       In (JObj item') items' /\
       dict_get "type" item' = Some (JStr t) /\
       dict_get "id" item' = Some (JStr i) /\
       dict_get "webapp_url" item' =
       Some (JStr ("https://app.productive.io/" ++ organization ++ "/" ++
                   t ++ "/" ++ i))) /\
  (forall r item0 out o item',
     json_wf (JObj r) = true ->
     dict_get "data" r = Some (JObj item0) ->
     dict_get "type" item0 = None \/ dict_get "id" item0 = None ->
     dict_get "webapp_url" item0 = None ->
     filter_response organization bleach_clean py_repr (JObj r) = Ok out ->
     out = JObj o -> dict_get "data" o = Some (JObj item') ->
     dict_get "webapp_url" item' = None).
Proof.
  split; [|split; [|split]].
  - intros response f out. apply filter_response_rule.
  - intros r item0 t i out Hwf Hd Ht Hnt Hi Hni Hout.
    destruct (filter_response_pruned _ _ _ _ _ Hout) as (c & Hc).
    destruct (remove_null_and_empty_is_mapping _ _ _ Hc) as (f & ->).
    destruct (pruned_data_resource _ _ _ _ Hwf Hc Hd) as (item & Hitem & Hf).
    pose proof (wf_value _ _ _ Hwf (dict_get_In _ _ _ Hd)) as Hwf0.
    pose proof (pruned_text_field _ _ _ "type" t Hwf0 Hitem (or_introl eq_refl)
                  Ht Hnt) as Ht'.
    pose proof (pruned_text_field _ _ _ "id" i Hwf0 Hitem (or_intror eq_refl)
                  Hi Hni) as Hi'.
    destruct (nonempty_of_get _ _ _ Ht') as (Hne & _). rewrite Hne in Hf.
    destruct (filter_response_rule _ _ _ _ _ _ Hc Hout) as (o & -> & Hs & _).
    destruct (Hs item Hf) as (item' & Ho & Rt & Ri & Ru).
    exists o, item'. rewrite Rt, Ri, Ru. unfold type_of, id_of.
    rewrite Ht', Hi'. cbn [truthy py_str].
    apply String.eqb_neq in Hnt, Hni. rewrite Hnt, Hni. cbn.
    repeat split; auto.
  - intros r items0 item0 t i out Hwf Hd Hin Ht Hnt Hi Hni Hout.
    destruct (filter_response_pruned _ _ _ _ _ Hout) as (c & Hc).
    destruct (remove_null_and_empty_is_mapping _ _ _ Hc) as (f & ->).
    destruct (pruned_data_sequence _ _ _ _ Hwf Hc Hd) as (items & Hl & Hf).
    pose proof (wf_value _ _ _ Hwf (dict_get_In _ _ _ Hd)) as Hwfl.
    pose proof (wf_elem _ _ Hwfl Hin) as Hwf0.
    destruct (list_loop_each _ _ _ _ Hl Hin) as (c0 & Hc0).
    destruct (remove_null_and_empty_is_mapping _ _ _ Hc0) as (item & ->).
    pose proof (pruned_text_field _ _ _ "type" t Hwf0 Hc0 (or_introl eq_refl)
                  Ht Hnt) as Ht'.
    pose proof (pruned_text_field _ _ _ "id" i Hwf0 Hc0 (or_intror eq_refl)
                  Hi Hni) as Hi'.
    destruct (nonempty_of_get _ _ _ Ht') as (Hne & _).
    pose proof (list_loop_kept _ _ _ _ _ Hl Hin Hc0 Hne) as Hkept.
    assert (Hne' : is_empty (JArr items) = false)
      by (destruct items; [destruct Hkept | reflexivity]).
    rewrite Hne' in Hf.
    destruct (filter_response_rule _ _ _ _ _ _ Hc Hout) as (o & -> & _ & Hs).
    destruct (Hs items Hf) as (items' & Ho & Hall).
    destruct (Forall2_In_l _ _ _ _ Hall Hkept)
      as (y & Hy & d & d' & Ed & -> & Rt & Ri & Ru).
    injection Ed as <-.
    exists o, items', d'. rewrite Rt, Ri, Ru. unfold type_of, id_of.
    rewrite Ht', Hi'. cbn [truthy py_str].
    apply String.eqb_neq in Hnt, Hni. rewrite Hnt, Hni. cbn.
    repeat split; auto.
  - intros r item0 out o item' Hwf Hd Hmiss Hu Hout -> Ho.
    destruct (filter_response_pruned _ _ _ _ _ Hout) as (c & Hc).
    destruct (remove_null_and_empty_is_mapping _ _ _ Hc) as (f & ->).
    destruct (pruned_data_resource _ _ _ _ Hwf Hc Hd) as (item & Hitem & Hf).
    pose proof (wf_value _ _ _ Hwf (dict_get_In _ _ _ Hd)) as Hwf0.
    destruct (filter_response_rule _ _ _ _ _ _ Hc Hout) as (o' & E & Hs & _).
    injection E as <-.
    destruct (is_empty (JObj item)) eqn:Hne.
    + unfold filter_response in Hout. rewrite Hc in Hout. cbn [bind] in Hout.
      rewrite Hf in Hout. injection Hout as <-. congruence.
    + destruct (Hs item Hf) as (item2 & Ho2 & _ & _ & Ru).
      rewrite Ho in Ho2. injection Ho2 as <-. rewrite Ru.
      rewrite (pruned_missing_field _ _ _ "webapp_url" Hwf0 Hitem Hu).
      unfold type_of, id_of.
      destruct Hmiss as [Hm | Hm];
        rewrite (pruned_missing_field _ _ _ _ Hwf0 Hitem Hm); cbn;
        [reflexivity | now rewrite andb_false_r].
Qed.

(** * The fill-in of [get_task] *)

Lemma fill_field_mapping (a : dict) (field : string * json) :
  fill_field (JObj a) field = Ok (JObj (fill_default a field)).
Proof.
  unfold fill_field, fill_default. cbn [py_in bind]. unfold dict_mem.
  destruct (dict_get (fst field) a) as [v|] eqn:E; cbn [negb bind py_getitem].
  - rewrite E. cbn [bind]. now destruct v.
  - reflexivity.
Qed.

Lemma fill_fields_mapping (fields : list (string * json)) (a : dict) :
  fill_fields (JObj a) fields = Ok (JObj (fold_left fill_default fields a)).
Proof.
  revert a. induction fields as [|f r IH]; intros a; cbn [fill_fields fold_left].
  - reflexivity.
  - rewrite fill_field_mapping. cbn [bind]. apply IH.
Qed.

Lemma fill_default_get (a : dict) (field : string * json) (k : string) :
  snd field = JNum 0 ->
  dict_get k (fill_default a field) =
  if String.eqb k (fst field) then Some (filled (dict_get k a))
  else dict_get k a.
Proof.
  intros Hd. unfold fill_default. rewrite Hd.
  destruct (String.eqb_spec k (fst field)) as [-> | N].
  - destruct (dict_get (fst field) a) as [v|] eqn:E.
    + destruct v; rewrite ?dict_get_set_same, ?E; reflexivity.
    + now rewrite dict_get_set_same.
  - destruct (dict_get (fst field) a) as [[ | | | | | ]|];
      rewrite ?dict_get_set_other by exact N; reflexivity.
Qed.

Lemma filled_twice (v : option json) : filled (Some (filled v)) = filled v.
Proof. now destruct v as [[ | | | | | ]|]. Qed.

Lemma fill_defaults_get (fields : list (string * json)) (a : dict) (k : string) :
  (forall f, In f fields -> snd f = JNum 0) ->
  dict_get k (fold_left fill_default fields a) =
  if mem_string k (map fst fields) then Some (filled (dict_get k a))
  else dict_get k a.
Proof.
  revert a. induction fields as [|f r IH]; intros a Hz;
    cbn [fold_left map mem_string]; auto.
  rewrite IH by (intros; apply Hz; now right).
  rewrite (fill_default_get a f k) by (apply Hz; now left).
  destruct (String.eqb k (fst f)); cbn [orb].
  - rewrite filled_twice. now destruct (mem_string k (map fst r)).
  - reflexivity.
Qed.

(** Where the fill-in of [get_task] runs: when the document filtered by
    [filter_response] has a mapping [attributes] in its [data], [get_task]
    returns it with [initial_estimate], [worked_time], [billable_time] and
    [remaining_time] present: a missing or null entry is 0, an entry with
    a value keeps it, and the other attributes are unchanged. *)
Lemma get_task_fills_time_fields (organization : string)
    (bleach_clean : string -> string) (py_repr : json -> string)
    (fetched : json) (f item attrs : dict) :
  filter_response organization bleach_clean py_repr fetched = Ok (JObj f) ->
  dict_get "data" f = Some (JObj item) ->
  dict_get "attributes" item = Some (JObj attrs) ->
  exists attrs',
    get_task organization bleach_clean py_repr fetched =
    Ok (JObj (dict_set "data"
                (JObj (dict_set "attributes" (JObj attrs') item)) f)) /\
    (forall k, In k (map fst time_fields) ->
               dict_get k attrs' = Some (filled (dict_get k attrs))) /\
    (forall k, ~ In k (map fst time_fields) ->
               dict_get k attrs' = dict_get k attrs).
Proof.
  intros Hf Hd Ha.
  exists (fold_left fill_default time_fields attrs). split; [|split].
  - unfold get_task. rewrite Hf. cbn [bind py_in py_getitem]. unfold dict_mem.
    rewrite Hd. cbn [bind py_in py_getitem]. unfold dict_mem. rewrite Ha.
    cbn [bind]. rewrite fill_fields_mapping. reflexivity.
  - intros k Hk. rewrite fill_defaults_get.
    + apply mem_string_In in Hk. now rewrite Hk.
    + intros fld Hin. cbn in Hin. intuition (subst; reflexivity).
  - intros k Hk. rewrite fill_defaults_get.
    + destruct (mem_string k (map fst time_fields)) eqn:E; auto.
      apply mem_string_In in E. contradiction.
    + intros fld Hin. cbn in Hin. intuition (subst; reflexivity).
Qed.

(** * The task-list view *)

Lemma nodup_filter (p : string * json -> bool) (d : dict) :
  nodup_keys (keys d) = true -> nodup_keys (keys (filter p d)) = true.
Proof.
  unfold keys.
  induction d as [|[k v] r IH]; cbn [filter map fst nodup_keys]; auto.
  rewrite andb_true_iff, negb_true_iff. intros [Hk Hr].
  destruct (p (k, v)); cbn [map fst nodup_keys]; auto.
  rewrite (IH Hr), andb_true_r, negb_true_iff.
  destruct (mem_string k (map fst (filter p r))) eqn:E; auto.
  apply mem_string_In, in_map_iff in E as ((k', v') & Ek & Hin).
  cbn in Ek. subst k'. apply filter_In in Hin as [Hin _].
  assert (In k (map fst r)) by (apply in_map_iff; exists (k, v'); auto).
  apply mem_string_In in H. congruence.
Qed.

Lemma keys_dict_set (k k' : string) (v : json) (d : dict) :
  In k (keys (dict_set k' v d)) -> k = k' \/ In k (keys d).
Proof.
  unfold keys. rewrite in_map_iff. intros ((k2, v2) & E & Hin).
  cbn in E. subst k2. apply In_dict_set in Hin as [Eq | Hin].
  - injection Eq as -> _. now left.
  - right. apply in_map_iff. exists (k, v2). auto.
Qed.

Lemma nodup_dict_set (k : string) (v : json) (d : dict) :
  nodup_keys (keys d) = true -> nodup_keys (keys (dict_set k v d)) = true.
Proof.
  unfold keys.
  induction d as [|[k' v'] r IH]; cbn [dict_set map fst nodup_keys]; auto.
  rewrite andb_true_iff, negb_true_iff. intros [Hk Hr].
  destruct (String.eqb_spec k k') as [-> | N]; cbn [map fst nodup_keys].
  - now rewrite Hk, Hr.
  - rewrite (IH Hr), andb_true_r, negb_true_iff.
    destruct (mem_string k' (map fst (dict_set k v r))) eqn:E; auto.
    apply mem_string_In, keys_dict_set in E as [E | E]; [congruence|].
    apply mem_string_In in E. unfold keys in E. congruence.
Qed.

Lemma built_attrs_nodup (a : dict) (w : json) :
  nodup_keys (keys a) = true -> nodup_keys (keys (built_attrs a w)) = true.
Proof.
  intros H. unfold built_attrs.
  destruct (truthy w); [apply nodup_dict_set|]; now apply nodup_filter.
Qed.

Lemma In_keys (k : string) (v : json) (d : dict) : In (k, v) d -> In k (keys d).
Proof. intros H. apply in_map_iff. now exists (k, v). Qed.

Lemma built_attrs_keys (a : dict) (w : json) (k : string) :
  In k (keys (built_attrs a w)) ->
  In k (allow_list ++ ["workflow_status_name"])%list.
Proof.
  unfold built_attrs. intros H.
  assert (Hf : forall k, In k (keys (filter (fun kv => mem_string (fst kv)
                                               essential_fields) a)) ->
                         In k essential_fields).
  { intros k0 Hin. apply in_map_iff in Hin as ((k1, v1) & E & Hin).
    cbn in E. subst k1. apply filter_In in Hin as [_ Hm].
    now apply mem_string_In in Hm. }
  destruct (truthy w); [apply keys_dict_set in H as [-> | H]|].
  - cbn. tauto.
  - exact (Hf k H).
  - exact (Hf k H).
Qed.

Lemma allow_list_essential (k : string) :
  In k allow_list -> mem_string k essential_fields = true /\
                     k <> "workflow_status_name".
Proof.
  intros H. cbn in H.
  repeat (destruct H as [<- | H]; [split; [reflexivity | discriminate]|]).
  destruct H.
Qed.

Lemma built_attrs_get (a : dict) (w : json) (k : string) :
  In k allow_list -> dict_get k (built_attrs a w) = dict_get k a.
Proof.
  intros H. destruct (allow_list_essential k H) as (Hm & Hn).
  unfold built_attrs.
  destruct (truthy w); [rewrite dict_get_set_other by exact Hn|];
    now rewrite (dict_get_filter (fun k => mem_string k essential_fields)), Hm.
Qed.

Section TaskListView.
Variable organization : string.
Variable py_repr : json -> string.

(** The mapping that the loop of [filter_task_list_response] builds for
    a task. *)
Lemma task_list_item_built (included : json) (d : dict) (built : json) :
  eq_str (dict_get "type" d) "tasks" = true ->
  task_list_item organization py_repr included (JObj d) = Ok built ->
  exists b,
    built = JObj b /\ nodup_keys (keys b) = true /\
    dict_get "type" b = Some (JStr "tasks") /\
    (forall k, In k (keys b) ->
               In k ["id"; "type"; "attributes"; "webapp_url"]) /\
    (forall x, dict_get "attributes" b = Some x ->
       exists a w, dict_get "attributes" d = Some (JObj a) /\
                   x = JObj (built_attrs a w)) /\
    (forall a, dict_get "attributes" d = Some (JObj a) ->
       exists w, dict_get "attributes" b = Some (JObj (built_attrs a w))).
Proof.
  intros Ht. unfold task_list_item. rewrite Ht.
  assert (Etype : dict_get "type" d = Some (JStr "tasks")).
  { unfold eq_str in Ht. destruct (dict_get "type" d) as [[ | | |s| | ]|];
      try discriminate. apply String.eqb_eq in Ht. now subst. }
  rewrite Etype. unfold _add_webapp_url.
  destruct (dict_get "attributes" d) as [attributes|] eqn:Ea.
  - destruct attributes as [ | | | | |a]; try discriminate.
    cbn [_filter_task_list_attributes bind].
    destruct (_extract_workflow_status_name (JObj d) included) as [w|];
      [cbn [bind]|discriminate].
    fold (built_attrs a w).
    cbn [dict_set dict_get String.eqb Ascii.eqb Bool.eqb truthy negb].
    destruct (match dict_get "id" d with Some v => v | None => JNull end)
      as [ | | | | | ] eqn:Eid; cbn [truthy andb];
      match goal with
      | |- context [if ?c then _ else _] => destruct c
      | _ => idtac
      end;
      intros H; injection H as <-; eexists; (split; [reflexivity|]);
      cbn [keys map fst nodup_keys mem_string dict_set dict_get
           String.eqb Ascii.eqb Bool.eqb orb andb negb In];
      (split; [reflexivity|]); (split; [reflexivity|]);
      (split; [intuition|]);
      (split; [intros x Hx; injection Hx as <-; eauto
              | intros a0 Ha0; injection Ha0 as <-; eauto]).
  - cbn [bind dict_set dict_get String.eqb Ascii.eqb Bool.eqb truthy negb].
    destruct (match dict_get "id" d with Some v => v | None => JNull end)
      as [ | | | | | ] eqn:Eid; cbn [truthy andb];
      match goal with
      | |- context [if ?c then _ else _] => destruct c
      | _ => idtac
      end;
      intros H; injection H as <-; eexists; (split; [reflexivity|]);
      cbn [keys map fst nodup_keys mem_string dict_set dict_get
           String.eqb Ascii.eqb Bool.eqb orb andb negb In];
      (split; [reflexivity|]); (split; [reflexivity|]);
      (split; [intuition|]);
      (split; [intros x Hx; discriminate | intros a0 Ha0; discriminate]).
Qed.
End TaskListView.

Section TaskViews.
Variable bleach_clean : string -> string.

Lemma keys_dict_pop (k f : string) (d : dict) :
  In k (keys (dict_pop f d)) -> In k (keys d).
Proof.
  intros H. apply in_map_iff in H as ((k', v) & E & Hin). cbn in E. subst k'.
  eapply In_keys, In_dict_pop, Hin.
Qed.

Lemma keys_strip_field (k f : string) (d : dict) :
  In k (keys (strip_field bleach_clean d f)) -> In k (keys d).
Proof.
  unfold strip_field.
  destruct (dict_get f d) as [[ | | |s| | ]|] eqn:E; auto.
  intros H. apply keys_dict_set in H as [-> | H]; auto.
  eapply In_keys, dict_get_In, E.
Qed.

Lemma filter_attributes_keys (a a' : dict) (ty : json) (k : string) :
  _filter_attributes bleach_clean a ty = Ok a' ->
  In k (keys a') -> In k (keys a).
Proof.
  unfold _filter_attributes.
  destruct (table_get remove_fields ty) as [fs|]; [cbn [bind]|discriminate].
  destruct (table_get html_fields ty) as [hs|]; [cbn [bind]|discriminate].
  intros H. injection H as <-.
  assert (Hpop : forall b, In k (keys (fold_left (fun d field =>
                               dict_pop field d) fs b)) -> In k (keys b)).
  { induction fs as [|f r IH]; cbn [fold_left]; auto.
    intros b Hb. eapply keys_dict_pop, IH, Hb. }
  assert (Hstrip : forall b, In k (keys (fold_left (strip_field bleach_clean)
                                           hs b)) -> In k (keys b)).
  { induction hs as [|f r IH]; cbn [fold_left]; auto.
    intros b Hb. eapply keys_strip_field, IH, Hb. }
  intros Hin. apply Hpop, Hstrip, Hin.
Qed.

Lemma strip_field_get_other (f k : string) (d : dict) :
  k <> f -> dict_get k (strip_field bleach_clean d f) = dict_get k d.
Proof.
  intros N. unfold strip_field.
  destruct (dict_get f d) as [[ | | |s| | ]|]; auto.
  now apply dict_get_set_other.
Qed.

Lemma allow_list_plain (k : string) :
  In k allow_list ->
  String.eqb k "links" = false /\ String.eqb k "relationships" = false /\
  String.eqb k "attributes" = false /\ String.eqb k "meta" = false /\
  k <> "creation_method_id" /\ k <> "email_key" /\ k <> "placement" /\
  k <> "description".
Proof.
  intros H. cbn in H.
  repeat (destruct H as [<- | H];
          [repeat split; (reflexivity || discriminate)|]).
  destruct H.
Qed.

Lemma source_entry_allowed (ty : json) (k : string) (x c : json) :
  In k allow_list ->
  remove_null_and_empty bleach_clean x = Ok c -> is_empty c = false ->
  source_entry bleach_clean ty k x = Ok (Some c).
Proof.
  intros Hk Hc Hne.
  destruct (allow_list_plain k Hk) as (Hl & Hr & Ha & Hm & _).
  unfold source_entry, store_entry. rewrite Hl, Hr, Hc. cbn [bind].
  rewrite Hne, Ha. cbn [bind]. rewrite Hm. reflexivity.
Qed.

Lemma filter_attributes_tasks_get (a a' : dict) (k : string) :
  In k allow_list ->
  _filter_attributes bleach_clean a (JStr "tasks") = Ok a' ->
  dict_get k a' = dict_get k a.
Proof.
  intros Hk H.
  destruct (allow_list_plain k Hk) as (_ & _ & _ & _ & N1 & N2 & N3 & N4).
  cbn in H. injection H as <-.
  rewrite strip_field_get_other by exact N4.
  now rewrite !dict_get_pop_other by assumption.
Qed.

(** What the final pruning makes of the mapping built for a task. *)
Lemma task_view_of_built (d b : dict) (view : json) :
  nodup_keys (keys b) = true ->
  dict_get "type" b = Some (JStr "tasks") ->
  (forall k, In k (keys b) ->
             In k ["id"; "type"; "attributes"; "webapp_url"]) ->
  (forall x, dict_get "attributes" b = Some x ->
     exists a w, dict_get "attributes" d = Some (JObj a) /\
                 x = JObj (built_attrs a w)) ->
  (forall a, dict_get "attributes" d = Some (JObj a) ->
     exists w, dict_get "attributes" b = Some (JObj (built_attrs a w))) ->
  (forall a, dict_get "attributes" d = Some (JObj a) ->
             nodup_keys (keys a) = true) ->
  remove_null_and_empty bleach_clean (JObj b) = Ok view ->
  exists v, view = JObj v /\ dict_get "type" v = Some (JStr "tasks") /\
            task_view_shape v /\ keeps_allowed bleach_clean (JObj d) v.
Proof.
  intros Hnd Hty Hkeys Hattr Hattr' Hwfa Hview.
  destruct (remove_null_and_empty_is_mapping _ _ _ Hview) as (v & ->).
  assert (Etype : type_of b = JStr "tasks") by (unfold type_of; now rewrite Hty).
  exists v. split; [reflexivity|]. split; [|split].
  - rewrite (remove_null_and_empty_get_nodup _ b v "type" Hnd Hview), Hty.
    reflexivity.
  - split.
    + intros k Hk. apply in_map_iff in Hk as ((k', w) & E & Hin).
      cbn in E. subst k'.
      destruct (remove_null_and_empty_In _ _ _ _ _ Hview Hin) as (x & Hx & _).
      eapply Hkeys, In_keys, Hx.
    + intros a' Ha'. apply dict_get_In in Ha'.
      destruct (remove_null_and_empty_In _ _ _ _ _ Hview Ha')
        as (x & Hx & Hs).
      apply (dict_get_nodup _ _ _ Hnd) in Hx.
      destruct (Hattr x Hx) as (a & w & Ha & ->).
      unfold source_entry in Hs.
      cbn [String.eqb Ascii.eqb Bool.eqb] in Hs.
      destruct (remove_null_and_empty bleach_clean (JObj (built_attrs a w)))
        as [c2|] eqn:E2; [cbn [bind] in Hs|discriminate].
      destruct (remove_null_and_empty_is_mapping _ _ _ E2) as (a2 & ->).
      destruct (is_empty (JObj a2)); [discriminate|].
      unfold store_entry in Hs. cbn [String.eqb Ascii.eqb Bool.eqb] in Hs.
      destruct (_filter_attributes bleach_clean a2 (type_of b)) as [a3|] eqn:E3;
        [cbn in Hs|discriminate].
      injection Hs as <-. exists a3. split; [reflexivity|].
      intros k Hk. apply (filter_attributes_keys _ _ _ _ E3) in Hk.
      apply in_map_iff in Hk as ((k', w') & E & Hin). cbn in E. subst k'.
      destruct (remove_null_and_empty_In _ _ _ _ _ E2 Hin) as (x' & Hx' & _).
      eapply built_attrs_keys, In_keys, Hx'.
  - intros d0 a k x c Ed Ha Hk Hx Hc Hne. injection Ed as <-.
    destruct (Hattr' a Ha) as (w & Hb).
    destruct (remove_null_and_empty_entry _ _ _ _ _ Hview Hb) as (o & Ho).
    rewrite (remove_null_and_empty_get_nodup _ b v "attributes" Hnd Hview), Hb.
    unfold source_entry in Ho |- *.
    cbn [String.eqb Ascii.eqb Bool.eqb] in Ho |- *.
    destruct (remove_null_and_empty bleach_clean (JObj (built_attrs a w)))
      as [c2|] eqn:E2; [cbn [bind] in Ho |- *|discriminate].
    destruct (remove_null_and_empty_is_mapping _ _ _ E2) as (a2 & ->).
    assert (H2 : dict_get k a2 = Some c).
    { rewrite (remove_null_and_empty_get_nodup _ _ a2 k
                 (built_attrs_nodup a w (Hwfa a Ha)) E2).
      rewrite built_attrs_get, Hx by exact Hk.
      now rewrite (source_entry_allowed _ k x c Hk Hc Hne). }
    destruct (nonempty_of_get _ _ _ H2) as (Hne2 & _).
    rewrite Hne2 in Ho |- *.
    unfold store_entry in Ho |- *.
    cbn [String.eqb Ascii.eqb Bool.eqb] in Ho |- *. rewrite Etype in Ho |- *.
    destruct (_filter_attributes bleach_clean a2 (JStr "tasks")) as [a3|] eqn:E3;
      [cbn [bind]|discriminate].
    exists a3. split; [reflexivity|].
    now rewrite (filter_attributes_tasks_get a2 a3 k Hk E3).
Qed.
End TaskViews.

Lemma Forall2_compose_In {A B C} (R : A -> B -> Prop) (S : B -> C -> Prop)
    (T : A -> C -> Prop) (xs : list A) (ys : list B) (zs : list C) :
  (forall x y z, In x xs -> R x y -> S y z -> T x z) ->
  Forall2 R xs ys -> Forall2 S ys zs -> Forall2 T xs zs.
Proof.
  intros H HR. revert zs. induction HR as [|x y xs ys Hxy _ IH].
  - intros zs HS. inversion HS. constructor.
  - intros zs HS. inversion HS as [|y' z ys' zs' Hyz HS']; subst.
    constructor.
    + eapply H; eauto. now left.
    + apply IH; auto. intros. eapply H; eauto. now right.
Qed.

Lemma keep_meta_cases (r f1 f2 : dict) :
  keep_meta r f1 = Ok f2 ->
  f2 = f1 \/ exists m, f2 = dict_set "meta" (JObj m) f1.
Proof.
  unfold keep_meta. destruct (dict_get "meta" r) as [meta|].
  - destruct (_clean_meta_object meta) as [m|]; [cbn [bind]|discriminate].
    intros H. injection H as <-. right. eauto.
  - intros H. injection H as <-. now left.
Qed.

(** C7: in the task-list view every item of [data] of type [tasks] comes
    out with nothing but [id], [type], [webapp_url] and [attributes], the
    attributes being restricted to the allow-list plus
    [workflow_status_name]: [description] is gone, and an allow-listed
    attribute such as [title] or [task_number] is kept with its cleaned
    value when that is not empty.  Any other item is what the final deep
    pruning makes of it.  The sequence under [data] of the output holds
    these views in order, the empty ones dropped. *)
Theorem task_list_view_allow_list (organization : string)
    (bleach_clean : string -> string) (py_repr : json -> string)
    (r : dict) (items : list json) (out : json) :
  json_wf (JObj r) = true ->
  dict_get "data" r = Some (JArr items) ->
  filter_task_list_response organization bleach_clean py_repr (JObj r) = Ok out ->
  exists views o,
    out = JObj o /\
    Forall2 (task_list_item_view bleach_clean) items views /\
    dict_get "data" o =
    match filter (fun c => negb (is_empty c)) views with
    | [] => None
    | kept => Some (JArr kept)
    end /\
    ~ In "description" (allow_list ++ ["workflow_status_name"])%list.
Proof.
  intros Hwf Hd Hout. unfold filter_task_list_response in Hout.
  rewrite Hd in Hout.
  match type of Hout with
  | context [mapM ?F items] =>
      destruct (mapM F items) as [built|] eqn:Hm;
      [cbn [bind dict_set] in Hout | discriminate]
  end.
  destruct (keep_meta r [("data", JArr built)]) as [f2|] eqn:Hk;
    [cbn [bind] in Hout | discriminate].
  destruct (remove_null_and_empty_is_mapping _ _ _ Hout) as (o & ->).
  assert (Hf2 : nodup_keys (keys f2) = true /\
                dict_get "data" f2 = Some (JArr built)).
  { destruct (keep_meta_cases _ _ _ Hk) as [-> | (m & ->)]; now split. }
  destruct Hf2 as (Hnd & Hdata).
  destruct (remove_null_and_empty_entry _ _ _ _ _ Hout Hdata) as (oo & Ho).
  pose proof (remove_null_and_empty_get_nodup _ f2 o "data" Hnd Hout) as Hget.
  rewrite Hdata, Ho in Hget.
  unfold source_entry in Ho. cbn [String.eqb Ascii.eqb Bool.eqb] in Ho.
  rewrite remove_null_and_empty_sequence in Ho.
  destruct (list_loop _ built) as [outs|] eqn:Hl; [cbn [bind] in Ho|discriminate].
  destruct (list_loop_cleaned _ _ _ Hl) as (views & Hviews & Eouts).
  exists views, o. split; [reflexivity|]. split; [|split].
  - apply mapM_Forall2 in Hm, Hviews.
    refine (Forall2_compose_In _ _ _ _ _ _ _ Hm Hviews).
    intros item b view Hin Hb Hv.
    pose proof (wf_elem _ _ (wf_value _ _ _ Hwf (dict_get_In _ _ _ Hd)) Hin)
      as Hwfi.
    split.
    + intros Htask. destruct item as [ | | | | |d]; try discriminate.
      cbn [is_task] in Htask.
      destruct (task_list_item_built _ _ _ _ _ Htask Hb)
        as (b' & -> & Hnb & Htb & Hkb & Hab & Hab').
      eapply task_view_of_built; eauto.
      intros a Ha.
      exact (wf_keys _ (wf_value _ _ _ Hwfi (dict_get_In _ _ _ Ha))).
    + intros Htask. unfold task_list_item in Hb.
      destruct item as [ | | | | |d]; try (injection Hb as <-; exact Hv).
      cbn [is_task] in Htask. rewrite Htask in Hb.
      injection Hb as <-. exact Hv.
  - rewrite Hget, <- Eouts. destruct outs as [|c cs].
    + now injection Ho as <-.
    + cbn [is_empty] in Ho. unfold store_entry in Ho. cbn in Ho.
      now injection Ho as <-.
  - cbn. intuition discriminate.
Qed.

(** * The gateway client *)

Lemma retryable_not_final (r : Response) :
  retryable (status_code r) ->
  Z.eqb (status_code r) 200 = false /\ Z.eqb (status_code r) 401 = false /\
  Z.eqb (status_code r) 404 = false /\
  (Z.eqb (status_code r) 429 || Z.geb (status_code r) 500 = true).
Proof.
  unfold retryable. intros H.
  repeat split; try (apply Z.eqb_neq; lia).
  apply orb_true_iff. destruct H as [H | H].
  - left. now apply Z.eqb_eq.
  - right. apply Z.geb_le. lia.
Qed.

Lemma retryable_round_sleeps (r : Response) (attempt : nat) :
  retryable (status_code r) -> attempt < 3 ->
  attempt_round init (Responded r) attempt =
  SleepThenContinue (backoff init attempt).
Proof.
  intros H Hlt. destruct (retryable_not_final r H) as (H2 & H4 & H5 & Hr).
  unfold attempt_round, _should_retry. rewrite H2, H4, H5, Hr.
  replace (Nat.ltb attempt (max_retries init)) with true; [reflexivity|].
  symmetry. apply Nat.ltb_lt. simpl. lia.
Qed.

Lemma retryable_round_last (r : Response) :
  retryable (status_code r) ->
  attempt_round init (Responded r) 3 =
  Done (api_error r (if Z.eqb (status_code r) 429 then "Rate limit exceeded"
                     else "Server error")).
Proof.
  intros H. destruct (retryable_not_final r H) as (H2 & H4 & H5 & Hr).
  unfold attempt_round, _should_retry. rewrite H2, H4, H5. reflexivity.
Qed.

(** C1: when every response has status 429 or a status of 500 or more,
    [_request] makes four attempts, one and three retries, sleeps
    [retry_delay * 2^attempt] seconds between them, that is 1, 2 and 4
    seconds, and raises the error built from the fourth response. *)
Theorem request_retry_bound (server : nat -> outcome) :
  (forall n, exists r, server n = Responded r /\ retryable (status_code r)) ->
  attempts_made (_request init server) = 4 /\
  sleeps (_request init server) =
    [backoff init 0; backoff init 1; backoff init 2] /\
  [backoff init 0; backoff init 1; backoff init 2] = [1; 2; 4]%Q /\
  exists r, server 3 = Responded r /\
    ending (_request init server) =
    api_error r (if Z.eqb (status_code r) 429 then "Rate limit exceeded"
                 else "Server error").
Proof.
  intros H.
  destruct (H 0) as (r0 & E0 & R0), (H 1) as (r1 & E1 & R1),
           (H 2) as (r2 & E2 & R2), (H 3) as (r3 & E3 & R3).
  unfold _request. cbn [max_retries init Nat.add seq request_loop].
  rewrite E0, E1, E2, E3.
  rewrite !retryable_round_sleeps by (assumption || lia).
  rewrite retryable_round_last by assumption.
  cbn [attempts_made sleeps ending].
  repeat split; try reflexivity.
  exists r3. split; reflexivity.
Qed.

Lemma round_other_status (r : Response) (attempt : nat) :
  status_code r <> 200%Z -> status_code r <> 401%Z ->
  status_code r <> 404%Z -> status_code r <> 429%Z ->
  (status_code r < 500)%Z ->
  attempt_round init (Responded r) attempt = Done (api_error r "Server error").
Proof.
  intros H2 H4 H5 H9 Hlt. unfold attempt_round, _should_retry.
  apply Z.eqb_neq in H2, H4, H5, H9. rewrite H2, H4, H5, H9.
  replace (Z.geb (status_code r) 500) with false.
  - rewrite andb_false_r. reflexivity.
  - symmetry. rewrite Z.geb_leb. apply Z.leb_gt. exact Hlt.
Qed.

Lemma request_first_round (server : nat -> outcome) (f : finished) :
  attempt_round init (server 0) 0 = Done f ->
  _request init server = {| ending := f; sleeps := []; attempts_made := 1 |}.
Proof.
  intros H. unfold _request. cbn [max_retries init Nat.add seq request_loop].
  rewrite H. reflexivity.
Qed.

Lemma parse_mapping (r : Response) (d : dict) (default_message : string) :
  json_body r = Some (JObj d) ->
  _parse_error_response r default_message =
  (or_default (dict_get "message" d) default_message,
   or_default (dict_get "errorCode" d) "UNKNOWN").
Proof. intros H. unfold _parse_error_response. rewrite H. reflexivity. Qed.

Lemma parse_fallback (r : Response) (default_message : string) :
  (forall d, json_body r <> Some (JObj d)) ->
  _parse_error_response r default_message =
  (JStr ("HTTP " ++ string_of_Z (status_code r) ++ ": " ++ text r),
   JStr "UNKNOWN").
Proof.
  intros H. unfold _parse_error_response.
  destruct (json_body r) as [[ | | | | | d]|]; try reflexivity.
  now destruct (H d).
Qed.

(** C2 (as amended): on a first response with status 401, 404 or another
    4xx that is not 429, [_request] makes one attempt and sleeps never.
    On 401 the error code is UNAUTHORIZED, on 404 it is NOT_FOUND.  On
    another 4xx the error is read from the body: a body that is a mapping
    gives its [message], or "Server error" when it has none, and its
    [errorCode], or "UNKNOWN" when it has none; a body that is not JSON,
    or not a mapping, gives the message "HTTP {status}: {text}" and the
    code "UNKNOWN". *)
Theorem request_non_retryable (server : nat -> outcome) (r : Response) :
  server 0 = Responded r ->
  status_code r = 401%Z \/ status_code r = 404%Z \/ other_4xx (status_code r) ->
  attempts_made (_request init server) = 1 /\
  sleeps (_request init server) = [] /\
  (status_code r = 401%Z -> ending (_request init server) = unauthorized) /\
  (status_code r = 404%Z -> ending (_request init server) = not_found) /\
  (other_4xx (status_code r) ->
   ending (_request init server) = api_error r "Server error" /\
   (forall d, json_body r = Some (JObj d) ->
      _parse_error_response r "Server error" =
      (or_default (dict_get "message" d) "Server error",
       or_default (dict_get "errorCode" d) "UNKNOWN")) /\
   ((forall d, json_body r <> Some (JObj d)) ->
      _parse_error_response r "Server error" =
      (JStr ("HTTP " ++ string_of_Z (status_code r) ++ ": " ++ text r),
       JStr "UNKNOWN"))).
Proof.
  intros Hs Hst.
  assert (Hdone : exists f, attempt_round init (server 0) 0 = Done f /\
            (status_code r = 401%Z -> f = unauthorized) /\
            (status_code r = 404%Z -> f = not_found) /\
            (other_4xx (status_code r) -> f = api_error r "Server error")).
  { rewrite Hs. destruct Hst as [H | [H | H]].
    - exists unauthorized. unfold attempt_round. rewrite H. cbn.
      repeat split; try reflexivity; try lia.
      intros (_ & N & _). now destruct N.
    - exists not_found. unfold attempt_round. rewrite H. cbn.
      repeat split; try reflexivity; try lia.
      intros (_ & _ & N & _). now destruct N.
    - exists (api_error r "Server error").
      destruct H as (Hr & N1 & N4 & N9).
      rewrite round_other_status by lia.
      repeat split; try reflexivity; intros E; rewrite E in *; lia. }
  destruct Hdone as (f & Hf & H1 & H4 & Ho).
  rewrite (request_first_round server f Hf). cbn [attempts_made sleeps ending].
  split; [reflexivity|]. split; [reflexivity|].
  split; [exact H1|]. split; [exact H4|].
  intros H. split; [exact (Ho H)|].
  split; [intros d; apply parse_mapping | apply parse_fallback].
Qed.

Lemma round_return (self : ProductiveClient) (o : outcome) (attempt : nat)
    (body : json) :
  attempt_round self o attempt = Done (Return body) ->
  exists r, o = Responded r /\ status_code r = 200%Z /\
            json_body r = Some body.
Proof.
  unfold attempt_round. destruct o as [r | e].
  - destruct (Z.eqb_spec (status_code r) 200) as [E | N].
    + destruct (json_body r) as [b|] eqn:Eb; [|discriminate].
      intros H. injection H as <-. exists r. auto.
    + destruct (Z.eqb (status_code r) 401); [discriminate|].
      destruct (Z.eqb (status_code r) 404); [discriminate|].
      destruct (_should_retry self (status_code r) attempt); discriminate.
  - destruct (Nat.ltb attempt (max_retries self)); discriminate.
Qed.

Lemma round_never_none (self : ProductiveClient) (o : outcome) (attempt : nat) :
  attempt_round self o attempt <> Done ReturnNone.
Proof.
  unfold attempt_round. destruct o as [r | e].
  - destruct (Z.eqb (status_code r) 200).
    + destruct (json_body r); discriminate.
    + destruct (Z.eqb (status_code r) 401); [discriminate|].
      destruct (Z.eqb (status_code r) 404); [discriminate|].
      destruct (_should_retry self (status_code r) attempt); discriminate.
  - destruct (Nat.ltb attempt (max_retries self)); discriminate.
Qed.

Lemma last_round_done (self : ProductiveClient) (o : outcome) :
  exists f, attempt_round self o (max_retries self) = Done f.
Proof.
  unfold attempt_round, _should_retry. rewrite Nat.ltb_irrefl. cbn [andb].
  destruct o as [r | e]; [|eauto].
  destruct (Z.eqb (status_code r) 200).
  - destruct (json_body r); eauto.
  - destruct (Z.eqb (status_code r) 401); [eauto|].
    destruct (Z.eqb (status_code r) 404); eauto.
Qed.

(** The rounds of a run, seen from its ending: the run ends in the first
    round that is [Done]. *)
Lemma request_loop_result (self : ProductiveClient) (server : nat -> outcome)
    (attempts : list nat) (f : finished) :
  ending (request_loop self server attempts) = f -> f <> ReturnNone ->
  exists attempt, In attempt attempts /\
                  attempt_round self (server attempt) attempt = Done f.
Proof.
  induction attempts as [|a rest IH]; cbn [request_loop].
  - cbn. intros <- N. now destruct N.
  - destruct (attempt_round self (server a) a) as [g | s] eqn:E; cbn [ending].
    + intros <- _. exists a. split; [now left | exact E].
    + intros H N. destruct (IH H N) as (n & Hin & Hn).
      exists n. split; [now right | exact Hn].
Qed.

Lemma request_loop_ends (self : ProductiveClient) (server : nat -> outcome)
    (attempts : list nat) :
  ending (request_loop self server ((attempts ++ [max_retries self])%list))
  <> ReturnNone.
Proof.
  induction attempts as [|a rest IH]; cbn [app request_loop].
  - destruct (last_round_done self (server (max_retries self))) as (f & Hf).
    rewrite Hf. cbn [ending]. intros ->.
    exact (round_never_none _ _ _ Hf).
  - destruct (attempt_round self (server a) a) as [g | s] eqn:E; cbn [ending].
    + intros ->. exact (round_never_none _ _ _ E).
    + exact IH.
Qed.

(** C10: [_request] returns a value only from a response of status 200,
    whose parsed body it is, and it never runs out of its loop without
    raising.  A first response whose status is none of 200, 401, 404 and
    429 and is below 500, such as 201, 204 or a 3xx, ends the call at the
    first attempt with an error that carries that status and the message
    and code of the body, "Server error" and "UNKNOWN" standing for a
    [message] and an [errorCode] that the body lacks. *)
Theorem request_returns_only_200 :
  (forall server body,
     ending (_request init server) = Return body ->
     exists n r, n <= 3 /\ server n = Responded r /\
                 status_code r = 200%Z /\ json_body r = Some body) /\
  (forall server, ending (_request init server) <> ReturnNone) /\
  (forall server r,
     server 0 = Responded r ->
     status_code r <> 200%Z -> status_code r <> 401%Z ->
     status_code r <> 404%Z -> status_code r <> 429%Z ->
     (status_code r < 500)%Z ->
     _request init server =
     {| ending := api_error r "Server error"; sleeps := [];
        attempts_made := 1 |}) /\
  (forall r d,
     json_body r = Some (JObj d) ->
     _parse_error_response r "Server error" =
     (or_default (dict_get "message" d) "Server error",
      or_default (dict_get "errorCode" d) "UNKNOWN")).
Proof.
  split; [|split; [|split]].
  - intros server body H.
    destruct (request_loop_result init server _ _ H) as (n & Hin & Hn);
      [discriminate|].
    destruct (round_return _ _ _ _ Hn) as (r & Hr & Hs & Hb).
    exists n, r. repeat split; auto.
    apply in_seq in Hin. cbn in Hin. lia.
  - intros server. unfold _request.
    replace (seq 0 (max_retries init + 1))
      with ((seq 0 (max_retries init) ++ [max_retries init])%list) by reflexivity.
    apply request_loop_ends.
  - intros server r Hs H2 H4 H5 H9 Hlt.
    apply request_first_round. rewrite Hs. now apply round_other_status.
  - intros r d. apply parse_mapping.
Qed.

(** * The code at the inputs where it departs from the specification *)

(** C4: the type filter runs after the test for empty values.  A task
    whose only attribute is deny-listed keeps an empty [attributes]
    mapping, from [remove_null_and_empty] and from [filter_response];
    the sibling rule for [meta] does drop the mapping that its cleaning
    empties. *)
Theorem empty_attributes_are_kept (organization : string)
    (bleach_clean : string -> string) (py_repr : json -> string) :
  remove_null_and_empty bleach_clean resource_with_denied_attribute =
  Ok (JObj [("type", JStr "tasks"); ("attributes", JObj [])]) /\
  filter_response organization bleach_clean py_repr task_with_denied_attribute =
  Ok (filtered_once organization) /\
  remove_null_and_empty bleach_clean
    (JObj [("type", JStr "tasks");
           ("meta", JObj [("settings", JNum 1)])]) =
  Ok (JObj [("type", JStr "tasks")]).
Proof. repeat split. Qed.

(** C3: [filter_response] is not idempotent on the task whose only
    attribute is deny-listed: the first pass leaves an empty [attributes]
    mapping, the second pass drops it, and Python's [==] tells the two
    results apart. *)
Theorem filter_response_twice_differs (organization : string)
    (bleach_clean : string -> string) (py_repr : json -> string) :
  filter_response organization bleach_clean py_repr task_with_denied_attribute =
  Ok (filtered_once organization) /\
  filter_response organization bleach_clean py_repr (filtered_once organization) =
  Ok (filtered_twice organization) /\
  py_eq (filtered_twice organization) (filtered_once organization) = false /\
  filtered_twice organization <> filtered_once organization.
Proof.
  repeat split. unfold filtered_twice, filtered_once. intros H.
  injection H as H. discriminate H.
Qed.

(** C8: the sanitizer raises on documents of unexpected shape.
    [filter_response] raises [AttributeError] on [{"data": [1]}] and on a
    task whose workflow status is side-loaded with null attributes; the
    task-list view raises [AttributeError] on a task with null attributes;
    the two list views raise [TypeError] on [{"meta": 5}]; the pruner raises
    [TypeError] on a resource whose [type] is a list.  What the claim says
    of the other inputs holds: a value that is not a mapping goes through
    the list views as it is, and a scalar goes through the pruner
    unchanged. *)
Theorem sanitizer_raises_on_unexpected_shapes (organization : string)
    (bleach_clean : string -> string) (py_repr : json -> string) :
  filter_response organization bleach_clean py_repr data_of_numbers =
  Raise AttributeError /\
  filter_response organization bleach_clean py_repr task_with_bare_status =
  Raise AttributeError /\
  filter_task_list_response organization bleach_clean py_repr
    task_list_with_null_attributes = Raise AttributeError /\
  filter_task_list_response organization bleach_clean py_repr meta_number =
  Raise TypeError /\
  filter_page_list_response organization bleach_clean py_repr meta_number =
  Raise TypeError /\
  remove_null_and_empty bleach_clean list_typed_resource = Raise TypeError /\
  (forall v, is_dict v = false ->
     filter_task_list_response organization bleach_clean py_repr v = Ok v /\
     filter_page_list_response organization bleach_clean py_repr v = Ok v) /\
  (forall v, (forall d, v <> JObj d) -> (forall l, v <> JArr l) ->
     remove_null_and_empty bleach_clean v = Ok v).
Proof.
  repeat split; try (destruct v; (reflexivity || discriminate)).
  now apply remove_null_and_empty_scalar.
Qed.

(** C6: the code breaks it.  A task whose attributes are all null loses
    its [attributes] mapping in the pruning; the guard of [get_task]
    ([if "data" in filtered and "attributes" in filtered["data"]]) then
    skips the fill-in, and the task comes back with none of the four time
    fields, although the docstring of [get_task] and the comment above
    the guard say that they are always present. *)
Theorem get_task_without_attributes :
  get_task "acme" strip_tags no_repr task_without_times =
  Ok (JObj [("data", JObj [("type", JStr "tasks"); ("id", JStr "1");
                           ("webapp_url",
                            JStr "https://app.productive.io/acme/tasks/1")])]) /\
  dict_get "attributes"
    [("type", JStr "tasks"); ("id", JStr "1");
     ("webapp_url", JStr "https://app.productive.io/acme/tasks/1")] = None.
Proof. split; reflexivity. Qed.

(** * Counterexamples to the claims as stated *)

(** C2 as stated fails: on a 400 whose body is not JSON the message is
    built from the status and the raw text, not "Server error". *)
Lemma unparseable_body_message :
  json_body error_400 = None /\
  ending (_request init (always error_400)) =
  RaiseAPIError {| message := JStr "HTTP 400: oops";
                   error_status := Some 400%Z;
                   error_code := JStr "UNKNOWN" |} /\
  JStr "HTTP 400: oops" <> JStr "Server error".
Proof. repeat split. discriminate. Qed.

(** C9 as stated fails: [false] under [meta.included] is dropped, although
    it is none of null, the empty string, an empty mapping or an empty
    sequence. *)
Lemma false_dropped_from_meta :
  is_empty (JBool false) = false /\
  remove_null_and_empty strip_tags meta_not_included =
  Ok (JObj [("meta", JObj [("total", JNum 0)])]).
Proof. split; reflexivity. Qed.

(** * The theorems at concrete inputs *)

(** C1 on a server that always answers 503. *)
Lemma retry_bound_on_503 :
  (forall n, exists r, always error_503 n = Responded r /\
                       retryable (status_code r)) /\
  attempts_made (_request init (always error_503)) = 4 /\
  sleeps (_request init (always error_503)) = [1; 2; 4]%Q.
Proof.
  assert (H : forall n, exists r, always error_503 n = Responded r /\
                                  retryable (status_code r)).
  { intros n. exists error_503. split; [reflexivity|]. right. cbn. lia. }
  split; [exact H|].
  destruct (request_retry_bound (always error_503) H) as (Ha & Hs & Hq & _).
  split; [exact Ha|]. rewrite Hs. exact Hq.
Defined.

(** C2 on a 403 whose body is not JSON. *)
Lemma non_retryable_on_403 :
  other_4xx 403 /\
  attempts_made (_request init (always (bare 403 "no"))) = 1 /\
  sleeps (_request init (always (bare 403 "no"))) = [].
Proof.
  assert (H : other_4xx 403) by (unfold other_4xx; lia).
  split; [exact H|].
  destruct (request_non_retryable (always (bare 403 "no")) (bare 403 "no")
              eq_refl (or_intror (or_intror H))) as (Ha & Hs & _).
  split; [exact Ha | exact Hs].
Defined.

(** C10 on a 204. *)
Lemma no_success_on_204 :
  _request init (always (bare 204 "")) =
  {| ending := api_error (bare 204 "") "Server error"; sleeps := [];
     attempts_made := 1 |}.
Proof.
  apply (proj1 (proj2 (proj2 request_returns_only_200))
           (always (bare 204 "")) (bare 204 "") eq_refl);
    cbn; lia.
Defined.

(** C5 on a single task with a type and an id. *)
Lemma webapp_url_of_task :
  json_wf task_with_worked_time = true /\
  exists o item',
    JObj [("data", JObj worked_time_resource)] = JObj o /\
    dict_get "data" o = Some (JObj item') /\
    dict_get "type" item' = Some (JStr "tasks") /\
    dict_get "id" item' = Some (JStr "1") /\
    dict_get "webapp_url" item' =
    Some (JStr "https://app.productive.io/acme/tasks/1").
Proof.
  split; [reflexivity|].
  refine (proj1 (proj2 (webapp_url_enrichment "acme" strip_tags no_repr))
            worked_time_fields worked_time_input "tasks" "1"
            (JObj [("data", JObj worked_time_resource)])
            eq_refl eq_refl eq_refl _ eq_refl _ eq_refl);
    discriminate.
Defined.

(** The fill-in on the task with [worked_time = 45]. *)
Lemma fill_in_keeps_worked_time :
  dict_get "attributes" worked_time_resource =
  Some (JObj worked_time_attributes) /\
  exists attrs',
    get_task "acme" strip_tags no_repr task_with_worked_time =
    Ok (JObj (dict_set "data"
                (JObj (dict_set "attributes" (JObj attrs')
                         worked_time_resource))
                [("data", JObj worked_time_resource)])) /\
    dict_get "worked_time" attrs' = Some (JNum 45) /\
    dict_get "billable_time" attrs' = Some (JNum 0) /\
    dict_get "title" attrs' = Some (JStr "T").
Proof.
  split; [reflexivity|].
  destruct (get_task_fills_time_fields "acme" strip_tags no_repr
              task_with_worked_time [("data", JObj worked_time_resource)]
              worked_time_resource worked_time_attributes
              eq_refl eq_refl eq_refl) as (attrs' & Hg & Hin & Hout).
  exists attrs'. split; [exact Hg|]. split; [|split].
  - rewrite (Hin "worked_time"); [reflexivity | cbn; tauto].
  - rewrite (Hin "billable_time"); [reflexivity | cbn; tauto].
  - rewrite (Hout "title"); [reflexivity|].
    cbn. intros H. repeat (destruct H as [H | H]; [discriminate H|]).
    exact H.
Defined.

(** C7 on [task_list_document]. *)
Lemma task_list_view_of_document :
  json_wf task_list_document = true /\
  exists views o,
    task_list_view "acme" = JObj o /\
    Forall2 (task_list_item_view strip_tags) task_list_items views /\
    dict_get "data" o =
    match filter (fun c => negb (is_empty c)) views with
    | [] => None
    | kept => Some (JArr kept)
    end /\
    ~ In "description" (allow_list ++ ["workflow_status_name"])%list.
Proof.
  split; [reflexivity|].
  exact (task_list_view_allow_list "acme" strip_tags no_repr
           task_list_fields task_list_items (task_list_view "acme")
           eq_refl eq_refl eq_refl).
Defined.

(** C9 on the worked time 0 of the task of [task_list_document]. *)
Lemma worked_time_zero_survives :
  number_or_bool (JNum 0) /\
  json_wf task_list_document = true /\
  exists j',
    remove_null_and_empty strip_tags task_list_document = Ok j' /\
    occurs_at (JNum 0) worked_time_path j'.
Proof.
  assert (Hv : number_or_bool (JNum 0)) by (left; now exists 0%Z).
  split; [exact Hv|]. split; [reflexivity|].
  eexists. split; [reflexivity|].
  apply (proj1 (pruning_keeps_numbers_and_booleans strip_tags)
           (JNum 0) worked_time_path task_list_document);
    [exact Hv | reflexivity | | reflexivity].
  unfold worked_time_path, task_list_document.
  eapply untouched_key; [reflexivity | reflexivity |].
  eapply untouched_elem; [left; reflexivity|].
  eapply untouched_key; [reflexivity | reflexivity |].
  eapply untouched_key; [reflexivity | reflexivity |].
  apply untouched_here.
Defined.

(** * The gateway client *)

Lemma transient_round (o : outcome) (attempt : nat) :
  transient o -> attempt < 3 ->
  attempt_round init o attempt = SleepThenContinue (backoff init attempt).
Proof.
  destruct o as [r | e]; cbn [transient].
  - apply retryable_round_sleeps.
  - intros _ Hlt. cbn [attempt_round max_retries init].
    apply Nat.ltb_lt in Hlt. now rewrite Hlt.
Qed.

Lemma transient_round_last (o : outcome) :
  transient o -> attempt_round init o 3 = Done (exhausted o).
Proof.
  destruct o as [r | e]; cbn [transient exhausted].
  - apply retryable_round_last.
  - reflexivity.
Qed.

Lemma settled_round (r : Response) (attempt : nat) :
  ~ retryable (status_code r) ->
  attempt_round init (Responded r) attempt =
  Done (ending (_request init (always r))).
Proof.
  intros H.
  assert (Hf : forall a, exists f,
             attempt_round init (Responded r) a = Done f /\
             attempt_round init (Responded r) 0 = Done f).
  { intros a. unfold attempt_round, _should_retry.
    destruct (Z.eqb (status_code r) 200); [destruct (json_body r); eauto|].
    destruct (Z.eqb (status_code r) 401); [eauto|].
    destruct (Z.eqb (status_code r) 404); [eauto|].
    replace (Z.eqb (status_code r) 429 || Z.geb (status_code r) 500)
      with false; [rewrite !andb_false_r; eauto|].
    symmetry. apply orb_false_iff. unfold retryable in H. split.
    - apply Z.eqb_neq. intros E. apply H. now left.
    - rewrite Z.geb_leb. apply Z.leb_gt.
      destruct (Z.lt_ge_cases (status_code r) 500) as [Hl | Hg]; auto.
      exfalso. apply H. now right. }
  destruct (Hf attempt) as (f & Ha & H0). rewrite Ha.
  now rewrite (request_first_round (always r) f H0).
Qed.

(** X1: when every call of the transport fails or is answered with 429 or
    a 5xx, in any mix, [_request] makes four attempts, sleeps 1, 2 and 4
    seconds, and raises the error of the fourth outcome: the parsed error
    body of a response, or "Request failed: ..." without a status code for
    a transport failure. *)
Theorem request_exhausts_retries (server : nat -> outcome) :
  (forall n, transient (server n)) ->
  _request init server =
  {| ending := exhausted (server 3); sleeps := [1; 2; 4]%Q;
     attempts_made := 4 |}.
Proof.
  intros H. unfold _request. cbn [max_retries init Nat.add seq request_loop].
  rewrite !transient_round by (auto; lia).
  now rewrite transient_round_last by auto.
Qed.

(** X2: [_request] ends at the first response whose status is not
    retryable: after [k <= 3] transient outcomes it has made [k + 1]
    attempts, has slept [retry_delay * 2^n] seconds after each attempt [n]
    before it, and ends as it would have ended had that response come
    first; a 200 with a JSON body is returned to the caller. *)
Theorem request_ends_at_first_settled (server : nat -> outcome) (k : nat)
    (r : Response) :
  k <= 3 -> (forall n, n < k -> transient (server n)) ->
  server k = Responded r -> ~ retryable (status_code r) ->
  _request init server =
  {| ending := ending (_request init (always r));
     sleeps := map (backoff init) (seq 0 k);
     attempts_made := S k |} /\
  (forall body, status_code r = 200%Z -> json_body r = Some body ->
                ending (_request init server) = Return body).
Proof.
  intros Hk Ht Hs Hr.
  assert (Hrun : _request init server =
                 {| ending := ending (_request init (always r));
                    sleeps := map (backoff init) (seq 0 k);
                    attempts_made := S k |}).
  { unfold _request at 1. cbn [max_retries init Nat.add seq request_loop].
    destruct k as [|[|[|[|k]]]]; [| | | |lia];
      rewrite ?transient_round by (auto; lia);
      rewrite Hs, settled_round by exact Hr; reflexivity. }
  split; [exact Hrun|].
  intros body H2 Hb. rewrite Hrun. cbn [ending].
  rewrite (request_first_round (always r) (Return body)); [reflexivity|].
  unfold always, attempt_round. now rewrite H2, Hb.
Qed.

Lemma request_loop_shape (server : nat -> outcome) (first : nat)
    (count : nat) :
  let r := request_loop init server (seq first count) in
  attempts_made r <= count /\
  (ending r <> ReturnNone ->
   1 <= attempts_made r /\
   sleeps r = map (backoff init) (seq first (attempts_made r - 1))).
Proof.
  revert first. induction count as [|c IH]; intros first;
    cbn [seq request_loop].
  - cbn. split; [lia | intros H; now destruct H].
  - destruct (attempt_round init (server first) first) as [f | s] eqn:E.
    + cbn [attempts_made sleeps ending]. split; [lia|].
      intros _. split; [lia | reflexivity].
    + assert (Es : s = backoff init first).
      { unfold attempt_round in E.
        destruct (server first) as [r | e].
        - destruct (Z.eqb (status_code r) 200);
            [destruct (json_body r); discriminate|].
          destruct (Z.eqb (status_code r) 401); [discriminate|].
          destruct (Z.eqb (status_code r) 404); [discriminate|].
          destruct (_should_retry init (status_code r) first);
            [now injection E as <- | discriminate].
        - destruct (Nat.ltb first (max_retries init));
            [now injection E as <- | discriminate]. }
      destruct (IH (S first)) as (Hle & Hsl).
      cbn [attempts_made sleeps ending]. split; [lia|].
      intros Hn. destruct (Hsl Hn) as (Hpos & Hs). split; [lia|].
      rewrite Hs, Es.
      destruct (attempts_made (request_loop init server (seq (S first) c)))
        as [|a]; [lia|].
      cbn [Nat.sub seq map]. now rewrite Nat.sub_0_r.
Qed.

(** X3: whatever the server does, [_request] makes between one and four
    attempts and sleeps exactly [retry_delay * 2^n] seconds after each
    attempt [n] but the last: the sleeps are the first of 1, 2 and 4
    seconds, one fewer than the attempts. *)
Theorem request_attempts_and_sleeps (server : nat -> outcome) :
  1 <= attempts_made (_request init server) <= 4 /\
  sleeps (_request init server) =
  firstn (attempts_made (_request init server) - 1) [1; 2; 4]%Q.
Proof.
  pose proof (request_loop_shape server 0 4) as H. cbn zeta in H.
  change (request_loop init server (seq 0 4)) with (_request init server) in H.
  destruct H as (Hle & Hsl).
  assert (Hn : ending (_request init server) <> ReturnNone).
  { unfold _request.
    replace (seq 0 (max_retries init + 1))
      with ((seq 0 (max_retries init) ++ [max_retries init])%list)
      by reflexivity.
    apply request_loop_ends. }
  destruct (Hsl Hn) as (Hpos & Hs). split; [lia|]. rewrite Hs.
  destruct (attempts_made (_request init server)) as [|[|[|[|[|n]]]]];
    try lia; reflexivity.
Qed.

(** * What the pruned document never holds *)

Section Tidiness.
Variable bleach_clean : string -> string.








End Tidiness.



(** * The attribute filter and the meta rule *)

Section AttributeFilter.
Variable bleach_clean : string -> string.

Lemma pop_fields_none (fs : list string) (k : string) (d : dict) :
  dict_get k d = None ->
  dict_get k (fold_left (fun d field => dict_pop field d) fs d) = None.
Proof.
  revert d. induction fs as [|f r IH]; cbn [fold_left]; auto.
  intros d H. apply IH.
  destruct (String.eqb_spec k f) as [-> | N].
  - apply dict_get_pop_same.
  - now rewrite dict_get_pop_other.
Qed.

Lemma pop_fields_denied (fs : list string) (k : string) (d : dict) :
  In k fs ->
  dict_get k (fold_left (fun d field => dict_pop field d) fs d) = None.
Proof.
  revert d. induction fs as [|f r IH]; cbn [fold_left]; [intros d []|].
  intros d [-> | Hin]; [|now apply IH].
  apply pop_fields_none, dict_get_pop_same.
Qed.

Lemma strip_field_none (f k : string) (d : dict) :
  dict_get k d = None -> dict_get k (strip_field bleach_clean d f) = None.
Proof.
  intros H. unfold strip_field.
  destruct (dict_get f d) as [[ | | |s| | ]|] eqn:E; auto.
  destruct (String.eqb_spec k f) as [-> | N]; [congruence|].
  now rewrite dict_get_set_other.
Qed.

Lemma filter_attributes_denied (a a' : dict) (ty : json) (k : string) :
  _filter_attributes bleach_clean a ty = Ok a' ->
  In k (denied_fields ty) -> dict_get k a' = None.
Proof.
  unfold _filter_attributes, denied_fields.
  destruct (table_get remove_fields ty) as [fs|]; [cbn [bind]|discriminate].
  destruct (table_get html_fields ty) as [hs|]; [cbn [bind]|discriminate].
  intros H Hk. injection H as <-.
  pose proof (pop_fields_denied fs k a Hk) as Hp. revert Hp.
  generalize (fold_left (fun d field => dict_pop field d) fs a) as b.
  induction hs as [|f r IH]; cbn [fold_left]; auto.
  intros b Hb. apply IH. now apply strip_field_none.
Qed.

Lemma html_fields_short (ty : json) (hs : list string) :
  table_get html_fields ty = Ok hs -> hs = [] \/ exists h, hs = [h].
Proof.
  destruct ty as [ | | |t| | ]; cbn; try discriminate;
    try (intros H; injection H as <-; now left).
  repeat match goal with
         | |- context [String.eqb t ?s] => destruct (String.eqb t s)
         end;
    intros H; injection H as <-; eauto.
Qed.

Lemma strip_fields_text (hs : list string) (f s : string) (b : dict) :
  hs = [] \/ (exists h, hs = [h]) ->
  dict_get f b = Some (JStr s) ->
  dict_get f (fold_left (strip_field bleach_clean) hs b) =
  Some (JStr (if mem_string f hs then bleach_clean s else s)).
Proof.
  intros [-> | (h & ->)] Hf; cbn [fold_left mem_string orb]; auto.
  rewrite orb_false_r. unfold strip_field.
  destruct (String.eqb_spec f h) as [<- | N].
  - rewrite Hf. apply dict_get_set_same.
  - destruct (dict_get h b) as [[ | | |s'| | ]|]; auto.
    now rewrite dict_get_set_other.
Qed.
End AttributeFilter.

(** X6: the deny-listed fields of a type never come out of
    [remove_null_and_empty]: whatever a resource holds, the [attributes]
    mapping of its pruned form has none of the fields that
    [_filter_attributes] removes for the [type] of the resource. *)
Theorem denied_fields_are_removed (bleach_clean : string -> string)
    (d p a' : dict) (k : string) :
  remove_null_and_empty bleach_clean (JObj d) = Ok (JObj p) ->
  dict_get "attributes" p = Some (JObj a') ->
  In k (denied_fields (type_of d)) ->
  dict_get k a' = None.
Proof.
  intros Hp Ha Hk. apply dict_get_In in Ha.
  destruct (remove_null_and_empty_In _ _ _ _ _ Hp Ha) as (x & _ & Hs).
  unfold source_entry in Hs. cbn [String.eqb Ascii.eqb Bool.eqb] in Hs.
  destruct (remove_null_and_empty bleach_clean x) as [c|];
    [cbn [bind] in Hs|discriminate].
  destruct (is_empty c); [discriminate|].
  unfold store_entry in Hs. cbn [String.eqb Ascii.eqb Bool.eqb] in Hs.
  destruct c as [ | | | | |a]; try discriminate.
  destruct (_filter_attributes bleach_clean a (type_of d)) as [a2|] eqn:Ef;
    [cbn in Hs|discriminate].
  injection Hs as <-. eapply filter_attributes_denied; eauto.
Qed.

(** X7: a non-empty text attribute of a resource comes out of
    [remove_null_and_empty] through [bleach.clean] when it is the
    free-text field of the type of the resource ([description] of a task
    or a todo, [body] of a comment), and comes out as it is for any other
    field that is neither [links] nor deny-listed for the type. *)
Theorem text_attributes_after_pruning (bleach_clean : string -> string)
    (d p a : dict) (f s : string) :
  json_wf (JObj d) = true ->
  remove_null_and_empty bleach_clean (JObj d) = Ok (JObj p) ->
  dict_get "attributes" d = Some (JObj a) ->
  dict_get f a = Some (JStr s) -> s <> "" -> f <> "links" ->
  ~ In f (denied_fields (type_of d)) ->
  exists a',
    dict_get "attributes" p = Some (JObj a') /\
    dict_get f a' =
    Some (JStr (if mem_string f (stripped_fields (type_of d))
                then bleach_clean s else s)).
Proof.
  intros Hwf Hp Ha Hf Hs Hl Hden.
  destruct (remove_null_and_empty_entry _ _ _ _ _ Hp Ha) as (o & Ho).
  rewrite (remove_null_and_empty_get _ d p "attributes" Hwf Hp), Ha, Ho.
  unfold source_entry in Ho. cbn [String.eqb Ascii.eqb Bool.eqb] in Ho.
  destruct (remove_null_and_empty bleach_clean (JObj a)) as [c|] eqn:Ec;
    [cbn [bind] in Ho|discriminate].
  destruct (remove_null_and_empty_is_mapping _ _ _ Ec) as (a1 & ->).
  pose proof (wf_value _ _ _ Hwf (dict_get_In _ _ _ Ha)) as Hwfa.
  assert (H1 : dict_get f a1 = Some (JStr s)).
  { rewrite (remove_null_and_empty_get _ a a1 f Hwfa Ec), Hf.
    unfold source_entry, store_entry.
    apply String.eqb_neq in Hl, Hs. rewrite Hl.
    replace (match String.eqb f "relationships", JStr s with
             | true, JObj r => JObj (drop_organization r)
             | _, _ => JStr s
             end) with (JStr s)
      by now destruct (String.eqb f "relationships").
    cbn [remove_null_and_empty prune bind is_empty]. rewrite Hs.
    now destruct (String.eqb f "attributes"), (String.eqb f "meta"). }
  destruct (nonempty_of_get _ _ _ H1) as (Hne & _). rewrite Hne in Ho.
  unfold store_entry in Ho. cbn [String.eqb Ascii.eqb Bool.eqb] in Ho.
  unfold _filter_attributes in Ho. unfold stripped_fields.
  unfold denied_fields in Hden.
  destruct (table_get remove_fields (type_of d)) as [fs|];
    [cbn [bind] in Ho|discriminate].
  destruct (table_get html_fields (type_of d)) as [hs|] eqn:Eh;
    [cbn in Ho|discriminate].
  injection Ho as <-. eexists. split; [reflexivity|].
  apply strip_fields_text.
  - exact (html_fields_short _ _ Eh).
  - now rewrite pop_fields_get.
Qed.

(** X8: a [meta] mapping that comes out of [remove_null_and_empty] is
    never empty, never holds [settings], and never holds [included] with
    the value [false]. *)
Theorem meta_after_pruning (bleach_clean : string -> string)
    (d p m' : dict) :
  remove_null_and_empty bleach_clean (JObj d) = Ok (JObj p) ->
  dict_get "meta" p = Some (JObj m') ->
  m' <> [] /\ dict_get "settings" m' = None /\
  dict_get "included" m' <> Some (JBool false).
Proof.
  intros Hp Hm. apply dict_get_In in Hm.
  destruct (remove_null_and_empty_In _ _ _ _ _ Hp Hm) as (x & _ & Hs).
  unfold source_entry in Hs. cbn [String.eqb Ascii.eqb Bool.eqb] in Hs.
  destruct (remove_null_and_empty bleach_clean x) as [c|];
    [cbn [bind] in Hs|discriminate].
  destruct (is_empty c); [discriminate|].
  unfold store_entry in Hs. cbn [String.eqb Ascii.eqb Bool.eqb bind] in Hs.
  destruct c as [ | | | | |m]; try discriminate.
  unfold _clean_meta_object in Hs. cbn [py_dict bind] in Hs.
  match type of Hs with
  | context [truthy (JObj ?c)] => set (cleaned := c) in *
  end.
  destruct cleaned as [|e rest] eqn:Ec; [discriminate|].
  cbn [truthy] in Hs. injection Hs as <-. rewrite <- Ec. subst cleaned.
  split; [congruence|]. split; [apply dict_get_pop_same|].
  rewrite dict_get_pop_other by discriminate.
  destruct (dict_get "included" m) as [[ |[|]| | | | ]|] eqn:Ei;
    rewrite ?dict_get_pop_same, ?Ei; discriminate.
Qed.

(** * The page-list view *)

Section PageListView.
Variable organization : string.
Variable py_repr : json -> string.

End PageListView.

Section PageViews.
Variable bleach_clean : string -> string.




End PageViews.


(** * Enrichment with and without side-loaded resources *)

Section EnrichmentFacts.
Variable organization : string.
Variable bleach_clean : string -> string.
Variable py_repr : json -> string.

Lemma find_first_match (wid : json) (pre post : list json) (m : json) :
  forallb (fun i => negb (status_matches wid i)) pre = true ->
  status_matches wid m = true ->
  find_workflow_status wid (pre ++ m :: post)%list =
  (attributes <- py_get m "attributes" (JObj []) ;;
   py_get attributes "name" JNull).
Proof.
  intros Hpre Hm. induction pre as [|x pre IH]; cbn [app find_workflow_status].
  - destruct m as [ | | | | |i]; try discriminate.
    cbn [status_matches] in Hm. now rewrite Hm.
  - cbn [forallb] in Hpre. apply andb_true_iff in Hpre as [Hx Hpre].
    apply negb_true_iff in Hx.
    destruct x as [ | | | | |i]; auto.
    cbn [status_matches] in Hx. rewrite Hx. auto.
Qed.

Lemma find_no_match (wid : json) (l : list json) :
  forallb (fun i => negb (status_matches wid i)) l = true ->
  find_workflow_status wid l = Ok JNull.
Proof.
  induction l as [|x l IH]; cbn [forallb find_workflow_status]; auto.
  intros H. apply andb_true_iff in H as [Hx Hl]. apply negb_true_iff in Hx.
  destruct x as [ | | | | |i]; auto.
  cbn [status_matches] in Hx. rewrite Hx. auto.
Qed.

Lemma extract_of_reference (item : dict) (wid : json) (incl : list json) :
  refers_to_status item wid ->
  _extract_workflow_status_name (JObj item) (JArr incl) =
  find_workflow_status wid incl.
Proof.
  intros (rel & ws & sd & Hr & Hw & Hd & Hi & Ht).
  unfold _extract_workflow_status_name. cbn [py_get bind].
  rewrite Hr. cbn [py_get bind]. rewrite Hw. cbn [py_get bind].
  rewrite Hd. cbn [truthy is_dict negb orb py_get bind].
  destruct sd; [discriminate|]. cbn [negb orb]. rewrite Hi, Ht. reflexivity.
Qed.

Lemma extract_without_included (item : json) (w : json) :
  _extract_workflow_status_name item (JArr []) = Ok w -> w = JNull.
Proof.
  unfold _extract_workflow_status_name.
  destruct item as [ | | | | |d]; try (intros H; now injection H as <-).
  destruct (py_get (JObj d) "relationships" (JObj [])) as [rel|];
    [cbn [bind]|discriminate].
  destruct (py_get rel "workflow_status" (JObj [])) as [ws|];
    [cbn [bind]|discriminate].
  destruct (py_get ws "data" JNull) as [sd|]; [cbn [bind]|discriminate].
  destruct (negb (truthy sd) || negb (is_dict sd));
    [intros H; now injection H as <-|].
  destruct (py_get sd "id" JNull) as [wid|]; [cbn [bind]|discriminate].
  destruct (negb (truthy wid)); intros H; now injection H as <-.
Qed.

Lemma enrich_without_included (item item' : json) :
  enrich_item organization py_repr (JArr []) item = Ok item' ->
  item' = _add_webapp_url organization py_repr item.
Proof.
  unfold enrich_item.
  destruct (py_get (_add_webapp_url organization py_repr item) "type" JNull)
    as [ty|]; [cbn [bind]|discriminate].
  destruct (py_eq ty (JStr "tasks")); [|intros H; now injection H as <-].
  destruct (_extract_workflow_status_name _ (JArr [])) as [w|] eqn:Ew;
    [cbn [bind]|discriminate].
  apply extract_without_included in Ew. subst w.
  destruct (py_in "attributes" _) as [b|]; [cbn [bind truthy andb]|discriminate].
  intros H. now injection H as <-.
Qed.

Lemma filter_response_without_included (r f : dict) (out : json) :
  dict_get "included" r = None ->
  remove_null_and_empty bleach_clean (JObj r) = Ok (JObj f) ->
  filter_response organization bleach_clean py_repr (JObj r) = Ok out ->
  out = with_webapp_urls organization py_repr f.
Proof.
  intros Hi Hf. unfold filter_response, with_webapp_urls. rewrite Hf.
  cbn [bind py_get]. rewrite Hi.
  destruct (dict_get "data" f) as [[ | | | |items|item]|];
    cbn [bind]; try (intros H; now injection H as <-).
  - destruct (mapM _ items) as [items'|] eqn:Hm; [cbn [bind]|discriminate].
    intros H. injection H as <-. do 3 f_equal.
    apply mapM_Forall2 in Hm.
    induction Hm as [|x y xs ys Hxy _ IH]; cbn [map]; auto.
    now rewrite IH, (enrich_without_included _ _ Hxy).
  - destruct (enrich_item _ _ (JArr []) (JObj item)) as [i'|] eqn:He;
      [cbn [bind]|discriminate].
    intros H. injection H as <-.
    now rewrite (enrich_without_included _ _ He).
Qed.
End EnrichmentFacts.

(** X10: on a document without [included], [filter_response] adds nothing
    but [webapp_url]: what it returns is the pruned document with
    [_add_webapp_url] applied to the resource, or to each resource, at
    [data]; no [workflow_status_name] is attached. *)
Theorem filter_response_without_side_loads (organization : string)
    (bleach_clean : string -> string) (py_repr : json -> string)
    (r : dict) (out : json) :
  dict_get "included" r = None ->
  filter_response organization bleach_clean py_repr (JObj r) = Ok out ->
  exists f,
    remove_null_and_empty bleach_clean (JObj r) = Ok (JObj f) /\
    out = with_webapp_urls organization py_repr f.
Proof.
  intros Hi Hout.
  destruct (filter_response_pruned _ _ _ _ _ Hout) as (c & Hc).
  destruct (remove_null_and_empty_is_mapping _ _ _ Hc) as (f & ->).
  exists f. split; [exact Hc|].
  eapply filter_response_without_included; eauto.
Qed.

(** X11: what the caller of [get_project_task] receives, whatever
    [_handle_productive_api_error] does.  A document is returned only for
    a fetched mapping whose [data] is true.  When [data] is a list, the
    outcome depends on its first element only: the rest of the list,
    [included] and [meta] are dropped, so a document returned is the
    pruned first task with its [webapp_url], and no
    [workflow_status_name] is resolved for it.  When [data] is missing or
    false (null, an empty list), the function raises no error of its own
    to the caller: its 404 goes to the handler, as a 404 of the API with
    that message would, and the caller gets what the handler raises, or
    [None]. *)
Theorem get_project_task_uses_first_task (organization : string)
    (bleach_clean : string -> string) (py_repr : json -> string)
    (raised : Type)
    (handler : ProductiveAPIError -> string -> option raised)
    (task_number : string) (project_id : Z) :
  (forall answer doc,
     TaskLookup.get_project_task organization bleach_clean py_repr raised
       handler task_number project_id answer = TaskLookup.TaskDocument doc ->
     exists r data,
       answer = Return (JObj r) /\ dict_get "data" r = Some data /\
       truthy data = true) /\
  (forall r r' first rest rest',
     dict_get "data" r = Some (JArr (first :: rest)) ->
     dict_get "data" r' = Some (JArr (first :: rest')) ->
     TaskLookup.get_project_task organization bleach_clean py_repr raised
       handler task_number project_id (Return (JObj r)) =
     TaskLookup.get_project_task organization bleach_clean py_repr raised
       handler task_number project_id (Return (JObj r'))) /\
  (forall r first rest doc,
     dict_get "data" r = Some (JArr (first :: rest)) ->
     TaskLookup.get_project_task organization bleach_clean py_repr raised
       handler task_number project_id (Return (JObj r)) =
     TaskLookup.TaskDocument doc ->
     exists f,
       remove_null_and_empty bleach_clean (JObj [("data", first)]) =
       Ok (JObj f) /\
       doc = with_webapp_urls organization py_repr f) /\
  (forall r,
     truthy (match dict_get "data" r with Some v => v | None => JNull end) =
     false ->
     TaskLookup.get_project_task organization bleach_clean py_repr raised
       handler task_number project_id (Return (JObj r)) =
     TaskLookup.get_project_task organization bleach_clean py_repr raised
       handler task_number project_id
       (RaiseAPIError (TaskLookup.not_found task_number project_id)) /\
     TaskLookup.get_project_task organization bleach_clean py_repr raised
       handler task_number project_id (Return (JObj r)) =
     match handler (TaskLookup.not_found task_number project_id)
             ("task #" ++ task_number) with
     | Some x => TaskLookup.HandlerRaised x
     | None => TaskLookup.NoResult
     end).
Proof.
  split; [|split; [|split]].
  - intros answer doc. unfold TaskLookup.get_project_task.
    assert (Hh : forall e s,
               TaskLookup.handed_over raised handler e s <>
               TaskLookup.TaskDocument doc).
    { intros e s. unfold TaskLookup.handed_over.
      destruct (handler e s); discriminate. }
    destruct answer as [body|e| |]; try discriminate;
      [|intros H; now apply Hh in H].
    destruct body as [|b0|n|s|l|r]; try discriminate.
    destruct (dict_get "data" r) as [data|] eqn:Hd.
    + destruct (truthy data) eqn:Ht; cbn [negb].
      * intros _. now exists r, data.
      * intros H. now apply Hh in H.
    + cbn [truthy negb]. intros H. now apply Hh in H.
  - intros r r' first rest rest' Hd Hd'. unfold TaskLookup.get_project_task.
    rewrite Hd, Hd'. reflexivity.
  - intros r first rest doc Hd. unfold TaskLookup.get_project_task.
    rewrite Hd. cbn [truthy negb TaskLookup.has_len TaskLookup.first_of].
    destruct (filter_response organization bleach_clean py_repr
                (JObj [("data", first)])) as [out|] eqn:Hout; [|discriminate].
    intros H. injection H as <-.
    destruct (filter_response_pruned _ _ _ _ _ Hout) as (c & Hc).
    destruct (remove_null_and_empty_is_mapping _ _ _ Hc) as (f & ->).
    exists f. split; [exact Hc|].
    exact (filter_response_without_included organization bleach_clean
             py_repr [("data", first)] f out eq_refl Hc Hout).
  - intros r H. unfold TaskLookup.get_project_task. rewrite H.
    cbn [negb]. split; reflexivity.
Qed.

(** X12: for a single pruned task that refers to a workflow status and has
    attributes, [filter_response] copies into
    [attributes.workflow_status_name] the name of the first side-loaded
    resource of the original document that has the type
    [workflow_statuses] and an equal [id], later ones being ignored; the
    task also gets its [webapp_url], and the rest of the document is the
    pruned document. *)
Theorem workflow_status_name_of_first_match (organization : string)
    (bleach_clean : string -> string) (py_repr : json -> string)
    (r f item a mi ma : dict) (wid name : json) (pre post : list json) :
  remove_null_and_empty bleach_clean (JObj r) = Ok (JObj f) ->
  dict_get "data" f = Some (JObj item) ->
  dict_get "type" item = Some (JStr "tasks") ->
  dict_get "attributes" item = Some (JObj a) ->
  refers_to_status item wid ->
  dict_get "included" r = Some (JArr (pre ++ JObj mi :: post)%list) ->
  forallb (fun i => negb (status_matches wid i)) pre = true ->
  status_matches wid (JObj mi) = true ->
  dict_get "attributes" mi = Some (JObj ma) ->
  dict_get "name" ma = Some name -> truthy name = true ->
  exists item',
    filter_response organization bleach_clean py_repr (JObj r) =
    Ok (JObj (dict_set "data" (JObj item') f)) /\
    dict_get "attributes" item' =
    Some (JObj (dict_set "workflow_status_name" name a)) /\
    webapp_url_rule organization py_repr item item'.
Proof.
  intros Hf Hd Hty Ha Href Hincl Hpre Hm Hma Hname Htrue.
  destruct (add_webapp_url_rule organization py_repr item)
    as (d1 & Eurl & Hrule).
  assert (Ha1 : dict_get "attributes" d1 = Some (JObj a)).
  { revert Eurl. unfold _add_webapp_url.
    destruct (truthy _ && truthy _); intros E; injection E as <-; auto.
    now rewrite dict_get_set_other by discriminate. }
  assert (Href1 : refers_to_status d1 wid).
  { destruct Href as (rel & ws & sd & Hr & Hrest).
    exists rel, ws, sd. split; [|exact Hrest].
    revert Eurl. unfold _add_webapp_url.
    destruct (truthy _ && truthy _); intros E; injection E as <-; auto.
    now rewrite dict_get_set_other by discriminate. }
  exists (dict_set "attributes" (JObj (dict_set "workflow_status_name" name a))
            d1).
  split; [|split].
  - unfold filter_response. rewrite Hf. cbn [bind]. rewrite Hd.
    cbn [py_get bind]. rewrite Hincl. unfold enrich_item. rewrite Eurl.
    destruct Hrule as (Rt & _). cbn [py_get bind]. rewrite Rt, Hty.
    cbn [py_eq String.eqb Ascii.eqb Bool.eqb].
    rewrite (extract_of_reference _ _ _ Href1).
    rewrite (find_first_match _ _ _ _ Hpre Hm). cbn [py_get bind].
    rewrite Hma. cbn [py_get bind]. rewrite Hname. cbn [py_in bind].
    unfold dict_mem. rewrite Ha1, Htrue. cbn [andb py_getitem].
    rewrite Ha1. reflexivity.
  - apply dict_get_set_same.
  - destruct Hrule as (Rt & Ri & Ru). unfold webapp_url_rule.
    now rewrite !dict_get_set_other by discriminate.
Qed.

(** * Request parameters *)

Lemma update_get (e p : dict) (k : string) :
  nodup_keys (keys e) = true ->
  dict_get k (Requests.update p e) =
  match dict_get k e with
  | Some v => Some v
  | None => dict_get k p
  end.
Proof.
  unfold Requests.update, keys. revert p.
  induction e as [|[k1 v1] es IH]; intros p; cbn [fold_left map fst nodup_keys];
    [reflexivity|].
  rewrite andb_true_iff, negb_true_iff. intros [Hk Hes].
  rewrite (IH _ Hes). cbn [fst snd dict_get].
  destruct (String.eqb_spec k k1) as [-> | N].
  - assert (Hn : dict_get k1 es = None).
    { apply dict_get_None. intros Hin. apply mem_string_In in Hin.
      unfold keys in Hin. congruence. }
    rewrite Hn. apply dict_get_set_same.
  - destruct (dict_get k es); auto. now apply dict_get_set_other.
Qed.

Lemma set_if_given_get (key k : string) (value : option Z) (p : dict) :
  k <> key ->
  dict_get k (Requests.set_if_given key value p) = dict_get k p.
Proof.
  intros N. destruct value; cbn [Requests.set_if_given]; auto.
  now apply dict_get_set_other.
Qed.

(** X13: the request of the task-list tool always asks for the workflow
    statuses: [include = workflow_status] whatever the caller passes.
    [extra_filters] overrides every other parameter, [sort] and the page
    size included, but not [include]; without an override the page size
    is the one given and the project filter is the given project. *)
Theorem tasks_request_always_includes_status (page_number : option Z)
    (page_size : Z) (sort : string) (project_id user_id : option Z)
    (extra_filters : option dict) :
  let extra := match extra_filters with Some e => e | None => [] end in
  let request :=
    Requests.get_tasks_request page_number page_size sort project_id user_id
      extra_filters in
  nodup_keys (keys extra) = true ->
  dict_get "include" request = Some (JStr "workflow_status") /\
  (forall k v, k <> "include" -> dict_get k extra = Some v ->
               dict_get k request = Some v) /\
  (dict_get "page[size]" extra = None ->
   dict_get "page[size]" request = Some (JNum page_size)) /\
  (dict_get "filter[project_id][eq]" extra = None ->
   dict_get "filter[project_id][eq]" request = option_map JNum project_id).
Proof.
  intros extra request Hnd.
  set (base :=
         Requests.set_if_given "filter[assignee_id][eq]" user_id
           (Requests.set_if_given "filter[project_id][eq]" project_id
              (if negb (String.eqb sort "")
               then dict_set "sort" (JStr sort)
                      (dict_set "page[size]" (JNum page_size)
                         (Requests.set_if_given "page[number]" page_number []))
               else dict_set "page[size]" (JNum page_size)
                      (Requests.set_if_given "page[number]" page_number [])))).
  assert (Hp : Requests.get_tasks_params page_number page_size sort
                 project_id user_id extra_filters =
               Requests.update base extra).
  { unfold Requests.get_tasks_params, extra.
    destruct extra_filters as [[|e es]|]; reflexivity. }
  assert (Hsize : dict_get "page[size]" base = Some (JNum page_size)).
  { unfold base. rewrite !set_if_given_get by discriminate.
    destruct (negb (String.eqb sort ""));
      rewrite ?dict_get_set_other by discriminate; apply dict_get_set_same. }
  assert (Hreq : request = dict_set "include" (JStr "workflow_status")
                             (Requests.update base extra)).
  { unfold request, Requests.get_tasks_request, Requests.client_get_tasks.
    rewrite Hp.
    assert (Hne : dict_get "page[size]" (Requests.update base extra) <> None).
    { rewrite update_get by exact Hnd. rewrite Hsize.
      destruct (dict_get "page[size]" extra); discriminate. }
    destruct (Requests.update base extra); [now destruct Hne | reflexivity]. }
  rewrite Hreq. split; [apply dict_get_set_same|]. split; [|split].
  - intros k v Nk Hk. rewrite dict_get_set_other by exact Nk.
    rewrite update_get by exact Hnd. now rewrite Hk.
  - intros He. rewrite dict_get_set_other by discriminate.
    rewrite update_get by exact Hnd. now rewrite He.
  - intros He. rewrite dict_get_set_other by discriminate.
    rewrite update_get by exact Hnd. rewrite He. unfold base.
    rewrite set_if_given_get by discriminate.
    destruct project_id as [n|]; cbn [Requests.set_if_given option_map].
    + apply dict_get_set_same.
    + destruct (negb (String.eqb sort ""));
        rewrite ?dict_get_set_other by discriminate;
        now destruct page_number.
Qed.

Lemma replace_bracket_gone (s : string) :
  has_char "]" (Requests.replace_from "]" "" 0 s) = false.
Proof.
  induction s as [|c r IH]; [reflexivity|].
  cbn [Requests.replace_from String.prefix String.length Nat.sub].
  destruct (ascii_dec "]" c) as [<- | N].
  - destruct r; exact IH.
  - cbn [has_char]. rewrite IH, orb_false_r.
    apply Ascii.eqb_neq. congruence.
Qed.

Lemma applied_filter_keys (l acc : dict) (k : string) :
  In k (keys (fold_left
                (fun applied kv =>
                   dict_set (Requests.filter_name (fst kv)) (snd kv) applied)
                l acc)) ->
  In k (keys acc) \/ exists key, k = Requests.filter_name key.
Proof.
  revert acc. induction l as [|[k1 v1] l IH]; intros acc; cbn [fold_left];
    auto.
  intros H. destruct (IH _ H) as [Hacc | Hn]; auto.
  apply keys_dict_set in Hacc as [-> | Hacc]; eauto.
Qed.

(** X14: [get_recent_activity] never asks for more than 200 activities:
    the page size is the given [max_results], or [config.items_per_page]
    when none is given, cut down to 200.  The [filters_applied] that it
    reports are exactly the filters of the request under their bare
    names: the cutoff time, and each optional filter that was given and
    is neither 0 nor empty.  No name that [_get_applied_filters] gives
    holds a closing bracket. *)
Theorem recent_activity_request (items_per_page : Z) (after_date : string)
    (max_results user_id project_id activity_type : option Z)
    (item_type event_type : option string) (task_id : option Z) :
  let params :=
    Requests.recent_activity_params items_per_page after_date max_results
      user_id project_id activity_type item_type event_type task_id in
  let size := Requests.activity_page_size items_per_page max_results in
  dict_get "page[size]" params = Some (JNum size) /\
  (size <= 200)%Z /\
  (forall m, max_results = Some m -> (m <= 200)%Z -> size = m) /\
  Requests._get_applied_filters params =
  recent_activity_filters after_date user_id project_id activity_type
    item_type event_type task_id /\
  (forall any k, In k (keys (Requests._get_applied_filters any)) ->
                 has_char "]" k = false).
Proof.
  intros params size. split; [|split; [|split; [|split]]].
  - unfold params, Requests.recent_activity_params, Requests.set_if_true,
      Requests.set_if_text.
    destruct user_id as [n1|]; [destruct (Z.eqb n1 0)|];
      (destruct project_id as [n2|]; [destruct (Z.eqb n2 0)|]);
      (destruct activity_type as [n3|]; [destruct (Z.eqb n3 0)|]);
      (destruct item_type as [s1|]; [destruct (String.eqb s1 "")|]);
      (destruct event_type as [s2|]; [destruct (String.eqb s2 "")|]);
      (destruct task_id as [n4|]; [destruct (Z.eqb n4 0)|]);
      reflexivity.
  - unfold size, Requests.activity_page_size.
    destruct max_results as [m|];
      match goal with |- context [Z.gtb ?a 200] =>
        destruct (Z.gtb_spec a 200) end; lia.
  - intros m -> Hm. unfold size, Requests.activity_page_size.
    destruct (Z.gtb_spec m 200); lia.
  - unfold params, Requests.recent_activity_params, recent_activity_filters,
      Requests.set_if_true, Requests.set_if_text.
    destruct user_id as [n1|]; [destruct (Z.eqb n1 0)|];
      (destruct project_id as [n2|]; [destruct (Z.eqb n2 0)|]);
      (destruct activity_type as [n3|]; [destruct (Z.eqb n3 0)|]);
      (destruct item_type as [s1|]; [destruct (String.eqb s1 "")|]);
      (destruct event_type as [s2|]; [destruct (String.eqb s2 "")|]);
      (destruct task_id as [n4|]; [destruct (Z.eqb n4 0)|]);
      reflexivity.
  - intros any k Hk. unfold Requests._get_applied_filters in Hk.
    apply applied_filter_keys in Hk as [[] | (key & ->)].
    apply replace_bracket_gone.
Qed.

(** * Comments request and activity summary *)

(** X15: [get_comments] always sorts by [-created_at]: a [sort] in
    [extra_filters] is overwritten.  Every other entry of [extra_filters]
    reaches the request, and overrides the page size and the filters
    built from the arguments. *)
Theorem comments_request_sort_is_fixed (project_id task_id page_number : option Z)
    (page_size : Z) (extra_filters : option dict) :
  let extra := match extra_filters with Some e => e | None => [] end in
  let request :=
    Activities.get_comments_params project_id task_id page_number page_size
      extra_filters in
  nodup_keys (keys extra) = true ->
  dict_get "sort" request = Some (JStr "-created_at") /\
  (forall k v, k <> "sort" -> dict_get k extra = Some v ->
               dict_get k request = Some v) /\
  (dict_get "page[size]" extra = None ->
   dict_get "page[size]" request = Some (JNum page_size)).
Proof.
  intros extra request Hnd.
  set (base :=
         Requests.set_if_given "filter[task_id][eq]" task_id
           (Requests.set_if_given "filter[project_id][eq]" project_id
              (dict_set "page[size]" (JNum page_size)
                 (Requests.set_if_given "page[number]" page_number [])))).
  assert (Hreq : request = dict_set "sort" (JStr "-created_at")
                             (Requests.update base extra)).
  { unfold request, Activities.get_comments_params, extra.
    destruct extra_filters as [[|e es]|]; reflexivity. }
  rewrite Hreq. split; [apply dict_get_set_same|]. split.
  - intros k v Nk Hk. rewrite dict_get_set_other by exact Nk.
    rewrite update_get by exact Hnd. now rewrite Hk.
  - intros He. rewrite dict_get_set_other by discriminate.
    rewrite update_get by exact Hnd. rewrite He. unfold base.
    rewrite !set_if_given_get by discriminate. apply dict_get_set_same.
Qed.

Section Counters.
Import Activities.

Lemma py_eq_hashable_trans (a b c : json) :
  hashable a = true -> hashable b = true -> hashable c = true ->
  py_eq b c = true -> py_eq a b = py_eq a c.
Proof.
  destruct a as [|x|n|s|l|d], b as [|y|m|t|l'|d'], c as [|z|p|u|l''|d''];
    cbn [hashable py_eq]; try discriminate; try reflexivity; intros _ _ _ H.
  - apply Bool.eqb_prop in H. now subst.
  - apply Z.eqb_eq in H. subst. destruct x, y; reflexivity.
  - apply Z.eqb_eq in H. subst. destruct z; cbn [Z_of_bool];
      destruct x; reflexivity.
  - apply Z.eqb_eq in H. now subst.
  - apply Bool.eqb_prop in H. now subst.
  - apply Z.eqb_eq in H. subst.
    destruct y; cbn [Z_of_bool];
      destruct (Z.eqb_spec n 1), (Z.eqb_spec n 0); try reflexivity; lia.
  - apply Z.eqb_eq in H. subst.
    destruct z; cbn [Z_of_bool];
      destruct (Z.eqb_spec n 1), (Z.eqb_spec n 0); try reflexivity; lia.
  - apply Z.eqb_eq in H. now subst.
  - apply String.eqb_eq in H. now subst.
Qed.

Lemma counter_get_set (c : counter) (v k : json) (n : Z) :
  Forall (fun kn => hashable (fst kn) = true) c ->
  hashable v = true -> hashable k = true ->
  counter_get k (counter_set v n c) =
  if py_eq v k then n else counter_get k c.
Proof.
  intros Hc Hv Hk. induction Hc as [|[k' m] r Hk' Hr IH];
    cbn [counter_set counter_get].
  - destruct (py_eq v k); reflexivity.
  - cbn [fst] in Hk'. destruct (py_eq k' v) eqn:E1; cbn [counter_get].
    + destruct (py_eq v k) eqn:E2.
      * now rewrite <- (py_eq_hashable_trans k' v k Hk' Hv Hk E2), E1.
      * destruct (py_eq k' k) eqn:E3; [|reflexivity].
        assert (Hkv : py_eq v k = py_eq v k') .
        { apply (py_eq_hashable_trans v k k'); auto.
          rewrite <- E3. clear - Hk Hk'.
          destruct k as [|x|n|s|l|d], k' as [|y|m|t|l'|d'];
            cbn [hashable py_eq] in *; try discriminate; try reflexivity.
          - now destruct x, y.
          - apply Z.eqb_sym.
          - apply Z.eqb_sym.
          - apply Z.eqb_sym.
          - apply String.eqb_sym. }
        assert (Hvk : py_eq v k' = py_eq k' v).
        { clear - Hv Hk'.
          destruct v as [|x|n|s|l|d], k' as [|y|m|t|l'|d'];
            cbn [hashable py_eq] in *; try discriminate; try reflexivity.
          - now destruct x, y.
          - apply Z.eqb_sym.
          - apply Z.eqb_sym.
          - apply Z.eqb_sym.
          - apply String.eqb_sym. }
        congruence.
    + destruct (py_eq k' k) eqn:E3; [|exact IH].
      destruct (py_eq v k) eqn:E2; [|reflexivity].
      assert (Hkk : py_eq k' v = py_eq k' k).
      { apply py_eq_hashable_trans; auto. }
      congruence.
Qed.

Lemma counter_set_hashable (c : counter) (v : json) (n : Z) :
  Forall (fun kn => hashable (fst kn) = true) c ->
  hashable v = true ->
  Forall (fun kn => hashable (fst kn) = true) (counter_set v n c).
Proof.
  intros Hc Hv. induction Hc as [|[k' m] r Hk' Hr IH]; cbn [counter_set].
  - now repeat constructor.
  - destruct (py_eq k' v); constructor; auto.
Qed.

Lemma counter_set_total (c : counter) (v : json) :
  counts_total (counter_set v (counter_get v c + 1) c) =
  (counts_total c + 1)%Z.
Proof.
  unfold counts_total.
  induction c as [|[k' m] r IH]; cbn [counter_set counter_get fold_right snd].
  - lia.
  - destruct (py_eq k' v); cbn [fold_right snd]; lia.
Qed.

Lemma counter_set_least (c : counter) (v : json) :
  Forall (fun kn => (1 <= snd kn)%Z) c ->
  Forall (fun kn => (1 <= snd kn)%Z)
    (counter_set v (counter_get v c + 1) c).
Proof.
  intros Hc. induction Hc as [|[k' m] r Hm Hr IH];
    cbn [counter_set counter_get].
  - repeat constructor. cbn. lia.
  - cbn [snd] in Hm. destruct (py_eq k' v); constructor; auto. cbn. lia.
Qed.

(** What one [count] does to a counter. *)
Lemma count_facts (value : json) (c c' : counter) :
  Forall (fun kn => hashable (fst kn) = true) c ->
  Forall (fun kn => (1 <= snd kn)%Z) c ->
  count value c = Ok c' ->
  Forall (fun kn => hashable (fst kn) = true) c' /\
  Forall (fun kn => (1 <= snd kn)%Z) c' /\
  counts_total c' = (counts_total c + if truthy value then 1 else 0)%Z /\
  forall k, hashable k = true ->
    counter_get k c' =
    (counter_get k c + if truthy value && py_eq value k then 1 else 0)%Z.
Proof.
  intros Hh Hl. unfold count.
  destruct (truthy value); cbn [andb].
  - destruct (hashable value) eqn:Hv; [|discriminate].
    intros [= <-]. split; [now apply counter_set_hashable|].
    split; [now apply counter_set_least|].
    split; [apply counter_set_total|].
    intros k Hk. rewrite counter_get_set by assumption.
    destruct (py_eq value k) eqn:E; [|lia].
    assert (Hs : counter_get value c = counter_get k c).
    { clear - Hh Hv Hk E. induction Hh as [|[k' m] r Hk' Hr IH];
        cbn [counter_get]; [reflexivity|].
      cbn [fst] in Hk'.
      rewrite (py_eq_hashable_trans k' value k Hk' Hv Hk E).
      now rewrite IH. }
    lia.
  - intros [= <-]. repeat split; auto; intros; lia.
Qed.

Lemma counter_inv_nil (field : string) : counter_inv field [] [].
Proof. repeat split; auto. Qed.

Lemma counter_inv_skip (field : string) (seen : list json) (a : json)
    (c : counter) :
  truthy (counted_value field a) = false ->
  counter_inv field seen c -> counter_inv field (seen ++ [a]) c.
Proof.
  intros Ha (H1 & H2 & H3 & H4). repeat split; auto.
  - rewrite H3. unfold carrying. rewrite filter_app. cbn [filter].
    rewrite Ha, app_nil_r. reflexivity.
  - intros k Hk. rewrite (H4 k Hk). unfold occurrences.
    rewrite filter_app. cbn [filter]. rewrite Ha. cbn [andb].
    rewrite app_nil_r. reflexivity.
Qed.

Lemma counter_inv_count (field : string) (seen : list json) (a : json)
    (c c' : counter) :
  count (counted_value field a) c = Ok c' ->
  counter_inv field seen c -> counter_inv field (seen ++ [a]) c'.
Proof.
  intros Hc (H1 & H2 & H3 & H4).
  destruct (count_facts _ _ _ H1 H2 Hc) as (G1 & G2 & G3 & G4).
  repeat split; auto.
  - rewrite G3, H3. unfold carrying. rewrite filter_app, length_app.
    cbn [filter]. destruct (truthy (counted_value field a));
      cbn [List.length]; lia.
  - intros k Hk. rewrite (G4 k Hk), (H4 k Hk). unfold occurrences.
    rewrite filter_app, length_app. cbn [filter].
    destruct (truthy (counted_value field a) &&
              py_eq (counted_value field a) k); cbn [List.length]; lia.
Qed.

Lemma summarize_one_inv (seen : list json) (a : json) (s s' : summary) :
  summarize_one a s = Ok s' ->
  summary_inv seen s ->
  summary_inv (seen ++ [a]) s' /\ total s' = total s.
Proof.
  intros Hone (I1 & I2 & I3).
  assert (Hskip : forall f, truthy (counted_value f a) = false ->
                            forall c, counter_inv f seen c ->
                                      counter_inv f (seen ++ [a]) c).
  { intros f Hf c. now apply counter_inv_skip. }
  destruct a as [|b|n|t|l|d]; cbn [summarize_one] in Hone;
    try (injection Hone as <-; split; [|reflexivity];
         split; [|split]; (apply Hskip; [reflexivity | assumption])).
  unfold py_get at 1 in Hone. cbn [bind] in Hone.
  destruct (dict_get "attributes" d) as [attrs|] eqn:Ha.
  - destruct attrs as [|b|n|t|l|atts]; cbn [py_get bind] in Hone;
      try discriminate.
    destruct (count _ (by_type s)) as [ty|] eqn:C1; cbn [bind] in Hone;
      [|discriminate].
    destruct (count _ (by_event s)) as [ev|] eqn:C2; cbn [bind] in Hone;
      [|discriminate].
    destruct (count _ (by_item_type s)) as [it|] eqn:C3; cbn [bind] in Hone;
      [|discriminate].
    injection Hone as <-. cbn [by_type by_event by_item_type total].
    split; [|reflexivity].
    split; [|split];
      (eapply counter_inv_count; [|eassumption]);
      unfold counted_value; rewrite Ha; assumption.
  - cbn [py_get bind dict_get count truthy] in Hone.
    injection Hone as <-. destruct s; cbn [by_type by_event by_item_type total] in *.
    split; [|reflexivity].
    split; [|split]; (apply Hskip; [|assumption]);
      unfold counted_value; now rewrite Ha.
Qed.

Lemma summarize_loop_inv (acts seen : list json) (s s' : summary) :
  summarize_loop acts s = Ok s' ->
  summary_inv seen s ->
  summary_inv (seen ++ acts) s' /\ total s' = total s.
Proof.
  revert seen s. induction acts as [|a rest IH]; intros seen s;
    cbn [summarize_loop].
  - intros [= <-] Hs. now rewrite app_nil_r.
  - destruct (summarize_one a s) as [s1|] eqn:H1; cbn [bind];
      [|discriminate].
    intros Hl Hs.
    destruct (summarize_one_inv seen a s s1 H1 Hs) as [Hs1 Ht1].
    destruct (IH (seen ++ [a])%list s1 Hl Hs1) as [Hs' Ht'].
    rewrite <- app_assoc in Hs'. cbn [app] in Hs'. split; [exact Hs'|].
    congruence.
Qed.

Lemma count_hashable (value : json) (c : counter) :
  hashable value = true -> exists c', count value c = Ok c'.
Proof.
  intros H. unfold count. rewrite H. destruct (truthy value); eauto.
Qed.

Lemma summarize_one_countable (a : json) (s : summary) :
  countable a = true -> exists s', summarize_one a s = Ok s'.
Proof.
  destruct a as [|b|n|t|l|d]; cbn [summarize_one]; eauto.
  unfold countable. unfold py_get at 1. cbn [bind].
  destruct (dict_get "attributes" d) as [attrs|] eqn:Ha.
  - destruct attrs as [|b|n|t|l|atts]; try discriminate.
    unfold counted_value. rewrite Ha. rewrite !andb_true_iff.
    intros [[H1 H2] H3]. cbn [py_get bind].
    destruct (count_hashable _ (by_type s) H1) as [c1 ->].
    destruct (count_hashable _ (by_event s) H2) as [c2 ->].
    destruct (count_hashable _ (by_item_type s) H3) as [c3 ->].
    cbn [bind]. eauto.
  - intros _. cbn [py_get bind dict_get count truthy]. eauto.
Qed.

Lemma summarize_loop_countable (acts : list json) (s : summary) :
  forallb countable acts = true -> exists s', summarize_loop acts s = Ok s'.
Proof.
  revert s. induction acts as [|a rest IH]; intros s; cbn [summarize_loop forallb];
    eauto.
  rewrite andb_true_iff. intros [Ha Hr].
  destruct (summarize_one_countable a s Ha) as [s1 ->]. cbn [bind].
  now apply IH.
Qed.

Lemma entry_below_total (c : counter) (k : json) (n : Z) :
  Forall (fun kn => (1 <= snd kn)%Z) c ->
  In (k, n) c -> (1 <= n <= counts_total c)%Z.
Proof.
  unfold counts_total. intros Hc.
  induction Hc as [|[k' m] r Hm Hr IH]; [intros []|].
  cbn [snd] in Hm. cbn [fold_right snd].
  assert (0 <= fold_right (fun kn acc => (snd kn + acc)%Z) 0%Z r)%Z.
  { clear - Hr. induction Hr as [|[k2 m2] r2 H2 Hr2 IH2]; cbn [fold_right snd] in *; lia. }
  intros [[= <- <-] | Hin]; [lia|]. specialize (IH Hin). lia.
Qed.

Lemma carrying_le (field : string) (acts : list json) :
  (carrying field acts <= Z.of_nat (List.length acts))%Z.
Proof.
  unfold carrying. apply inj_le.
  induction acts as [|a r IH]; cbn [filter List.length]; [lia|].
  destruct (truthy (counted_value field a)); cbn [List.length]; lia.
Qed.

End Counters.

(** X16: the summary of [_summarize_activities] counts what it says.
    Activities that are mappings with mapping attributes (or none) whose
    [type], [event] and [item_type] are scalars are always summarised.
    Whenever a summary is returned, [total] is the number of activities;
    in each of the three counters the count of a value is the number of
    activities that carry that value in the field, the counts add up to
    the number of activities with a true value in the field, and every
    count recorded is at least 1 and at most [total]. *)
Theorem activity_summary_counts (activities : list json) :
  (forallb countable activities = true ->
   exists s, Activities._summarize_activities activities = Ok s) /\
  forall s, Activities._summarize_activities activities = Ok s ->
    Activities.total s = Z.of_nat (List.length activities) /\
    (forall k, Activities.hashable k = true ->
       Activities.counter_get k (Activities.by_type s) =
         occurrences "type" k activities /\
       Activities.counter_get k (Activities.by_event s) =
         occurrences "event" k activities /\
       Activities.counter_get k (Activities.by_item_type s) =
         occurrences "item_type" k activities) /\
    counts_total (Activities.by_type s) = carrying "type" activities /\
    counts_total (Activities.by_event s) = carrying "event" activities /\
    counts_total (Activities.by_item_type s) =
      carrying "item_type" activities /\
    (forall k n,
       In (k, n) (Activities.by_type s ++ Activities.by_event s ++
                  Activities.by_item_type s) ->
       (1 <= n <= Activities.total s)%Z).
Proof.
  split; [apply summarize_loop_countable|].
  intros s Hs. unfold Activities._summarize_activities in Hs.
  destruct (summarize_loop_inv activities [] _ s Hs) as [Hinv Ht];
    [split; [|split]; apply counter_inv_nil|].
  cbn [app Activities.total] in Hinv, Ht.
  destruct Hinv as ((A1 & A2 & A3 & A4) & (B1 & B2 & B3 & B4) &
                    (C1 & C2 & C3 & C4)).
  split; [exact Ht|]. split; [|split; [|split; [|split]]]; auto.
  intros k n Hin. rewrite Ht.
  rewrite !in_app_iff in Hin. destruct Hin as [Hin | [Hin | Hin]].
  - pose proof (entry_below_total _ _ _ A2 Hin) as Hn. rewrite A3 in Hn.
    pose proof (carrying_le "type" activities). lia.
  - pose proof (entry_below_total _ _ _ B2 Hin) as Hn. rewrite B3 in Hn.
    pose proof (carrying_le "event" activities). lia.
  - pose proof (entry_below_total _ _ _ C2 Hin) as Hn. rewrite C3 in Hn.
    pose proof (carrying_le "item_type" activities). lia.
Qed.

(** * The properties on sample inputs *)

(** X1 on a transport that alternates failures and 503 answers: the
    fourth outcome is a 503, whose body is not JSON. *)
Lemma flaky_server_exhausts_retries :
  (forall n, transient (flaky_server n)) /\
  _request init flaky_server =
  {| ending :=
       RaiseAPIError {| message := JStr "HTTP 503: busy";
                        error_status := Some 503%Z;
                        error_code := JStr "UNKNOWN" |};
     sleeps := [1; 2; 4]%Q; attempts_made := 4 |}.
Proof.
  assert (H : forall n, transient (flaky_server n)).
  { intros n. unfold flaky_server.
    destruct (Nat.even n); cbn; [exact I | right; lia]. }
  split; [exact H|].
  exact (request_exhausts_retries flaky_server H).
Defined.

(** X2 on a server that answers 503 three times and then 200. *)
Lemma request_recovers_after_three_failures :
  ~ retryable (status_code (ok_200 empty_list_document)) /\
  ending (_request init (after_failures 3 (ok_200 empty_list_document))) =
  Return empty_list_document /\
  attempts_made (_request init (after_failures 3 (ok_200 empty_list_document)))
  = 4 /\
  sleeps (_request init (after_failures 3 (ok_200 empty_list_document))) =
  [1; 2; 4]%Q.
Proof.
  assert (Hn : ~ retryable (status_code (ok_200 empty_list_document))).
  { unfold retryable. cbn. lia. }
  assert (Ht : forall n, n < 3 ->
                 transient (after_failures 3 (ok_200 empty_list_document) n)).
  { intros n Hlt. unfold after_failures.
    destruct (Nat.ltb_spec n 3); [|lia]. cbn. right. lia. }
  split; [exact Hn|].
  destruct (request_ends_at_first_settled
              (after_failures 3 (ok_200 empty_list_document)) 3
              (ok_200 empty_list_document) (le_n 3) Ht eq_refl Hn)
    as [Hrun Hbody].
  split; [exact (Hbody empty_list_document eq_refl eq_refl)|].
  rewrite Hrun. split; reflexivity.
Defined.



(** X6 on a project: [number] is deny-listed for projects. *)
Lemma project_number_is_removed :
  remove_null_and_empty strip_tags project_resource =
  Ok (JObj [("type", JStr "projects"); ("id", JStr "4");
            ("attributes", JObj [("name", JStr "P")])]) /\
  In "number" (denied_fields (type_of project_fields)) /\
  dict_get "number" [("name", JStr "P")] = None.
Proof.
  assert (Hin : In "number" (denied_fields (type_of project_fields))).
  { cbn. tauto. }
  split; [reflexivity|]. split; [exact Hin|].
  exact (denied_fields_are_removed strip_tags project_fields
           [("type", JStr "projects"); ("id", JStr "4");
            ("attributes", JObj [("name", JStr "P")])]
           [("name", JStr "P")] "number" eq_refl eq_refl Hin).
Defined.

(** X7 on the body of a comment, with a [bleach.clean] that drops the
    tags. *)
Lemma comment_body_is_stripped :
  remove_null_and_empty strip_tags comment_resource =
  Ok (JObj [("type", JStr "comments");
            ("attributes",
             JObj [("body", JStr "Hello world"); ("draft", JBool false)])]) /\
  exists a',
    dict_get "attributes"
      [("type", JStr "comments");
       ("attributes",
        JObj [("body", JStr "Hello world"); ("draft", JBool false)])] =
    Some (JObj a') /\
    dict_get "body" a' = Some (JStr "Hello world").
Proof.
  split; [reflexivity|].
  refine (text_attributes_after_pruning strip_tags comment_fields
            [("type", JStr "comments");
             ("attributes",
              JObj [("body", JStr "Hello world"); ("draft", JBool false)])]
            comment_attributes "body" "<p>Hello <b>world</b></p>"
            eq_refl eq_refl eq_refl eq_refl _ _ _).
  - discriminate.
  - discriminate.
  - cbn. tauto.
Defined.

(** X8 on [meta_not_included]. *)
Lemma meta_without_included_false :
  remove_null_and_empty strip_tags meta_not_included =
  Ok (JObj [("meta", JObj [("total", JNum 0)])]) /\
  [("total", JNum 0)] <> [] /\
  dict_get "settings" [("total", JNum 0)] = None /\
  dict_get "included" [("total", JNum 0)] <> Some (JBool false).
Proof.
  split; [reflexivity|].
  exact (meta_after_pruning strip_tags
           [("meta", JObj [("included", JBool false); ("total", JNum 0)])]
           [("meta", JObj [("total", JNum 0)])] [("total", JNum 0)]
           eq_refl eq_refl).
Defined.


(** X10 on the task with a worked time, fetched without side-loads. *)
Lemma task_without_side_loads :
  exists f,
    remove_null_and_empty strip_tags task_with_worked_time = Ok (JObj f) /\
    JObj [("data", JObj worked_time_resource)] =
    with_webapp_urls "acme" no_repr f.
Proof.
  exact (filter_response_without_side_loads "acme" strip_tags no_repr
           worked_time_fields (JObj [("data", JObj worked_time_resource)])
           eq_refl eq_refl).
Defined.

(** X11 on a fetched list of two tasks with a side-loaded status, and on
    an empty list, with a handler that raises the error it is given. *)
Lemma project_task_of_fetched_tasks :
  TaskLookup.get_project_task "acme" strip_tags no_repr ProductiveAPIError
    reraise "12" 3 (Return (JObj fetched_tasks)) =
  TaskLookup.TaskDocument first_task_view /\
  (exists f,
     remove_null_and_empty strip_tags
       (JObj [("data",
               JObj [("type", JStr "tasks"); ("id", JStr "7");
                     ("attributes", JObj [("title", JStr "T")])])]) =
     Ok (JObj f) /\
     first_task_view = with_webapp_urls "acme" no_repr f) /\
  TaskLookup.get_project_task "acme" strip_tags no_repr ProductiveAPIError
    reraise "12" 3 (Return empty_list_document) =
  TaskLookup.HandlerRaised
    {| message := JStr "Task #12 not found in project 3";
       error_status := Some 404%Z;
       error_code := JNull |}.
Proof.
  split; [reflexivity|]. split.
  - exact (proj1 (proj2 (proj2
             (get_project_task_uses_first_task "acme" strip_tags no_repr
                ProductiveAPIError reraise "12" 3)))
             fetched_tasks _ _ first_task_view eq_refl eq_refl).
  - exact (proj2 (proj2 (proj2 (proj2
             (get_project_task_uses_first_task "acme" strip_tags no_repr
                ProductiveAPIError reraise "12" 3)))
             [("data", JArr [])] eq_refl)).
Defined.

(** X12 on [task_with_status]: the first of the two side-loaded statuses
    with the id 9 gives the name. *)
Lemma status_name_of_sample_task :
  exists item',
    filter_response "acme" strip_tags no_repr task_with_status =
    Ok (JObj (dict_set "data" (JObj item') status_task_fields)) /\
    dict_get "attributes" item' =
    Some (JObj [("title", JStr "T"); ("workflow_status_name", JStr "Open")]).
Proof.
  assert (Href : refers_to_status status_task (JStr "9")).
  { exists [("workflow_status", JObj [("data", JObj status_reference)])],
      [("data", JObj status_reference)], status_reference.
    repeat split; reflexivity. }
  destruct (workflow_status_name_of_first_match "acme" strip_tags no_repr
              status_task_fields status_task_fields status_task
              [("title", JStr "T")]
              [("type", JStr "workflow_statuses"); ("id", JStr "9");
               ("attributes", JObj [("name", JStr "Open")])]
              [("name", JStr "Open")] (JStr "9") (JStr "Open")
              [JObj [("type", JStr "people"); ("id", JStr "9")]]
              [JObj [("type", JStr "workflow_statuses"); ("id", JStr "9");
                     ("attributes", JObj [("name", JStr "Late")])]]
              eq_refl eq_refl eq_refl eq_refl Href eq_refl eq_refl eq_refl
              eq_refl eq_refl eq_refl) as (item' & Hout & Hattrs & _).
  exists item'. split; [exact Hout | exact Hattrs].
Defined.

(** X13 on a caller who passes [include], [sort], a page size and a
    status filter in [extra_filters]. *)
Lemma tasks_request_of_caller_filters :
  nodup_keys (keys caller_filters) = true /\
  dict_get "include"
    (Requests.get_tasks_request None 50 "-last_activity_at" (Some 2%Z) None
       (Some caller_filters)) = Some (JStr "workflow_status") /\
  dict_get "sort"
    (Requests.get_tasks_request None 50 "-last_activity_at" (Some 2%Z) None
       (Some caller_filters)) = Some (JStr "title") /\
  dict_get "filter[project_id][eq]"
    (Requests.get_tasks_request None 50 "-last_activity_at" (Some 2%Z) None
       (Some caller_filters)) = Some (JNum 2).
Proof.
  split; [reflexivity|].
  destruct (tasks_request_always_includes_status None 50
              "-last_activity_at" (Some 2%Z) None (Some caller_filters)
              eq_refl) as (Hi & Hk & _ & Hp).
  split; [exact Hi|]. split.
  - apply Hk; [discriminate | reflexivity].
  - exact (Hp eq_refl).
Defined.

(** X15 on the same filters: the [sort] of the caller is lost. *)
Lemma comments_request_of_caller_filters :
  nodup_keys (keys caller_filters) = true /\
  dict_get "sort"
    (Activities.get_comments_params (Some 2%Z) None None 50
       (Some caller_filters)) = Some (JStr "-created_at") /\
  dict_get "page[size]"
    (Activities.get_comments_params (Some 2%Z) None None 50
       (Some caller_filters)) = Some (JNum 5).
Proof.
  split; [reflexivity|].
  destruct (comments_request_sort_is_fixed (Some 2%Z) None None 50
              (Some caller_filters) eq_refl) as (Hs & Hk & _).
  split; [exact Hs|].
  apply Hk; [discriminate | reflexivity].
Defined.

(** X16 on [sample_activities]: two of the four activities have the event
    [create], and the types [1] and [True] are counted under one key. *)
Lemma summary_of_sample_activities :
  exists s,
    Activities._summarize_activities sample_activities = Ok s /\
    Activities.total s = 4%Z /\
    Activities.counter_get (JStr "create") (Activities.by_event s) = 2%Z /\
    Activities.counter_get (JBool true) (Activities.by_type s) = 2%Z /\
    counts_total (Activities.by_item_type s) = 3%Z.
Proof.
  destruct (proj1 (activity_summary_counts sample_activities) eq_refl)
    as [s Hs].
  exists s. split; [exact Hs|].
  destruct (proj2 (activity_summary_counts sample_activities) s Hs)
    as (Ht & Hk & _ & _ & Hi & _).
  split; [exact Ht|]. split; [|split].
  - exact (proj1 (proj2 (Hk (JStr "create") eq_refl))).
  - exact (proj1 (Hk (JBool true) eq_refl)).
  - exact Hi.
Defined.
